(** * torchbiggraph.graph_storages: a shallow embedding and its properties

    The file follows [torchbiggraph/graph_storages.py]: the metadata helpers
    ([save_count], [load_count], [load_names]), the file-backed entity and
    relation-type storages, [BufferedDataset], [FileEdgeAppender] and
    [FileEdgeStorage].  Python integers are [Z]; 64-bit tensor arithmetic is
    written with its wrap-around; one-dimensional int64 tensors and HDF5
    datasets are [list Z]; dictionaries are [gmap]; code that raises returns
    a [result]; code that mutates an object and may raise returns the new
    object together with a [result]. *)

From Stdlib Require Import ZArith Lia String Ascii List Bool.
From Stdlib Require Import DecimalString DecimalZ DecimalPos DecimalFacts.
From stdpp Require Import base option list strings gmap fin_maps.

Local Open Scope string_scope.
Local Open Scope list_scope.
Local Open Scope Z_scope.

(** ** Exceptions *)

(** The text of a [RuntimeError], kept structured: the two messages of
    [load_chunk_of_edges] carry the file path they name; the others are the
    ones the tensor library raises. *)
Inductive runtime_msg : Type :=
  | DoesNotExist (file_path : string)
  | VersionMismatch (file_path : string)
  | NegativeDimension (n : Z)
  | ShapeMismatch (expected got : Z)
  | ExpandNotAllowed (n : Z)
  | ScalarOverflow.

Inductive exn : Type :=
  | AssertionError
  | RuntimeError (msg : runtime_msg)
  | CouldNotLoadData
  | KeyError (key : string)
  | ValueError
  | TypeError
  | IndexError
  | OverflowError
  | ZeroDivisionError
  | OSError
  | IsADirectoryError
  | FileExistsError
  | UnicodeDecodeError
  | JSONDecodeError.

Inductive result (A : Type) : Type :=
  | Ok (a : A)
  | Raise (e : exn).
Arguments Ok {A} a.
Arguments Raise {A} e.

Definition rbind {A B : Type} (m : result A) (k : A -> result B) : result B :=
  match m with
  | Ok a => k a
  | Raise e => Raise e
  end.

Definition rmap {A B : Type} (f : A -> B) (m : result A) : result B :=
  rbind m (fun a => Ok (f a)).

Notation "'do' x <- m ; k" := (rbind m (fun x => k))
  (at level 10, x name, m at level 100, k at level 200).
Notation "'do' ' ( x , y ) <- m ; k" := (rbind m (fun '(x, y) => k))
  (at level 10, x name, y name, m at level 100, k at level 200).

(** ** Python numbers *)

Module Py.

(** A finite binary64 value [fmant * 2 ^ fexp], [|fmant| <= 2 ^ 53]. *)
Record float : Type := Float { fmant : Z; fexp : Z }.

(** [(q, r, d)] with [x * 2 ^ (- e) = q * d + r] over the rationals:
    the quotient of [x / y] scaled to the exponent [e]. *)
Definition scaled_divmod (x y e : Z) : Z * Z * Z :=
  if e <? 0
  then (x * 2 ^ (- e) / y, (x * 2 ^ (- e)) mod y, y)
  else (x / (y * 2 ^ e), x mod (y * 2 ^ e), y * 2 ^ e).

(** Round to nearest, ties to even. *)
Definition round_half_even (q r d : Z) : Z :=
  if 2 * r <? d then q
  else if d <? 2 * r then q + 1
  else if Z.even q then q else q + 1.

(** The exponent of the last place of [x / y] in binary64, for
    [0 < x], [0 < y]: 53 significant bits, but never below the exponent
    of the subnormal numbers. *)
Definition ulp_exponent (x y : Z) : Z :=
  let e0 := Z.log2 x - Z.log2 y - 52 in
  let '(q0, _, _) := scaled_divmod x y e0 in
  Z.max (if q0 <? 2 ^ 52 then e0 - 1 else e0) (- 1074).

(** [a / b] on two Python ints: the binary64 number nearest to the exact
    quotient (CPython's [long_true_divide] is correctly rounded), with
    [ZeroDivisionError] for a zero divisor and [OverflowError] when the
    quotient is too large for a float. *)
Definition true_divide (a b : Z) : result float :=
  if b =? 0 then Raise ZeroDivisionError
  else if a =? 0 then Ok (Float 0 0)
  else
    let x := Z.abs a in
    let y := Z.abs b in
    let e := ulp_exponent x y in
    let '(q, r, d) := scaled_divmod x y e in
    let m := round_half_even q r d in
    if (971 <? e) || ((e =? 971) && (m =? 2 ^ 53))
    then Raise OverflowError
    else Ok (Float (Z.sgn a * Z.sgn b * m) e).

(** [int(x)] on a float: truncation towards zero. *)
Definition int_of_float (x : float) : Z :=
  if fexp x <? 0
  then Z.quot (fmant x) (2 ^ (- fexp x))
  else fmant x * 2 ^ fexp x.

(** [int(a / b)]. *)
Definition int_true_divide (a b : Z) : result Z :=
  rmap int_of_float (true_divide a b).

End Py.

(** ** The chunk of [load_chunk_of_edges]

    Lines 409-410: [begin = int(chunk_idx * num_edges / num_chunks)] and
    [end = int((chunk_idx + 1) * num_edges / num_chunks)]. *)
Definition chunk_bounds (chunk_idx num_edges num_chunks : Z) : result (Z * Z) :=
  do begin_ <- Py.int_true_divide (chunk_idx * num_edges) num_chunks;
  do end_ <- Py.int_true_divide ((chunk_idx + 1) * num_edges) num_chunks;
  Ok (begin_, end_).

(** Index [j] lies in chunk [i] of [n] of a shard of [N] edges. *)
Definition in_chunk (N n i j : Z) : Prop :=
  exists b e, chunk_bounds i N n = Ok (b, e) /\ b <= j < e.


(** The chunks [0 .. n-1] of a shard of [N] edges tile [[0, N)]: every chunk
    is a range inside [[0, N)], two different chunks share no index, the
    chunks come in increasing order, and every index is in some chunk. *)
Definition chunks_tile (N n : Z) : Prop :=
  (forall i, 0 <= i < n ->
     exists b e, chunk_bounds i N n = Ok (b, e) /\ 0 <= b <= e /\ e <= N) /\
  (forall i i' j, 0 <= i < n -> 0 <= i' < n ->
     in_chunk N n i j -> in_chunk N n i' j -> i = i') /\
  (forall i i' j j', 0 <= i < i' -> i' < n ->
     in_chunk N n i j -> in_chunk N n i' j' -> j < j') /\
  (forall j, 0 <= j < N <-> exists i, 0 <= i < n /\ in_chunk N n i j).

(** ** One-dimensional int64 tensors and datasets *)

Definition len {A : Type} (l : list A) : Z := Z.of_nat (length l).

(** Reduction of an integer to the int64 range, as tensor arithmetic wraps. *)
Definition wrap64 (x : Z) : Z := (x + 2 ^ 63) mod 2 ^ 64 - 2 ^ 63.

Definition in_int64 (x : Z) : bool := (- 2 ^ 63 <=? x) && (x <? 2 ^ 63).

Module Slice.

(** A slice bound against a sequence of length [n], as
    [slice.indices] does for step 1: a negative bound counts from the
    end, and the result is clamped to [[0, n]]. *)
Definition clamp_index (n i : Z) : Z :=
  if i <? 0 then Z.max (i + n) 0 else Z.min i n.

(** [t[start:stop]]. *)
Definition getitem (t : list Z) (start stop : Z) : list Z :=
  let i := clamp_index (len t) start in
  let j := clamp_index (len t) stop in
  take (Z.to_nat (j - i)) (drop (Z.to_nat i) t).

(** [t[start:stop] = v]: [v] has the size of the slice, or a single
    element that is broadcast; [None] when the shapes do not agree. *)
Definition setitem (t : list Z) (start stop : Z) (v : list Z)
  : option (list Z) :=
  let i := clamp_index (len t) start in
  let j := clamp_index (len t) stop in
  let n := Z.max (j - i) 0 in
  if len v =? n
  then Some (take (Z.to_nat i) t ++ v ++ drop (Z.to_nat (i + n)) t)
  else match v with
       | [x] => Some (take (Z.to_nat i) t ++ replicate (Z.to_nat n) x
                        ++ drop (Z.to_nat (i + n)) t)
       | _ => None
       end.

End Slice.

Module Tensor.

(** [torch.empty((n,), dtype=torch.long)]; the content is unspecified
    and is zero here. *)
Definition empty (n : Z) : result (list Z) :=
  if n <? 0 then Raise (RuntimeError (NegativeDimension n))
  else Ok (replicate (Z.to_nat n) 0).

Definition setitem (t : list Z) (start stop : Z) (v : list Z)
  : result (list Z) :=
  match Slice.setitem t start stop v with
  | Some t' => Ok t'
  | None =>
      Raise (RuntimeError
               (ShapeMismatch
                  (Z.max (Slice.clamp_index (len t) stop
                          - Slice.clamp_index (len t) start) 0) (len v)))
  end.

(** [t + k] for a Python int [k]: the scalar must fit int64, the sums
    wrap. *)
Definition add_scalar (t : list Z) (k : Z) : result (list Z) :=
  if in_int64 k then Ok (map (fun x => wrap64 (x + k)) t)
  else Raise (RuntimeError ScalarOverflow).

End Tensor.

Module H5.

(** [Dataset.resize(n, axis=0)]: truncates, or extends with the fill
    value 0. *)
Definition resize (ds : list Z) (n : Z) : result (list Z) :=
  if n <? 0 then Raise ValueError
  else Ok (take (Z.to_nat n) ds ++ replicate (Z.to_nat (n - len ds)) 0).

Definition setitem (ds : list Z) (start stop : Z) (v : list Z)
  : result (list Z) :=
  match Slice.setitem ds start stop v with
  | Some ds' => Ok ds'
  | None => Raise TypeError
  end.

(** [Dataset.read_direct(dest, source_sel=np.s_[start:stop])] into a
    destination of [n] elements; an empty selection is refused
    (h5py issue 870). *)
Definition read_direct (ds : list Z) (n start stop : Z) : result (list Z) :=
  let sel := Slice.getitem ds start stop in
  if (len sel =? n) && (0 <? n) then Ok sel else Raise TypeError.

(** An HDF5 file: its integer attributes and its named datasets. *)
Record File : Type := mkFile {
  attrs : gmap string Z;
  dsets : gmap string (list Z)
}.

End H5.

(** ** BufferedDataset *)

Definition BUFFER_SIZE : Z := 2 ^ 20 / 8.

(** [dataset] is the content of the [h5py.Dataset] the object holds. *)
Record BufferedDataset : Type := mkBufferedDataset {
  dataset_name : string;
  dataset : list Z;
  buffer : list Z;
  buffer_offset : Z;
  total_data : Z
}.

Definition set_dataset (ds : list Z) (self : BufferedDataset) :=
  mkBufferedDataset (dataset_name self) ds (buffer self)
    (buffer_offset self) (total_data self).
Definition set_buffer (b : list Z) (self : BufferedDataset) :=
  mkBufferedDataset (dataset_name self) (dataset self) b
    (buffer_offset self) (total_data self).
Definition set_buffer_offset (o : Z) (self : BufferedDataset) :=
  mkBufferedDataset (dataset_name self) (dataset self) (buffer self)
    o (total_data self).
Definition set_total_data (n : Z) (self : BufferedDataset) :=
  mkBufferedDataset (dataset_name self) (dataset self) (buffer self)
    (buffer_offset self) n.

Module BufferedDataset.

(** [__init__]: [create_dataset] refuses a name the file already has.
    The names are those of the datasets of the root group: a name is
    taken without [/], as are all the names the code makes. *)
Definition __init__ (hf : H5.File) (dataset_name : string)
  : result BufferedDataset :=
  match H5.dsets hf !! dataset_name with
  | Some _ => Raise ValueError
  | None =>
      do buffer <- Tensor.empty BUFFER_SIZE;
      Ok (mkBufferedDataset dataset_name [] buffer 0 0)
  end.

Definition flush_buffer (_last : bool) (self : BufferedDataset)
  : BufferedDataset * result unit :=
  let proceed :=
    if negb _last
    then if buffer_offset self =? BUFFER_SIZE
         then Ok true else Raise AssertionError
    else if buffer_offset self =? 0 then Ok false else Ok true in
  match proceed with
  | Raise e => (self, Raise e)
  | Ok false => (self, Ok tt)
  | Ok true =>
      match H5.resize (dataset self)
              (len (dataset self) + buffer_offset self) with
      | Raise e => (self, Raise e)
      | Ok ds =>
          let self := set_dataset ds self in
          match H5.setitem ds (- buffer_offset self) (len ds)
                  (Slice.getitem (buffer self) 0 (buffer_offset self)) with
          | Raise e => (self, Raise e)
          | Ok ds => (set_buffer_offset 0 (set_dataset ds self), Ok tt)
          end
      end
  end.

(** The [while True] loop of [append]; [None] when [fuel] iterations were
    not enough to leave it. *)
Fixpoint append_loop (fuel : nat) (tensor : list Z) (tensor_offset : Z)
    (self : BufferedDataset) : option (BufferedDataset * result unit) :=
  match fuel with
  | O => None
  | S fuel =>
      let tensor_left := len tensor - tensor_offset in
      let buffer_left := BUFFER_SIZE - buffer_offset self in
      if buffer_left <=? tensor_left then
        match Tensor.setitem (buffer self) (buffer_offset self)
                (buffer_offset self + buffer_left)
                (Slice.getitem tensor tensor_offset
                   (tensor_offset + buffer_left)) with
        | Raise e => Some (self, Raise e)
        | Ok b =>
            let self :=
              set_buffer_offset (buffer_offset self + buffer_left)
                (set_buffer b self) in
            match flush_buffer false self with
            | (self, Raise e) => Some (self, Raise e)
            | (self, Ok _) =>
                append_loop fuel tensor (tensor_offset + buffer_left) self
            end
        end
      else
        match Tensor.setitem (buffer self) (buffer_offset self)
                (buffer_offset self + tensor_left)
                (Slice.getitem tensor tensor_offset
                   (tensor_offset + tensor_left)) with
        | Raise e => Some (self, Raise e)
        | Ok b =>
            Some (set_buffer_offset (buffer_offset self + tensor_left)
                    (set_buffer b self), Ok tt)
        end
  end.

(** Iterations that always suffice: after the first one the buffer is
    empty, and every later one but the last takes [BUFFER_SIZE] elements
    of the tensor. *)
Definition append_fuel (tensor : list Z) (self : BufferedDataset) : nat :=
  S (S (Z.to_nat (len tensor - (BUFFER_SIZE - buffer_offset self)))).

Definition append (tensor : list Z) (self : BufferedDataset)
  : BufferedDataset * result unit :=
  match append_loop (append_fuel tensor self) tensor 0 self with
  | Some (self, Ok _) =>
      (set_total_data (total_data self + len tensor) self, Ok tt)
  | Some (self, Raise e) => (self, Raise e)
  | None => (self, Raise AssertionError)
  end.

(** Appending a sequence of tensors, one [append] call each, stopping at
    the first that raises. *)
Fixpoint append_all (tensors : list (list Z)) (self : BufferedDataset)
  : BufferedDataset * result unit :=
  match tensors with
  | [] => (self, Ok tt)
  | tensor :: tensors =>
      match append tensor self with
      | (self, Ok _) => append_all tensors self
      | (self, Raise e) => (self, Raise e)
      end
  end.

End BufferedDataset.

(** The values appended to a [BufferedDataset] and not flushed yet, and
    everything appended so far, in order. *)
Definition pending (self : BufferedDataset) : list Z :=
  take (Z.to_nat (buffer_offset self)) (buffer self).
Definition contents (self : BufferedDataset) : list Z :=
  dataset self ++ pending self.

(** The state of a [BufferedDataset] between two calls of its methods,
    before the final flush. *)
Record buffered_inv (self : BufferedDataset) : Prop := mk_buffered_inv {
  inv_buffer : len (buffer self) = BUFFER_SIZE;
  inv_offset : 0 <= buffer_offset self < BUFFER_SIZE;
  inv_total : len (dataset self) + buffer_offset self = total_data self;
  inv_multiple : len (dataset self) mod BUFFER_SIZE = 0
}.

(** ** Ragged lists and edge lists *)

(** Modelled from the spec: the classes [TensorList], [EntityList] and
    [EdgeList] are imported by [graph_storages.py] and are not among the
    sources; they are the data the spec describes.  A ragged list is a pair
    (offsets, data) with one more offset than records, record [i] being
    [data[offsets[i] : offsets[i+1]]]; an entity list is a tensor of
    identifiers with a ragged list of features; an edge list has two
    entity lists and the relation types. *)
Record TensorList : Type := mkTensorList {
  offsets : list Z;
  data : list Z
}.

Record EntityList : Type := mkEntityList {
  tensor : list Z;
  tensor_list : TensorList
}.

Record EdgeList : Type := mkEdgeList {
  lhs : EntityList;
  rhs : EntityList;
  rel : list Z
}.

(** The offsets that follow [start] for the given records. *)
Fixpoint offsets_from (start : Z) (records : list (list Z)) : list Z :=
  match records with
  | [] => []
  | r :: records => (start + len r) :: offsets_from (start + len r) records
  end.

(** Modelled from the spec: the ragged list of a list of records, offsets
    starting at 0. *)
Definition ragged (records : list (list Z)) : TensorList :=
  mkTensorList (0 :: offsets_from 0 records) (concat records).

Module TensorOps.

(** [t[i].item()], a negative [i] counting from the end. *)
Definition item (t : list Z) (i : Z) : result Z :=
  let j := if i <? 0 then i + len t else i in
  if j <? 0 then Raise IndexError
  else match t !! Z.to_nat j with
       | Some x => Ok x
       | None => Raise IndexError
       end.

(** [torch.zeros((), dtype=torch.long).expand(n)]. *)
Definition expand_zero (n : Z) : result (list Z) :=
  if n <? 0 then Raise (RuntimeError (ExpandNotAllowed n))
  else Ok (replicate (Z.to_nat n) 0).

End TensorOps.

(** ** Code that mutates an object and may raise *)

Definition stateE (S A : Type) : Type := S -> S * result A.

Definition sret {S A : Type} (a : A) : stateE S A := fun s => (s, Ok a).

Definition sbind {S A B : Type} (m : stateE S A) (k : A -> stateE S B)
  : stateE S B :=
  fun s =>
    match m s with
    | (s, Ok a) => k a s
    | (s, Raise e) => (s, Raise e)
    end.

Definition slift {S A : Type} (r : result A) : stateE S A := fun s => (s, r).

Notation "'run' x <- m ; k" := (sbind m (fun x => k))
  (at level 10, x name, m at level 100, k at level 200).
Notation "m ;; k" := (sbind m (fun _ => k))
  (at level 100, k at level 200, right associativity).

(** ** FileEdgeAppender *)

(** [hf] holds the attributes of the file and the datasets it had when the
    appender was built; the datasets made through the appender are in
    [datasets], each with the content of its [h5py.Dataset]. *)
Record FileEdgeAppender : Type := mkFileEdgeAppender {
  hf : H5.File;
  datasets : gmap string BufferedDataset
}.

Definition set_datasets (ds : gmap string BufferedDataset)
    (self : FileEdgeAppender) : FileEdgeAppender :=
  mkFileEdgeAppender (hf self) ds.

(** The file of an appender as it stands on disk: what has been flushed. *)
Definition current_file (self : FileEdgeAppender) : H5.File :=
  H5.mkFile (H5.attrs (hf self))
    ((dataset <$> datasets self) ∪ H5.dsets (hf self)).

Module FileEdgeAppender.

Definition __init__ (hf : H5.File) : FileEdgeAppender :=
  mkFileEdgeAppender hf ∅.

(** [self.datasets[name] = BufferedDataset(self.hf, name)]. *)
Definition new_dataset (name : string) : stateE FileEdgeAppender unit :=
  fun self =>
    match BufferedDataset.__init__ (current_file self) name with
    | Ok d => (set_datasets (<[name := d]> (datasets self)) self, Ok tt)
    | Raise e => (self, Raise e)
    end.

(** [self.datasets[name].method(...)]: the object in the dictionary is
    updated in place. *)
Definition on_dataset {A : Type} (name : string)
    (method : BufferedDataset -> BufferedDataset * result A)
  : stateE FileEdgeAppender A :=
  fun self =>
    match datasets self !! name with
    | Some d =>
        let '(d, r) := method d in
        (set_datasets (<[name := d]> (datasets self)) self, r)
    | None => (self, Raise (KeyError name))
    end.

Definition has_dataset (name : string) : stateE FileEdgeAppender bool :=
  fun self => (self, Ok (bool_decide (is_Some (datasets self !! name)))).

(** The flush of one dataset in [__exit__], skipped once a flush has
    raised. *)
Definition exit_step (name : string) (d : BufferedDataset)
    (acc : gmap string BufferedDataset * result unit)
  : gmap string BufferedDataset * result unit :=
  match acc with
  | (ds, Ok _) =>
      let '(d, r) := BufferedDataset.flush_buffer true d in
      (<[name := d]> ds, r)
  | (ds, Raise e) => (ds, Raise e)
  end.

(** [__exit__]: every dataset is flushed for the last time and the file
    is closed.  The dictionary is walked in the order of the map, Python
    walks it in insertion order; the two differ only in which flush
    raises first. *)
Definition __exit__ : stateE FileEdgeAppender unit :=
  fun self =>
    let '(ds, r) := map_fold exit_step (datasets self, Ok tt)
                      (datasets self) in
    (set_datasets ds self, r).

Definition append_tensor (name : string) (tensor : list Z)
  : stateE FileEdgeAppender unit :=
  run present <- has_dataset name;
  (if present then sret tt else new_dataset name);;
  on_dataset name (BufferedDataset.append tensor).

Definition append_tensor_list (name : string) (tensor_list : TensorList)
  : stateE FileEdgeAppender unit :=
  let offsets_name := name +:+ "_offsets" in
  let data_name := name +:+ "_data" in
  run present <- has_dataset offsets_name;
  (if present then sret tt
   else new_dataset offsets_name;;
        on_dataset offsets_name (BufferedDataset.append [0]));;
  run present <- has_dataset data_name;
  (if present then sret tt else new_dataset data_name);;
  run total <- on_dataset data_name (fun d => (d, Ok (total_data d)));
  run offsets <- slift (Tensor.add_scalar
                          (Slice.getitem (offsets tensor_list) 1
                             (len (offsets tensor_list))) total);
  let data := data tensor_list in
  on_dataset offsets_name (BufferedDataset.append offsets);;
  on_dataset data_name (BufferedDataset.append data).

Definition append_edges (edgelist : EdgeList)
  : stateE FileEdgeAppender unit :=
  append_tensor "lhs" (tensor (lhs edgelist));;
  append_tensor "rhs" (tensor (rhs edgelist));;
  append_tensor "rel" (rel edgelist);;
  (if len (data (tensor_list (lhs edgelist))) =? 0 then sret tt
   else append_tensor_list "lhsd" (tensor_list (lhs edgelist)));;
  (if len (data (tensor_list (rhs edgelist))) =? 0 then sret tt
   else append_tensor_list "rhsd" (tensor_list (rhs edgelist))).

End FileEdgeAppender.

(** ** Reading ragged columns *)

Definition read_dynamic (hf : H5.File) (key : string) (begin_ end_ : Z)
  : result TensorList :=
  match H5.dsets hf !! (key +:+ "_offsets"),
        H5.dsets hf !! (key +:+ "_data") with
  | Some offsets_ds, Some data_ds =>
      do offsets <- Tensor.empty (end_ - begin_ + 1);
      do offsets <- H5.read_direct offsets_ds (len offsets)
                      begin_ (end_ + 1);
      do data_begin <- TensorOps.item offsets 0;
      do data_end <- TensorOps.item offsets (- 1);
      do data <- Tensor.empty (data_end - data_begin);
      do data <- (if 0 <? data_end - data_begin
                  then H5.read_direct data_ds (len data) data_begin data_end
                  else Ok data);
      Ok (mkTensorList (map (fun o => wrap64 (o - data_begin)) offsets) data)
  | _, _ =>
      do offsets <- TensorOps.expand_zero (end_ - begin_ + 1);
      Ok (mkTensorList offsets [])
  end.

(** [append_tensor_list] for each ragged list of a sequence, in order. *)
Fixpoint append_tensor_lists (name : string) (lists : list TensorList)
  : stateE FileEdgeAppender unit :=
  match lists with
  | [] => sret tt
  | tensor_list :: lists =>
      FileEdgeAppender.append_tensor_list name tensor_list;;
      append_tensor_lists name lists
  end.

(** Every dataset of the appender is between two calls of its methods. *)
Definition appender_inv (self : FileEdgeAppender) : Prop :=
  map_Forall (fun _ d => buffered_inv d) (datasets self).

(** The file has no dataset of that name, flushed or not. *)
Definition no_dataset (self : FileEdgeAppender) (name : string) : Prop :=
  datasets self !! name = None /\ H5.dsets (hf self) !! name = None.

(** The column [name] of the appender holds the given records. *)
Definition holds_records (self : FileEdgeAppender) (name : string)
    (records : list (list Z)) : Prop :=
  exists dO dD,
    datasets self !! (name +:+ "_offsets") = Some dO /\
    datasets self !! (name +:+ "_data") = Some dD /\
    contents dO = 0 :: offsets_from 0 records /\
    contents dD = concat records.

(** The session of the spec's example: [[1,2],[3]] then [[],[4,5,6]] are
    appended to the column [lhsd] of a new file, which is then closed. *)
Definition example_session : stateE FileEdgeAppender unit :=
  append_tensor_lists "lhsd"
    [ragged [[1; 2]; [3]]; ragged [[]; [4; 5; 6]]];;
  FileEdgeAppender.__exit__.

Definition example_file : H5.File :=
  current_file
    (fst (example_session (FileEdgeAppender.__init__ (H5.mkFile ∅ ∅)))).

(** ** Text: formatting and parsing integers *)

Definition newline : string := String "010"%char "".

Module PyStr.

(** [f"{n}"] for an int: decimal digits, with a minus sign when
    negative. *)
Definition of_int (n : Z) : string := NilZero.string_of_int (Z.to_int n).

(** [str.isspace] on a character of an ASCII text. *)
Definition is_space (c : ascii) : bool :=
  let n := N_of_ascii c in
  ((9 <=? n) && (n <=? 13) || (28 <=? n) && (n <=? 32))%N.

Definition is_digit (c : ascii) : bool :=
  let n := N_of_ascii c in ((48 <=? n) && (n <=? 57))%N.

Fixpoint lstrip (s : string) : string :=
  match s with
  | String c r => if is_space c then lstrip r else s
  | EmptyString => EmptyString
  end.

Fixpoint rstrip (s : string) : string :=
  match s with
  | String c r =>
      match rstrip r with
      | EmptyString => if is_space c then EmptyString
                       else String c EmptyString
      | r' => String c r'
      end
  | EmptyString => EmptyString
  end.

(** [s.strip()]. *)
Definition strip (s : string) : string := rstrip (lstrip s).

(** The digits that follow a digit, without the underscores that may
    separate two digits. *)
Fixpoint drop_underscores (s : string) : option string :=
  match s with
  | EmptyString => Some EmptyString
  | String c r =>
      if Ascii.eqb c "_" then
        match r with
        | String c' r' =>
            if is_digit c'
            then option_map (String c') (drop_underscores r')
            else None
        | EmptyString => None
        end
      else option_map (String c) (drop_underscores r)
  end.

(** [int(s)] in base 10: surrounding whitespace, an optional sign,
    digits. *)
Definition to_int (s : string) : result Z :=
  let s := strip s in
  let '(negative, s) :=
    match s with
    | String c r =>
        if Ascii.eqb c "-" then (true, r)
        else if Ascii.eqb c "+" then (false, r)
        else (false, s)
    | EmptyString => (false, s)
    end in
  match s with
  | String c r =>
      if is_digit c then
        match drop_underscores r with
        | Some r =>
            match NilEmpty.uint_of_string (String c r) with
            | Some d => Ok (if negative : bool
                            then - Z.of_uint d else Z.of_uint d)
            | None => Raise ValueError
            end
        | None => Raise ValueError
        end
      else Raise ValueError
  | EmptyString => Raise ValueError
  end.

(** [s.startswith(prefix)]. *)
Fixpoint startswith (s prefix : string) : bool :=
  match prefix, s with
  | EmptyString, _ => true
  | String p prefix, String c s => Ascii.eqb c p && startswith s prefix
  | String _ _, EmptyString => false
  end.

(** [s[n:]] for [n >= 0]. *)
Fixpoint slice_from (n : nat) (s : string) : string :=
  match n, s with
  | O, _ => s
  | S n, String _ s => slice_from n s
  | S _, EmptyString => EmptyString
  end.

End PyStr.

(** ** Paths and the file system *)

Module Path.

(** A path: the directory and the final component. *)
Record t : Type := mk { parent : string; name : string }.

(** [dir / name] for a name of one component.  [pathlib] parses the
    name it joins: with a [/] in it the name designates a file in a
    directory below [dir], and empty or [.] components are dropped;
    the properties that range over names take them without [/]. *)
Definition joinpath (dir name : string) : t := mk dir name.

Definition str (p : t) : string := parent p +:+ "/" +:+ name p.

(** The parts of a name before and after its last dot. *)
Fixpoint last_dot_split (s : string) : option (string * string) :=
  match s with
  | String c r =>
      match last_dot_split r with
      | Some (before, after) => Some (String c before, after)
      | None => if Ascii.eqb c "." then Some (EmptyString, r) else None
      end
  | EmptyString => None
  end.

(** [PurePath.suffix]: from the last dot on, unless the dot is the first
    or the last character of the name. *)
Definition suffix (p : t) : string :=
  match last_dot_split (name p) with
  | Some (String c before, String c' after) => "." +:+ String c' after
  | _ => EmptyString
  end.

Definition stem (p : t) : string :=
  match last_dot_split (name p) with
  | Some (String c before, String c' after) => String c before
  | _ => name p
  end.

End Path.

(** What a path designates: a text file, an HDF5 file or a directory.
    The directory a new file is written in is taken to exist ([prepare]
    makes it), and the file system to take the file: the length of its
    name, the rights of the process and the room left are not
    modelled. *)
Inductive node : Type :=
  | TextFile (content : string)
  | H5File (content : H5.File)
  | Directory.

Definition is_file (fs : gmap string node) (path : Path.t) : bool :=
  match fs !! Path.str path with
  | Some (TextFile _) | Some (H5File _) => true
  | Some Directory | None => false
  end.

(** ** Counts and names *)

Definition save_count (path : Path.t) (count : Z) (fs : gmap string node)
  : gmap string node * result unit :=
  match fs !! Path.str path with
  | Some Directory => (fs, Raise IsADirectoryError)
  | _ => (<[Path.str path := TextFile (PyStr.of_int count +:+ newline)]> fs,
          Ok tt)
  end.

(** [path.open("rt")] and [tf.read()]: [FileNotFoundError] is the only
    exception the callers handle. *)
Inductive open_error : Type :=
  | FileNotFoundError
  | OtherOpenError (e : exn).

Definition read_text (path : Path.t) (fs : gmap string node)
  : open_error + string :=
  match fs !! Path.str path with
  | None => inl FileNotFoundError
  | Some Directory => inl (OtherOpenError IsADirectoryError)
  | Some (H5File _) => inl (OtherOpenError UnicodeDecodeError)
  | Some (TextFile s) => inr s
  end.

Definition load_count (path : Path.t) (fs : gmap string node) : result Z :=
  match read_text path fs with
  | inr s => PyStr.to_int s
  | inl FileNotFoundError => Raise CouldNotLoadData
  | inl (OtherOpenError e) => Raise e
  end.

Section Names.

(** [json.loads] on the text of a file: the parsed list of names, or
    [None] for [JSONDecodeError]. *)
Variable json_loads : string -> option (list string).

Definition load_names (path : Path.t) (fs : gmap string node)
  : result (list string) :=
  match read_text path fs with
  | inr s => match json_loads s with
             | Some names => Ok names
             | None => Raise JSONDecodeError
             end
  | inl FileNotFoundError => Raise CouldNotLoadData
  | inl (OtherOpenError e) => Raise e
  end.

(** [json.dumps(names, indent=4)]: the text that [json.dump] writes for
    a list of strings. *)
Variable json_dumps : list string -> string.

Definition save_names (path : Path.t) (names : list string)
    (fs : gmap string node) : gmap string node * result unit :=
  match fs !! Path.str path with
  | Some Directory => (fs, Raise IsADirectoryError)
  | _ => (<[Path.str path := TextFile (json_dumps names)]> fs, Ok tt)
  end.

End Names.

Module FileEntityStorage.

Record t : Type := mk { path : string }.

Definition get_count_file (self : t) (entity_name : string)
    (partition : Z) : Path.t :=
  Path.joinpath (path self)
    ("entity_count_" +:+ entity_name +:+ "_" +:+ PyStr.of_int partition
     +:+ ".txt").

Definition has_count (self : t) (entity_name : string) (partition : Z)
    (fs : gmap string node) : bool :=
  is_file fs (get_count_file self entity_name partition).

Definition save_count (self : t) (entity_name : string) (partition : Z)
    (count : Z) : stateE (gmap string node) unit :=
  save_count (get_count_file self entity_name partition) count.

Definition load_count (self : t) (entity_name : string) (partition : Z)
    (fs : gmap string node) : result Z :=
  load_count (get_count_file self entity_name partition) fs.

(** [resolve] is [Path.resolve], which depends on the working directory
    and on the links of the file system. *)
Definition __init__ (resolve : string -> string) (path : string) : t :=
  let path := if PyStr.startswith path "file://"
              then PyStr.slice_from (String.length "file://") path
              else path in
  mk (resolve path).

Definition get_names_file (self : t) (entity_name : string)
    (partition : Z) : Path.t :=
  Path.joinpath (path self)
    ("entity_names_" +:+ entity_name +:+ "_" +:+ PyStr.of_int partition
     +:+ ".json").

Definition has_names (self : t) (entity_name : string) (partition : Z)
    (fs : gmap string node) : bool :=
  is_file fs (get_names_file self entity_name partition).

Definition save_names (json_dumps : list string -> string) (self : t)
    (entity_name : string) (partition : Z) (names : list string)
  : stateE (gmap string node) unit :=
  save_names json_dumps (get_names_file self entity_name partition) names.

Definition load_names (json_loads : string -> option (list string))
    (self : t) (entity_name : string) (partition : Z)
    (fs : gmap string node) : result (list string) :=
  load_names json_loads (get_names_file self entity_name partition) fs.

End FileEntityStorage.

Module FileRelationTypeStorage.

Record t : Type := mk { path : string }.

Definition get_count_file (self : t) : Path.t :=
  Path.joinpath (path self) "dynamic_rel_count.txt".

(** Annotated [-> None] in the source; the value returned is that of
    [is_file()]. *)
Definition has_count (self : t) (fs : gmap string node) : bool :=
  is_file fs (get_count_file self).

Definition save_count (self : t) (count : Z)
  : stateE (gmap string node) unit :=
  save_count (get_count_file self) count.

Definition load_count (self : t) (fs : gmap string node) : result Z :=
  load_count (get_count_file self) fs.

(** [resolve] is [Path.resolve], which depends on the working directory
    and on the links of the file system. *)
Definition __init__ (resolve : string -> string) (path : string) : t :=
  let path := if PyStr.startswith path "file://"
              then PyStr.slice_from (String.length "file://") path
              else path in
  mk (resolve path).

Definition get_names_file (self : t) : Path.t :=
  Path.joinpath (path self) "dynamic_rel_names.json".

Definition has_names (self : t) (fs : gmap string node) : bool :=
  is_file fs (get_names_file self).

Definition save_names (json_dumps : list string -> string) (self : t)
    (names : list string) : stateE (gmap string node) unit :=
  save_names json_dumps (get_names_file self) names.

Definition load_names (json_loads : string -> option (list string))
    (self : t) (fs : gmap string node) : result (list string) :=
  load_names json_loads (get_names_file self) fs.

End FileRelationTypeStorage.

(** ** FileEdgeStorage *)

Definition FORMAT_VERSION_ATTR : string := "format_version".
Definition FORMAT_VERSION : Z := 1.

Module FileEdgeStorage.

Record t : Type := mk { path : string }.

Definition get_edges_file (self : t) (lhs_p rhs_p : Z) : Path.t :=
  Path.joinpath (path self)
    ("edges_" +:+ PyStr.of_int lhs_p +:+ "_" +:+ PyStr.of_int rhs_p
     +:+ ".h5").

Definition has_edges (self : t) (lhs_p rhs_p : Z) (fs : gmap string node)
  : bool :=
  is_file fs (get_edges_file self lhs_p rhs_p).

(** [hf[name]]. *)
Definition getitem (hf : H5.File) (name : string) : result (list Z) :=
  match H5.dsets hf !! name with
  | Some ds => Ok ds
  | None => Raise (KeyError name)
  end.

(** The body of the [with] statement of [load_chunk_of_edges], on the
    open file. *)
Definition read_chunk (hf : H5.File) (chunk_idx num_chunks : Z)
  : result EdgeList :=
  do lhs_ds <- getitem hf "lhs";
  do rhs_ds <- getitem hf "rhs";
  do rel_ds <- getitem hf "rel";
  let num_edges := len rel_ds in
  do '(begin_, end_) <- chunk_bounds chunk_idx num_edges num_chunks;
  do lhs <- Tensor.empty (end_ - begin_);
  do rhs <- Tensor.empty (end_ - begin_);
  do rel <- Tensor.empty (end_ - begin_);
  do '(lhs, rhs_rel) <-
    (if 0 <? end_ - begin_ then
       do lhs <- H5.read_direct lhs_ds (len lhs) begin_ end_;
       do rhs <- H5.read_direct rhs_ds (len rhs) begin_ end_;
       do rel <- H5.read_direct rel_ds (len rel) begin_ end_;
       Ok (lhs, (rhs, rel))
     else Ok (lhs, (rhs, rel)));
  let '(rhs, rel) := rhs_rel in
  do lhsd <- read_dynamic hf "lhsd" begin_ end_;
  do rhsd <- read_dynamic hf "rhsd" begin_ end_;
  Ok (mkEdgeList (mkEntityList lhs lhsd) (mkEntityList rhs rhsd) rel).

Definition load_chunk_of_edges (self : t) (lhs_p rhs_p : Z)
    (chunk_idx num_chunks : Z) (fs : gmap string node) : result EdgeList :=
  let file_path := get_edges_file self lhs_p rhs_p in
  if negb (is_file fs file_path)
  then Raise (RuntimeError (DoesNotExist (Path.str file_path)))
  else
    match fs !! Path.str file_path with
    | Some (H5File hf) =>
        if negb (bool_decide (H5.attrs hf !! FORMAT_VERSION_ATTR
                              = Some FORMAT_VERSION))
        then Raise (RuntimeError (VersionMismatch (Path.str file_path)))
        else read_chunk hf chunk_idx num_chunks
    | _ => Raise OSError
    end.

Definition load_edges (self : t) (lhs_p rhs_p : Z) (fs : gmap string node)
  : result EdgeList :=
  load_chunk_of_edges self lhs_p rhs_p 0 1 fs.

(** The temporary path of [save_edges_by_appending]. *)
Definition tmp_file_path (file_path : Path.t) : Path.t :=
  Path.joinpath (Path.parent file_path)
    (Path.stem file_path +:+ ".tmp" +:+ Path.suffix file_path).

(** [tmp_file_path.rename(file_path)]: the target is replaced, unless it
    is a directory. *)
Definition rename (src dst : Path.t) (fs : gmap string node)
  : gmap string node * result unit :=
  match fs !! Path.str src with
  | None => (fs, Raise OSError)
  | Some n =>
      match fs !! Path.str dst with
      | Some Directory => (fs, Raise IsADirectoryError)
      | _ => (<[Path.str dst := n]> (delete (Path.str src) fs), Ok tt)
      end
  end.

(** The appender that the [with] statement hands to its body: a new
    file, the format version stamped, no dataset. *)
Definition new_appender : FileEdgeAppender :=
  let hf := H5.mkFile ∅ ∅ in
  let appender := FileEdgeAppender.__init__ hf in
  mkFileEdgeAppender
    (H5.mkFile (<[FORMAT_VERSION_ATTR := FORMAT_VERSION]> (H5.attrs hf))
       (H5.dsets hf))
    (datasets appender).

(** [save_edges_by_appending] with the body of its [with] statement.
    The temporary file is on disk from its creation; what it holds when
    the appender has left is what has been flushed. *)
Definition save_edges_by_appending (self : t) (lhs_p rhs_p : Z)
    (body : stateE FileEdgeAppender unit)
  : stateE (gmap string node) unit :=
  fun fs =>
    let file_path := get_edges_file self lhs_p rhs_p in
    let tmp_file_path := tmp_file_path file_path in
    let fs := if is_file fs tmp_file_path
              then delete (Path.str tmp_file_path) fs else fs in
    match fs !! Path.str tmp_file_path with
    | Some _ => (fs, Raise FileExistsError)
    | None =>
        let '(appender, r) := body new_appender in
        let '(appender, r_exit) := FileEdgeAppender.__exit__ appender in
        let fs := <[Path.str tmp_file_path
                    := H5File (current_file appender)]> fs in
        match r_exit, r with
        | Raise e, _ => (fs, Raise e)
        | Ok _, Raise e => (fs, Raise e)
        | Ok _, Ok _ => rename tmp_file_path file_path fs
        end
    end.

Definition save_edges (self : t) (lhs_p rhs_p : Z) (edges : EdgeList)
  : stateE (gmap string node) unit :=
  save_edges_by_appending self lhs_p rhs_p
    (FileEdgeAppender.append_edges edges).

(** [resolve] is [Path.resolve], which depends on the working directory
    and on the links of the file system. *)
Definition __init__ (resolve : string -> string) (path : string) : t :=
  let path := if PyStr.startswith path "file://"
              then PyStr.slice_from (String.length "file://") path
              else path in
  mk (resolve path).

End FileEdgeStorage.

(** ** Predicates used in the statements *)

(** Every character of the string satisfies [p]. *)
Fixpoint all_chars (p : ascii -> bool) (s : string) : bool :=
  match s with
  | String c r => p c && all_chars p r
  | EmptyString => true
  end.

(** The two fatal errors of [load_chunk_of_edges], whose text names the
    file path. *)
Definition names_file_path (e : exn) : bool :=
  match e with
  | RuntimeError (DoesNotExist _) | RuntimeError (VersionMismatch _) => true
  | _ => false
  end.

(** A computation on the appender that leaves the file object and every
    dataset not in [names] as they were, however it ends. *)
Definition touches_only {A : Type} (names : list string)
    (m : stateE FileEdgeAppender A) : Prop :=
  forall self self' r,
    m self = (self', r) ->
    hf self' = hf self /\
    forall k, ~ In k names -> datasets self' !! k = datasets self !! k.

(** The ragged column [key] of a shard of [n] edges: not written, or the
    encoding of one record per edge. *)
Definition dynamic_column (hf : H5.File) (key : string) (n : Z) : Prop :=
  (H5.dsets hf !! (key +:+ "_offsets") = None \/
   H5.dsets hf !! (key +:+ "_data") = None) \/
  exists records : list (list Z),
    H5.dsets hf !! (key +:+ "_offsets") = Some (0 :: offsets_from 0 records) /\
    H5.dsets hf !! (key +:+ "_data") = Some (concat records) /\
    len records = n /\ len (concat records) < 2 ^ 63.

(** A shard with its three columns of one length and its ragged columns,
    stamped with the supported version. *)
Record shard (hf : H5.File) (lhs_ds rhs_ds rel_ds : list Z) : Prop :=
  mk_shard {
    shard_version : H5.attrs hf !! FORMAT_VERSION_ATTR = Some FORMAT_VERSION;
    shard_lhs : H5.dsets hf !! "lhs" = Some lhs_ds;
    shard_rhs : H5.dsets hf !! "rhs" = Some rhs_ds;
    shard_rel : H5.dsets hf !! "rel" = Some rel_ds;
    shard_len_lhs : len lhs_ds = len rel_ds;
    shard_len_rhs : len rhs_ds = len rel_ds;
    shard_lhsd : dynamic_column hf "lhsd" (len rel_ds);
    shard_rhsd : dynamic_column hf "rhsd" (len rel_ds)
  }.

(** A session that appends nothing: the body of the [with] statement is
    empty. *)
Definition empty_session_fs : gmap string node :=
  fst (FileEdgeStorage.save_edges_by_appending (FileEdgeStorage.mk "/data")
         0 0 (sret tt) ∅).

(** A result that, when it is an exception, is not one of the two fatal
    errors naming the file path. *)
Definition other_errors {A : Type} (m : result A) : Prop :=
  forall e, m = Raise e -> names_file_path e = false.

(** What a write session on the shard [(lhs_p, rhs_p)] with the given body
    does to the file system [fs], when it leaves [fs'] and the result [r]:
    the temporary path is not the final path; no other path changes; a
    temporary file that was there is deleted first; the body starts on a
    file that has its format version and no dataset; the session returns
    normally only if the body and [__exit__] did, and then the closed file
    is at the final path and the temporary path is free; otherwise the
    final path is as it was. *)
Definition published_atomically (self : FileEdgeStorage.t) (lhs_p rhs_p : Z)
    (body : stateE FileEdgeAppender unit) (fs fs' : gmap string node)
    (r : result unit) : Prop :=
  let file_path := FileEdgeStorage.get_edges_file self lhs_p rhs_p in
  let tmp_file_path := FileEdgeStorage.tmp_file_path file_path in
  Path.str tmp_file_path <> Path.str file_path /\
  (forall p, p <> Path.str tmp_file_path -> p <> Path.str file_path ->
             fs' !! p = fs !! p) /\
  (is_file fs tmp_file_path = true ->
   FileEdgeStorage.save_edges_by_appending self lhs_p rhs_p body fs
   = FileEdgeStorage.save_edges_by_appending self lhs_p rhs_p body
       (delete (Path.str tmp_file_path) fs)) /\
  (H5.attrs (hf FileEdgeStorage.new_appender) !! FORMAT_VERSION_ATTR
   = Some FORMAT_VERSION /\
   H5.dsets (hf FileEdgeStorage.new_appender) = ∅ /\
   datasets FileEdgeStorage.new_appender = ∅) /\
  (r = Ok tt ->
   exists appender appender',
     body FileEdgeStorage.new_appender = (appender, Ok tt) /\
     FileEdgeAppender.__exit__ appender = (appender', Ok tt) /\
     fs' !! Path.str file_path = Some (H5File (current_file appender')) /\
     fs' !! Path.str tmp_file_path = None) /\
  (r <> Ok tt -> fs' !! Path.str file_path = fs !! Path.str file_path).

(** An edge list of three edges, the left side without features. *)
Definition example_edges : EdgeList :=
  mkEdgeList (mkEntityList [1; 2; 3] (ragged [[]; []; []]))
    (mkEntityList [4; 5; 6] (ragged [[7]; []; [8; 9]]))
    [0; 0; 1].

(** A shard of three edges without ragged columns, alone in a directory. *)
Definition example_shard : H5.File :=
  H5.mkFile {[ FORMAT_VERSION_ATTR := FORMAT_VERSION ]}
    {[ "lhs" := [1; 2; 3]; "rhs" := [4; 5; 6]; "rel" := [0; 0; 1] ]}.

Definition example_shard_fs : gmap string node :=
  {[ "/data/edges_0_0.h5" := H5File example_shard ]}.

(** ** Predicates of the further properties *)

(** The column [name] of the appender holds [values], flushed or not. *)
Definition column (self : FileEdgeAppender) (name : string)
    (values : list Z) : Prop :=
  exists d, datasets self !! name = Some d /\ contents d = values.

(** An edge list of [len (rel edges)] edges, the ragged list of each side
    being the encoding of one record per edge. *)
Record edge_list_of (edges : EdgeList)
    (lhs_records rhs_records : list (list Z)) : Prop := mk_edge_list_of {
  edges_lhs_len : len (tensor (lhs edges)) = len (rel edges);
  edges_rhs_len : len (tensor (rhs edges)) = len (rel edges);
  edges_lhs_ragged : tensor_list (lhs edges) = ragged lhs_records;
  edges_rhs_ragged : tensor_list (rhs edges) = ragged rhs_records;
  edges_lhs_records : len lhs_records = len (rel edges);
  edges_rhs_records : len rhs_records = len (rel edges)
}.

(** The ragged column [name] of the appender after records have been
    appended to it: it holds them, or they were all empty and its two
    datasets were never made. *)
Definition ragged_column (self : FileEdgeAppender) (name : string)
    (records : list (list Z)) : Prop :=
  holds_records self name records \/
  (concat records = [] /\
   datasets self !! (name +:+ "_offsets") = None /\
   datasets self !! (name +:+ "_data") = None).

(** A letter, a digit or an underscore. *)
Definition is_name_char (c : ascii) : bool :=
  let n := N_of_ascii c in
  ((48 <=? n) && (n <=? 57) || (65 <=? n) && (n <=? 90)
   || (97 <=? n) && (n <=? 122) || (n =? 95))%N.

(** The name of an entity type as it goes into a file name: letters,
    digits and underscores, so that the file name is one component of
    the path. *)
Definition is_entity_name (name : string) : bool :=
  all_chars is_name_char name.

(** The name of a dataset of the root group of a file: not empty, made of
    letters, digits and underscores. *)
Definition is_dataset_name (name : string) : bool :=
  negb (String.eqb name "") && all_chars is_name_char name.

(** The characters of a formatted integer: digits and the minus sign. *)
Definition is_int_char (c : ascii) : bool :=
  PyStr.is_digit c || Ascii.eqb c "-".

(** A character other than [c]. *)
Definition is_not (c : ascii) (x : ascii) : bool := negb (Ascii.eqb x c).

(** [Path.exists()]. *)
Definition path_exists (fs : gmap string node) (path : Path.t) : bool :=
  bool_decide (is_Some (fs !! Path.str path)).

(** ** A write session in several steps *)

(** [append_edges] for each edge list of a sequence, in order: the body of
    a [with] statement on [save_edges_by_appending]. *)
Fixpoint append_edge_lists (lists : list EdgeList)
  : stateE FileEdgeAppender unit :=
  match lists with
  | [] => sret tt
  | edges :: lists =>
      FileEdgeAppender.append_edges edges;;
      append_edge_lists lists
  end.

(** The edges handed to one call of [append_edges]: the identifiers and
    one record of features per edge for each side, and the relation
    types. *)
Record Batch : Type := mkBatch {
  b_lhs : list Z;
  b_lhs_records : list (list Z);
  b_rhs : list Z;
  b_rhs_records : list (list Z);
  b_rel : list Z
}.

Definition edges_of (b : Batch) : EdgeList :=
  mkEdgeList (mkEntityList (b_lhs b) (ragged (b_lhs_records b)))
    (mkEntityList (b_rhs b) (ragged (b_rhs_records b)))
    (b_rel b).

(** The records of one call that reach the ragged column: all of them, or
    none when they are all empty. *)
Definition written (records : list (list Z)) : list (list Z) :=
  match concat records with
  | [] => []
  | _ :: _ => records
  end.

(** The ragged column [name] of the appender holds the records [W], its
    datasets not being made as long as there is none. *)
Definition ragged_state (self : FileEdgeAppender) (name : string)
    (W : list (list Z)) : Prop :=
  (W <> [] /\ holds_records self name W) \/
  (W = [] /\
   datasets self !! (name +:+ "_offsets") = None /\
   datasets self !! (name +:+ "_data") = None).

(** The ragged column [name] of a file holds the records [W], or is
    absent when there is none. *)
Definition stored_ragged (hf : H5.File) (name : string)
    (W : list (list Z)) : Prop :=
  (W <> [] /\
   H5.dsets hf !! (name +:+ "_offsets") = Some (0 :: offsets_from 0 W) /\
   H5.dsets hf !! (name +:+ "_data") = Some (concat W)) \/
  (W = [] /\
   H5.dsets hf !! (name +:+ "_offsets") = None /\
   H5.dsets hf !! (name +:+ "_data") = None).

(** ** Tensors appended to the columns of an appender *)

(** [append_tensor] for each pair of a column name and a tensor, in
    order. *)
Fixpoint append_tensors (items : list (string * list Z))
  : stateE FileEdgeAppender unit :=
  match items with
  | [] => sret tt
  | (name, tensor) :: items =>
      FileEdgeAppender.append_tensor name tensor;;
      append_tensors items
  end.

(** The values appended to the column [name], in order. *)
Definition column_of (name : string) (items : list (string * list Z))
  : list Z :=
  concat (snd <$> filter (fun item => fst item = name) items).

(** * torchbiggraph.examples.livejournal: [random_split_file] *)

Module LiveJournal.

(** [FILENAMES['train']] and [FILENAMES['test']]. *)
Definition FILENAMES_train : string := "train.txt".
Definition FILENAMES_test : string := "test.txt".

(** [TRAIN_FRACTION = 0.75], the float [3 * 2 ^ -2]. *)
Definition TRAIN_FRACTION : Py.float := Py.Float 3 (- 2).

(** [int(n * x)] for an int [n] and a float [x]: [n] is converted to
    the nearest float, with [OverflowError] when it is too large; the
    exact product of the two floats is rounded to the nearest float;
    where the product is infinite it is [int] that raises
    [OverflowError]. *)
Definition int_mul (n : Z) (x : Py.float) : result Z :=
  do f <- Py.true_divide n 1;
  let m := Py.fmant f * Py.fmant x in
  let e := Py.fexp f + Py.fexp x in
  Py.int_true_divide (if e <? 0 then m else m * 2 ^ e)
    (if e <? 0 then 2 ^ (- e) else 1).

Definition is_cr (c : ascii) : bool := Ascii.eqb c "013".
Definition is_lf (c : ascii) : bool := Ascii.eqb c "010".

(** [tf.readlines()] on a file opened in text mode: a line ends after
    a line feed, a carriage return, or a carriage return and a line
    feed, each read as one line feed; what follows the last of them is
    a line of its own. *)
Fixpoint readlines (s : string) : list string :=
  match s with
  | EmptyString => []
  | String c r =>
      if is_lf c then newline :: readlines r
      else if is_cr c then
        match r with
        | String c' r' =>
            if is_lf c' then newline :: readlines r'
            else newline :: readlines r
        | EmptyString => [newline]
        end
      else
        match readlines r with
        | [] => [String c EmptyString]
        | line :: lines => String c line :: lines
        end
  end.

(** A line that ends with a line feed, its only line terminator. *)
Fixpoint ends_line (s : string) : bool :=
  match s with
  | EmptyString => false
  | String c EmptyString => is_lf c
  | String c r => negb (is_lf c) && negb (is_cr c) && ends_line r
  end.

(** [lines[k:]] and [lines[:k]]. *)
Definition slice_from (lines : list string) (k : Z) : list string :=
  drop (Z.to_nat (Slice.clamp_index (len lines) k)) lines.
Definition slice_to (lines : list string) (k : Z) : list string :=
  take (Z.to_nat (Slice.clamp_index (len lines) k)) lines.

(** [with path.open("wt") as tf: for line in lines: tf.write(line)]. *)
Definition write_lines (path : Path.t) (lines : list string)
    (fs : gmap string node) : gmap string node * (open_error + unit) :=
  match fs !! Path.str path with
  | Some Directory => (fs, inl (OtherOpenError IsADirectoryError))
  | _ => (<[Path.str path := TextFile (String.concat "" lines)]> fs,
          inr tt)
  end.

Section Shuffle.

(** [random.shuffle]: the order in which it leaves the list. *)
Variable shuffle : list string -> list string.

(** The messages printed are left out. *)
Definition random_split_file (fpath : Path.t) (fs : gmap string node)
  : gmap string node * (open_error + unit) :=
  let train_file := Path.joinpath (Path.parent fpath) FILENAMES_train in
  let test_file := Path.joinpath (Path.parent fpath) FILENAMES_test in
  if path_exists fs train_file && path_exists fs test_file
  then (fs, inr tt)
  else
    match read_text fpath fs with
    | inl e => (fs, inl e)
    | inr text =>
        let lines := readlines text in
        let lines := slice_from lines 4 in
        let lines := shuffle lines in
        match int_mul (len lines) TRAIN_FRACTION with
        | Raise e => (fs, inl (OtherOpenError e))
        | Ok split_len =>
            match write_lines train_file (slice_to lines split_len)
                    fs with
            | (fs, inl e) => (fs, inl e)
            | (fs, inr _) =>
                write_lines test_file (slice_from lines split_len) fs
            end
        end
    end.

End Shuffle.

End LiveJournal.

(** Two calls of [append_edges]: two edges, the left one of the first
    call without features. *)
Definition example_batches : list Batch :=
  [mkBatch [1] [[]] [2] [[5]] [0];
   mkBatch [3] [[6; 7]] [4] [[8]] [1]].

(** A download of four comment lines and four edges. *)
Definition example_text : string :=
  "# Directed graph" +:+ newline +:+ "# LiveJournal" +:+ newline
  +:+ "# Nodes: 3 Edges: 4" +:+ newline +:+ "# FromNodeId ToNodeId" +:+ newline
  +:+ "0 1" +:+ newline +:+ "0 2" +:+ newline
  +:+ "1 2" +:+ newline +:+ "2 0" +:+ newline.

Definition example_download : gmap string node :=
  {[ "/data/soc-LiveJournal1.txt" := TextFile example_text ]}.

(** One call of [append_edges] has as many identifiers and records on
    each side as it has relation types. *)
Definition batch_ok (b : Batch) : Prop :=
  len (b_lhs b) = len (b_rel b) /\ len (b_rhs b) = len (b_rel b) /\
  len (b_lhs_records b) = len (b_rel b) /\
  len (b_rhs_records b) = len (b_rel b).

(** The calls of a session agree on a side: every call that has records
    has feature values among them, or no call has any feature value. *)
Definition uniform (records_of : Batch -> list (list Z))
    (batches : list Batch) : Prop :=
  Forall (fun b => written (records_of b) = records_of b) batches \/
  Forall (fun b => concat (records_of b) = []) batches.

(** The edges of all the calls as one. *)
Definition merged (batches : list Batch) : Batch :=
  mkBatch (concat (b_lhs <$> batches)) (concat (b_lhs_records <$> batches))
    (concat (b_rhs <$> batches)) (concat (b_rhs_records <$> batches))
    (concat (b_rel <$> batches)).

(** Two calls of [append_edges], of two edges and of one: no feature on
    the left, features in both calls on the right. *)
Definition example_uniform_batches : list Batch :=
  [mkBatch [1; 2] [[]; []] [3; 4] [[5]; []] [0; 0];
   mkBatch [6] [[]] [7] [[8; 9]] [1]].

(** A stand-in for [json.dumps] and [json.loads] on lists of names without
    line feeds: one name per line. *)
Definition example_dumps (names : list string) : string :=
  String.concat "" ((fun name => name +:+ newline) <$> names).
Definition example_loads (text : string) : option (list string) :=
  Some (PyStr.rstrip <$> LiveJournal.readlines text).

(** Tensors appended to two columns in turn. *)
Definition example_items : list (string * list Z) :=
  [("lhs", [1; 2]); ("rel", [0]); ("lhs", [3])].

(** A directory of metadata: the count of one entity type and the names
    of another. *)
Definition example_counts : gmap string node :=
  {[ "/data/entity_count_item_0.txt" := TextFile ("17" +:+ newline);
     "/data/entity_names_item_0.json" := TextFile ("[]" +:+ newline) ]}.
(** * Properties *)

(** ** Integer true division on small operands *)

Section TrueDivide.

Lemma rbind_Ok {A B : Type} (m : result A) (k : A -> result B) (b : B) :
  rbind m k = Ok b <-> exists a, m = Ok a /\ k a = Ok b.
Proof.
  destruct m as [a|e]; simpl; split.
  - intros H. exists a. auto.
  - intros (a' & Ha & Hk). congruence.
  - discriminate.
  - intros (a' & Ha & _). discriminate.
Qed.

Lemma scaled_divmod_nonpos (x y e : Z) :
  e <= 0 ->
  Py.scaled_divmod x y e = (x * 2 ^ (- e) / y, (x * 2 ^ (- e)) mod y, y).
Proof.
  intros He. unfold Py.scaled_divmod.
  destruct (Z.ltb_spec e 0) as [Hlt|Hge]; [reflexivity|].
  assert (e = 0) as -> by lia.
  change (2 ^ (- 0)) with 1. change (2 ^ 0) with 1.
  now rewrite !Z.mul_1_r.
Qed.

Lemma int_of_float_nonpos (m e : Z) :
  e <= 0 -> Py.int_of_float (Py.Float m e) = Z.quot m (2 ^ (- e)).
Proof.
  intros He. unfold Py.int_of_float. simpl.
  destruct (Z.ltb_spec e 0) as [Hlt|Hge]; [reflexivity|].
  assert (e = 0) as -> by lia.
  change (2 ^ (- 0)) with 1. change (2 ^ 0) with 1.
  now rewrite Z.mul_1_r, Z.quot_1_r.
Qed.

Lemma round_half_even_cases (q r d : Z) :
  Py.round_half_even q r d = q \/
  (Py.round_half_even q r d = q + 1 /\ d <= 2 * r).
Proof.
  unfold Py.round_half_even.
  destruct (Z.ltb_spec (2 * r) d); [now left|].
  destruct (Z.ltb_spec d (2 * r)); [right; lia|].
  destruct (Z.even q); [now left | right; lia].
Qed.

(** Rounding a quotient that has 53 significant bits never reaches the
    next integer when the dividend is below [2 ^ 53]. *)
Lemma rounded_quotient_floor (a b P : Z) :
  0 < a < 2 ^ 53 -> 0 < b -> 0 < P ->
  2 ^ 52 <= a * P / b ->
  Py.round_half_even (a * P / b) ((a * P) mod b) b / P = a / b.
Proof.
  intros Ha Hb HP Hq.
  set (q := a * P / b) in *. set (r := (a * P) mod b).
  set (k := a / b).
  assert (Hdiv : a * P = b * q + r) by (apply Z.div_mod; lia).
  assert (Hr : 0 <= r < b) by (apply Z.mod_pos_bound; lia).
  assert (Hk : a = b * k + a mod b) by (apply Z.div_mod; lia).
  assert (Hkr : 0 <= a mod b < b) by (apply Z.mod_pos_bound; lia).
  assert (Hk0 : 0 <= k) by (apply Z.div_pos; lia).
  assert (Hlow : k * P <= q).
  { assert (b * (k * P) < b * (q + 1)) by nia. nia. }
  assert (Hup : q < (k + 1) * P).
  { assert (b * q < b * ((k + 1) * P)) by nia. nia. }
  symmetry. apply Z.div_unique with
    (r := Py.round_half_even q r b - k * P).
  - left.
    destruct (round_half_even_cases q r b) as [->|[-> Hhalf]]; [lia|].
    split; [lia|].
    destruct (Z.eq_dec (q + 1) ((k + 1) * P)) as [Heq|Hne]; [exfalso|lia].
    assert (Ht : P * ((k + 1) * b - a) = b - r) by nia.
    assert (Ht1 : 1 <= (k + 1) * b - a) by nia.
    assert (HP2 : 2 * P <= b) by nia.
    change (2 ^ 53) with (2 * 2 ^ 52) in Ha.
    change (2 ^ 52) with 4503599627370496 in *.
    nia.
  - lia.
Qed.

Lemma ulp_exponent_small (a b : Z) :
  0 < a < 2 ^ 53 -> 0 < b < 2 ^ 53 ->
  - 1074 <= Py.ulp_exponent a b <= 0 /\
  2 ^ 52 <= a * 2 ^ (- Py.ulp_exponent a b) / b.
Proof.
  intros Ha Hb. unfold Py.ulp_exponent.
  pose proof (Z.log2_spec a ltac:(lia)) as Hla.
  pose proof (Z.log2_spec b ltac:(lia)) as Hlb.
  pose proof (Z.log2_nonneg a) as Hla0.
  pose proof (Z.log2_nonneg b) as Hlb0.
  assert (Hla1 : Z.log2 a < 53) by (apply Z.log2_lt_pow2; lia).
  assert (Hlb1 : Z.log2 b < 53) by (apply Z.log2_lt_pow2; lia).
  set (la := Z.log2 a) in *. set (lb := Z.log2 b) in *.
  rewrite scaled_divmod_nonpos by lia.
  destruct (Z.ltb_spec (a * 2 ^ (- (la - lb - 52)) / b) (2 ^ 52))
    as [Hsmall|Hbig].
  - rewrite Z.max_l by lia. split; [lia|].
    apply Z.div_le_lower_bound; [lia|].
    replace (- (la - lb - 52 - 1)) with (53 - la + lb) by lia.
    assert (H1 : 2 ^ la * 2 ^ (53 - la + lb) = 2 ^ 52 * 2 ^ Z.succ lb).
    { rewrite <- !Z.pow_add_r by lia. f_equal. lia. }
    assert (H2 : 0 < 2 ^ (53 - la + lb)) by (apply Z.pow_pos_nonneg; lia).
    change (2 ^ 52) with 4503599627370496 in *.
    nia.
  - rewrite Z.max_l by lia. split; [lia|exact Hbig].
Qed.

(** On operands below [2 ^ 53], [int(a / b)] is the floor of the exact
    quotient. *)
Lemma int_true_divide_floor (a b : Z) :
  0 <= a < 2 ^ 53 -> 0 < b < 2 ^ 53 ->
  Py.int_true_divide a b = Ok (a / b).
Proof.
  intros Ha Hb. unfold Py.int_true_divide, Py.true_divide.
  destruct (Z.eqb_spec b 0) as [|_]; [lia|].
  destruct (Z.eqb_spec a 0) as [->|Ha0].
  { simpl. now rewrite Z.div_0_l by lia. }
  rewrite (Z.abs_eq a), (Z.abs_eq b) by lia.
  destruct (ulp_exponent_small a b ltac:(lia) Hb) as [He Hq].
  set (e := Py.ulp_exponent a b) in *.
  rewrite scaled_divmod_nonpos by lia.
  destruct (Z.ltb_spec 971 e) as [|_]; [lia|].
  destruct (Z.eqb_spec e 971) as [|_]; [lia|].
  simpl orb. cbv iota. unfold rmap, rbind.
  rewrite int_of_float_nonpos by lia.
  rewrite (Z.sgn_pos a), (Z.sgn_pos b) by lia.
  rewrite !Z.mul_1_l.
  assert (HP : 0 < 2 ^ (- e)) by (apply Z.pow_pos_nonneg; lia).
  f_equal.
  rewrite Z.quot_div_nonneg.
  - apply rounded_quotient_floor; lia.
  - destruct (round_half_even_cases (a * 2 ^ (- e) / b)
      ((a * 2 ^ (- e)) mod b) b) as [->|[-> _]]; lia.
  - lia.
Qed.

End TrueDivide.

(** ** Chunk bounds *)

Example chunk_bounds_10_3_0 : chunk_bounds 0 10 3 = Ok (0, 3).
Proof. reflexivity. Qed.
Example chunk_bounds_10_3_1 : chunk_bounds 1 10 3 = Ok (3, 6).
Proof. reflexivity. Qed.
Example chunk_bounds_10_3_2 : chunk_bounds 2 10 3 = Ok (6, 10).
Proof. reflexivity. Qed.
Example chunk_bounds_5_2_1 : chunk_bounds 1 5 2 = Ok (2, 5).
Proof. reflexivity. Qed.
Example chunk_bounds_big : chunk_bounds 0 (2 ^ 53 + 1) 1 = Ok (0, 2 ^ 53).
Proof. vm_compute. reflexivity. Qed.

Section ChunkTiling.

Variables N n : Z.
Hypothesis HN : 0 <= N.
Hypothesis Hn : 1 <= n.
Hypothesis Hsmall : n * N < 2 ^ 53.

Lemma chunk_bounds_floor (i : Z) :
  0 <= i < n ->
  chunk_bounds i N n = Ok (i * N / n, (i + 1) * N / n).
Proof.
  intros Hi. unfold chunk_bounds.
  destruct (Z.eq_dec N 0) as [->|HN0].
  - rewrite !Z.mul_0_r. unfold Py.int_true_divide, Py.true_divide.
    destruct (Z.eqb_spec n 0); [lia|]. simpl.
    now rewrite Z.div_0_l by lia.
  - assert (n < 2 ^ 53) by nia.
    rewrite !int_true_divide_floor by nia. reflexivity.
Qed.

Lemma in_chunk_floor (i j : Z) :
  0 <= i < n ->
  in_chunk N n i j <-> i * N / n <= j < (i + 1) * N / n.
Proof.
  intros Hi. unfold in_chunk. rewrite chunk_bounds_floor by exact Hi.
  split.
  - intros (b & e & Heq & Hj). injection Heq as <- <-. exact Hj.
  - intros Hj. eauto.
Qed.

Lemma floor_bounds_mono (i i' : Z) :
  0 <= i <= i' -> i * N / n <= i' * N / n.
Proof. intros Hi. apply Z.div_le_mono; nia. Qed.

Lemma chunks_tile_small : chunks_tile N n.
Proof.
  unfold chunks_tile. repeat split.
  - intros i Hi. eexists _, _. split; [apply chunk_bounds_floor, Hi|].
    split; [split|].
    + apply Z.div_pos; nia.
    + apply floor_bounds_mono. lia.
    + apply Z.div_le_upper_bound; nia.
  - intros i i' j Hi Hi'.
    rewrite !in_chunk_floor by assumption. intros Hj Hj'.
    destruct (Z.lt_trichotomy i i') as [Hlt|[Heq|Hgt]]; [|exact Heq|].
    + pose proof (floor_bounds_mono (i + 1) i' ltac:(lia)). lia.
    + pose proof (floor_bounds_mono (i' + 1) i ltac:(lia)). lia.
  - intros i i' j j' Hi Hi'.
    rewrite !in_chunk_floor by lia. intros Hj Hj'.
    pose proof (floor_bounds_mono (i + 1) i' ltac:(lia)). lia.
  - intros Hj. exists (((j + 1) * n - 1) / N).
    assert (HN0 : 0 < N) by lia.
    set (i := ((j + 1) * n - 1) / N).
    assert (Hi0 : 0 <= i) by (apply Z.div_pos; nia).
    assert (Hin : i < n) by (apply Z.div_lt_upper_bound; nia).
    assert (Hmul : N * i <= (j + 1) * n - 1)
      by (apply Z.mul_div_le; lia).
    assert (Hmod : (j + 1) * n - 1 < N * (i + 1)).
    { pose proof (Z.div_mod ((j + 1) * n - 1) N ltac:(lia)) as Hd.
      pose proof (Z.mod_pos_bound ((j + 1) * n - 1) N HN0) as Hm.
      fold i in Hd. nia. }
    split; [lia|]. apply in_chunk_floor; [lia|]. split.
    + assert (i * N / n < j + 1); [|lia].
      apply Z.div_lt_upper_bound; nia.
    + assert (j + 1 <= (i + 1) * N / n); [|lia].
      apply Z.div_le_lower_bound; nia.
  - destruct H as (i & Hi & Hj).
    apply in_chunk_floor in Hj; [|exact Hi].
    pose proof (Z.div_pos (i * N) n ltac:(nia) ltac:(lia)). lia.
  - destruct H as (i & Hi & Hj).
    apply in_chunk_floor in Hj; [|exact Hi].
    assert ((i + 1) * N / n <= N); [|lia].
    apply Z.div_le_upper_bound; nia.
Qed.

End ChunkTiling.

(** C1, as amended: when [num_chunks * num_edges < 2 ^ 53] the bounds
    [begin = int(chunk_idx * num_edges / num_chunks)] and
    [end = int((chunk_idx + 1) * num_edges / num_chunks)] of
    [load_chunk_of_edges], computed with Python's exact integer product,
    float division and truncation, are the floors of the exact quotients
    [chunk_idx * num_edges / num_chunks] and
    [(chunk_idx + 1) * num_edges / num_chunks]; the ranges are inside
    [[0, num_edges)], pairwise disjoint, ordered, and cover
    [[0, num_edges)]; for [num_edges = 10], [num_chunks = 3] they are
    [[0,3)], [[3,6)], [[6,10)]. *)
Theorem chunk_tiling :
  (forall N n, 0 <= N -> 1 <= n -> n * N < 2 ^ 53 ->
     (forall i, 0 <= i < n ->
        chunk_bounds i N n = Ok (i * N / n, (i + 1) * N / n)) /\
     chunks_tile N n) /\
  chunk_bounds 0 10 3 = Ok (0, 3) /\
  chunk_bounds 1 10 3 = Ok (3, 6) /\
  chunk_bounds 2 10 3 = Ok (6, 10).
Proof.
  split; [|repeat split].
  intros N n HN Hn Hsmall. split.
  - intros i Hi. now apply chunk_bounds_floor.
  - now apply chunks_tile_small.
Qed.

Lemma chunk_tiling_witness :
  (forall i, 0 <= i < 3 ->
     chunk_bounds i 11 3 = Ok (i * 11 / 3, (i + 1) * 11 / 3)) /\
  chunks_tile 11 3.
Proof. apply (proj1 chunk_tiling); [lia | lia | reflexivity]. Defined.

(** C1, as stated, fails: a shard of [2 ^ 53 + 1] edges read as a single
    chunk gets the range [[0, 2 ^ 53)], because the float quotient
    [(2 ^ 53 + 1) / 1] rounds to [2 ^ 53]; the last edge is in no chunk. *)
Lemma chunk_tiling_fails_above_2p53 : ~ chunks_tile (2 ^ 53 + 1) 1.
Proof.
  intros (_ & _ & _ & Hcover).
  destruct (proj1 (Hcover (2 ^ 53)) ltac:(lia)) as (i & Hi & b & e & Hb & Hj).
  assert (i = 0) as -> by lia.
  rewrite chunk_bounds_big in Hb. injection Hb as <- <-. lia.
Qed.

(** ** Slices inside the bounds *)

Section SliceFacts.

Lemma len_nonneg {A : Type} (l : list A) : 0 <= len l.
Proof. unfold len. lia. Qed.

Lemma len_app {A : Type} (l k : list A) : len (l ++ k) = len l + len k.
Proof. unfold len. rewrite length_app. lia. Qed.

Lemma len_nil {A : Type} : len (@nil A) = 0.
Proof. reflexivity. Qed.

Lemma len_take (l : list Z) (n : Z) :
  0 <= n <= len l -> len (take (Z.to_nat n) l) = n.
Proof. unfold len. intros H. rewrite length_take. lia. Qed.

Lemma len_drop (l : list Z) (n : Z) :
  0 <= n <= len l -> len (drop (Z.to_nat n) l) = len l - n.
Proof. unfold len. intros H. rewrite length_drop. lia. Qed.

Lemma len_replicate (n : Z) (x : Z) :
  0 <= n -> len (replicate (Z.to_nat n) x) = n.
Proof. unfold len. intros H. rewrite length_replicate. lia. Qed.

Lemma clamp_index_in (n i : Z) :
  0 <= i <= n -> Slice.clamp_index n i = i.
Proof.
  intros H. unfold Slice.clamp_index.
  destruct (Z.ltb_spec i 0); lia.
Qed.

Lemma getitem_in (t : list Z) (a b : Z) :
  0 <= a <= b -> b <= len t ->
  Slice.getitem t a b = take (Z.to_nat (b - a)) (drop (Z.to_nat a) t).
Proof.
  intros Ha Hb. unfold Slice.getitem.
  now rewrite !clamp_index_in by lia.
Qed.

Lemma getitem_prefix (t : list Z) (b : Z) :
  0 <= b <= len t -> Slice.getitem t 0 b = take (Z.to_nat b) t.
Proof.
  intros Hb. rewrite getitem_in by lia.
  now rewrite Z.sub_0_r.
Qed.

Lemma getitem_suffix (t : list Z) (a : Z) :
  0 <= a <= len t -> Slice.getitem t a (len t) = drop (Z.to_nat a) t.
Proof.
  intros Ha. rewrite getitem_in by lia.
  apply take_ge. rewrite length_drop. unfold len. lia.
Qed.

Lemma len_getitem_in (t : list Z) (a b : Z) :
  0 <= a <= b -> b <= len t -> len (Slice.getitem t a b) = b - a.
Proof.
  intros Ha Hb. rewrite getitem_in by lia.
  rewrite len_take; [lia|]. rewrite len_drop; lia.
Qed.

Lemma setitem_in (t : list Z) (a : Z) (v : list Z) :
  0 <= a -> a + len v <= len t ->
  Slice.setitem t a (a + len v) v
  = Some (take (Z.to_nat a) t ++ v ++ drop (Z.to_nat (a + len v)) t).
Proof.
  intros Ha Hb. pose proof (len_nonneg v). unfold Slice.setitem.
  rewrite !clamp_index_in by lia.
  replace (Z.max (a + len v - a) 0) with (len v) by lia.
  now rewrite Z.eqb_refl.
Qed.

(** [ds[-k:] = v] on a dataset that has just grown by [k = len v]. *)
Lemma setitem_tail (ds v : list Z) (fill : list Z) :
  len fill = len v -> 0 < len v ->
  Slice.setitem (ds ++ fill) (- len v) (len (ds ++ fill)) v
  = Some (ds ++ v).
Proof.
  intros Hfill Hv. pose proof (len_nonneg ds). unfold Slice.setitem.
  rewrite len_app, Hfill.
  unfold Slice.clamp_index.
  destruct (Z.ltb_spec (- len v) 0); [|lia].
  destruct (Z.ltb_spec (len ds + len v) 0); [lia|].
  rewrite Z.min_id.
  replace (Z.max (- len v + (len ds + len v)) 0) with (len ds) by lia.
  replace (Z.max (len ds + len v - len ds) 0) with (len v) by lia.
  rewrite Z.eqb_refl. f_equal.
  unfold len at 1. rewrite Nat2Z.id, take_app_length.
  rewrite drop_ge; [now rewrite app_nil_r|].
  rewrite length_app. unfold len in *. lia.
Qed.

End SliceFacts.

(** ** BufferedDataset: flushing and appending *)

Lemma BUFFER_SIZE_pos : 0 < BUFFER_SIZE.
Proof. reflexivity. Qed.

#[local] Opaque BUFFER_SIZE.

Section BufferedDatasetFacts.

Import BufferedDataset.

Lemma resize_grow (ds : list Z) (k : Z) :
  0 <= k ->
  H5.resize ds (len ds + k) = Ok (ds ++ replicate (Z.to_nat k) 0).
Proof.
  intros Hk. pose proof (len_nonneg ds). unfold H5.resize.
  destruct (Z.ltb_spec (len ds + k) 0); [lia|].
  rewrite take_ge by (unfold len; lia).
  do 3 f_equal. lia.
Qed.

(** A flush of [k > 0] buffered values moves them to the dataset. *)
Lemma flush_buffer_moves (_last : bool) (self : BufferedDataset) :
  0 < buffer_offset self <= len (buffer self) ->
  (_last = false -> buffer_offset self = BUFFER_SIZE) ->
  flush_buffer _last self
  = (mkBufferedDataset (dataset_name self) (dataset self ++ pending self)
       (buffer self) 0 (total_data self), Ok tt).
Proof.
  intros Hoff Hlast. unfold flush_buffer.
  assert (Hproceed :
    (if negb _last
     then if buffer_offset self =? BUFFER_SIZE
          then Ok true else Raise AssertionError
     else if buffer_offset self =? 0 then Ok false else Ok true)
    = Ok true).
  { destruct _last; simpl.
    - destruct (Z.eqb_spec (buffer_offset self) 0); [lia|reflexivity].
    - rewrite Hlast by reflexivity. now rewrite Z.eqb_refl. }
  rewrite Hproceed. rewrite resize_grow by lia.
  destruct self as [name ds buf off total]. simpl in *.
  unfold H5.setitem, pending. simpl.
  rewrite getitem_prefix by lia.
  assert (Hlen : len (take (Z.to_nat off) buf) = off)
    by (apply len_take; lia).
  set (v := take (Z.to_nat off) buf) in *.
  assert (Hfill : len (replicate (Z.to_nat off) 0) = len v)
    by (rewrite Hlen; apply len_replicate; lia).
  revert Hfill. generalize (replicate (Z.to_nat off) 0). intros fill Hfill.
  replace (- off) with (- len v) by lia.
  rewrite setitem_tail by lia. reflexivity.
Qed.

Lemma flush_buffer_last_empty (self : BufferedDataset) :
  buffer_offset self = 0 -> flush_buffer true self = (self, Ok tt).
Proof.
  intros Hoff. unfold flush_buffer. simpl. now rewrite Hoff.
Qed.

(** The non-final flush raises [AssertionError] exactly off capacity. *)
Lemma flush_buffer_assertion (self : BufferedDataset) :
  snd (flush_buffer false self) = Raise AssertionError
  <-> buffer_offset self <> BUFFER_SIZE.
Proof.
  unfold flush_buffer. simpl.
  destruct (Z.eqb_spec (buffer_offset self) BUFFER_SIZE) as [Heq|Hne].
  - split; [|congruence]. intros H. exfalso.
    destruct (H5.resize _ _) as [ds|e] eqn:Hr.
    + destruct (H5.setitem _ _ _ _) as [ds'|e] eqn:Hs; simpl in H.
      * discriminate.
      * unfold H5.setitem in Hs.
        destruct (Slice.setitem _ _ _ _); congruence.
    + unfold H5.resize in Hr.
      destruct (_ <? _); simpl in H; congruence.
  - simpl. split; [intros _; exact Hne | reflexivity].
Qed.

(** One run of the loop of [append] from an offset inside the tensor. *)
Lemma append_loop_spec (fuel : nat) (tensor : list Z) :
  forall (tensor_offset : Z) (self : BufferedDataset),
    len (buffer self) = BUFFER_SIZE ->
    0 <= buffer_offset self < BUFFER_SIZE ->
    0 <= tensor_offset <= len tensor ->
    (Z.to_nat (len tensor - tensor_offset
               - (BUFFER_SIZE - buffer_offset self) + 1) < fuel)%nat ->
    exists self',
      append_loop fuel tensor tensor_offset self = Some (self', Ok tt) /\
      dataset_name self' = dataset_name self /\
      total_data self' = total_data self /\
      len (buffer self') = BUFFER_SIZE /\
      0 <= buffer_offset self' < BUFFER_SIZE /\
      contents self'
      = contents self ++ drop (Z.to_nat tensor_offset) tensor /\
      (exists flushes,
         0 <= flushes /\
         len (dataset self')
         = len (dataset self) + flushes * BUFFER_SIZE).
Proof.
  pose proof BUFFER_SIZE_pos as Hsize.
  induction fuel as [|fuel IH]; intros toff self Hbuf Hoff Htoff Hfuel;
    [lia|].
  cbn [append_loop].
  set (tensor_left := len tensor - toff).
  set (buffer_left := BUFFER_SIZE - buffer_offset self).
  destruct (Z.leb_spec buffer_left tensor_left) as [Hfull|Hpart].
  - (* the buffer fills up *)
    set (v := Slice.getitem tensor toff (toff + buffer_left)).
    assert (Hv : v = take (Z.to_nat buffer_left) (drop (Z.to_nat toff) tensor)).
    { unfold v. rewrite getitem_in by lia. do 2 f_equal. lia. }
    assert (Hlenv : len v = buffer_left)
      by (unfold v; rewrite len_getitem_in; lia).
    unfold Tensor.setitem.
    replace (buffer_offset self + buffer_left)
      with (buffer_offset self + len v) by lia.
    rewrite setitem_in by lia.
    rewrite (drop_ge (buffer self)) by (unfold len in *; lia).
    rewrite app_nil_r.
    set (b := take (Z.to_nat (buffer_offset self)) (buffer self) ++ v).
    assert (Hlenb : len b = BUFFER_SIZE).
    { unfold b. rewrite len_app, len_take by lia. lia. }
    rewrite flush_buffer_moves; cbn [buffer_offset buffer set_buffer
      set_buffer_offset dataset_name dataset total_data]; [|lia|lia].
    unfold pending; cbn [buffer_offset buffer set_buffer
      set_buffer_offset dataset_name dataset total_data].
    replace (buffer_offset self + len v) with (len b) by lia.
    unfold len at 1. rewrite Nat2Z.id, firstn_all.
    edestruct (IH (toff + buffer_left)
                 (mkBufferedDataset (dataset_name self) (dataset self ++ b)
                    b 0 (total_data self)))
      as (self' & Hrun & Hname & Htotal & Hbuf' & Hoff' & Hcont & Hflush);
      cbn [buffer_offset buffer dataset_name dataset total_data];
      [exact Hlenb | lia | lia | lia |].
    exists self'. rewrite Hrun. repeat split; try assumption; try lia.
    + rewrite Hcont. unfold contents, pending.
      cbn [buffer_offset buffer dataset_name dataset total_data].
      change (Z.to_nat 0) with 0%nat. rewrite take_0, app_nil_r.
      unfold b. rewrite Hv, <- !app_assoc. do 2 f_equal.
      replace (Z.to_nat (toff + buffer_left))
        with (Z.to_nat toff + Z.to_nat buffer_left)%nat by lia.
      rewrite <- drop_drop. apply take_drop.
    + destruct Hflush as (k & Hk & Hlen).
      cbn [dataset] in Hlen. rewrite len_app in Hlen.
      exists (k + 1). lia.
  - (* the rest of the tensor fits *)
    set (v := Slice.getitem tensor toff (toff + tensor_left)).
    assert (Hv : v = drop (Z.to_nat toff) tensor).
    { unfold v, tensor_left.
      replace (toff + (len tensor - toff)) with (len tensor) by lia.
      apply getitem_suffix. lia. }
    assert (Hlenv : len v = tensor_left).
    { rewrite Hv, len_drop by lia. reflexivity. }
    unfold Tensor.setitem.
    replace (buffer_offset self + tensor_left)
      with (buffer_offset self + len v) by lia.
    rewrite setitem_in by lia.
    eexists. split; [reflexivity|].
    cbn [buffer_offset buffer set_buffer set_buffer_offset dataset_name
         dataset total_data].
    repeat split; try lia.
    + rewrite !len_app, len_take, len_drop by lia. lia.
    + unfold contents, pending.
      cbn [buffer_offset buffer set_buffer set_buffer_offset dataset_name
           dataset total_data].
      rewrite <- Hv, <- app_assoc. f_equal.
      rewrite app_assoc.
      rewrite take_app_length'; [reflexivity|].
      rewrite length_app, length_take. unfold len in *. lia.
    + exists 0. lia.
Qed.

Lemma len_pending (self : BufferedDataset) :
  0 <= buffer_offset self <= len (buffer self) ->
  len (pending self) = buffer_offset self.
Proof. intros H. unfold pending. now apply len_take. Qed.

Lemma len_contents (self : BufferedDataset) :
  0 <= buffer_offset self <= len (buffer self) ->
  len (contents self) = len (dataset self) + buffer_offset self.
Proof.
  intros H. unfold contents. now rewrite len_app, len_pending.
Qed.

(** [append] keeps the invariant and adds the tensor to the contents. *)
Lemma append_spec (tensor : list Z) (self : BufferedDataset) :
  buffered_inv self ->
  exists self',
    append tensor self = (self', Ok tt) /\
    buffered_inv self' /\
    dataset_name self' = dataset_name self /\
    contents self' = contents self ++ tensor /\
    total_data self' = total_data self + len tensor.
Proof.
  intros [Hbuf Hoff Htotal Hmult].
  pose proof (len_nonneg tensor) as Hlen.
  destruct (append_loop_spec (append_fuel tensor self) tensor 0 self)
    as (self' & Hrun & Hname & Htot & Hbuf' & Hoff' & Hcont & k & Hk & Hds);
    [exact Hbuf | exact Hoff | lia | unfold append_fuel; lia |].
  unfold append. rewrite Hrun. eexists. split; [reflexivity|].
  change (Z.to_nat 0) with 0%nat in Hcont. rewrite drop_0 in Hcont.
  assert (Hsum : len (dataset self') + buffer_offset self'
                 = total_data self + len tensor).
  { rewrite <- len_contents, Hcont, len_app, len_contents by lia. lia. }
  repeat split; cbn [buffer dataset buffer_offset total_data dataset_name
    set_total_data]; try assumption; try lia.
  rewrite Hds, Z.mod_add by lia. exact Hmult.
Qed.

Lemma append_all_spec (tensors : list (list Z)) :
  forall self : BufferedDataset,
    buffered_inv self ->
    exists self',
      append_all tensors self = (self', Ok tt) /\
      buffered_inv self' /\
      dataset_name self' = dataset_name self /\
      contents self' = contents self ++ concat tensors /\
      total_data self' = total_data self + len (concat tensors).
Proof.
  induction tensors as [|tensor tensors IH]; intros self Hinv.
  - exists self. cbn [append_all concat]. rewrite app_nil_r, len_nil.
    split; [reflexivity|]. split; [exact Hinv|]. repeat split; lia.
  - destruct (append_spec tensor self Hinv)
      as (self1 & Hrun & Hinv1 & Hname1 & Hcont1 & Htot1).
    destruct (IH self1 Hinv1)
      as (self2 & Hrun2 & Hinv2 & Hname2 & Hcont2 & Htot2).
    exists self2. cbn [append_all concat]. rewrite Hrun, Hrun2.
    split; [reflexivity|]. split; [exact Hinv2|]. repeat split.
    + congruence.
    + now rewrite Hcont2, Hcont1, <- app_assoc.
    + rewrite Htot2, Htot1, len_app. lia.
Qed.

Lemma init_spec (hf : H5.File) (name : string) :
  H5.dsets hf !! name = None ->
  exists self,
    __init__ hf name = Ok self /\
    buffered_inv self /\
    dataset_name self = name /\ contents self = [] /\ total_data self = 0.
Proof.
  intros Hfresh. pose proof BUFFER_SIZE_pos as Hsize.
  unfold __init__, Tensor.empty. rewrite Hfresh.
  destruct (Z.ltb_spec BUFFER_SIZE 0); [lia|].
  eexists. split; [reflexivity|].
  split; [|repeat split].
  constructor; cbn [buffer dataset buffer_offset total_data].
  - apply len_replicate. lia.
  - lia.
  - reflexivity.
  - reflexivity.
Qed.

Lemma init_Ok (hf : H5.File) (name : string) (self : BufferedDataset) :
  __init__ hf name = Ok self -> H5.dsets hf !! name = None.
Proof.
  unfold __init__. destruct (H5.dsets hf !! name); [discriminate|reflexivity].
Qed.

(** The final flush of a state satisfying the invariant. *)
Lemma flush_buffer_last_spec (self : BufferedDataset) :
  buffered_inv self ->
  exists self',
    flush_buffer true self = (self', Ok tt) /\
    dataset self' = contents self /\
    buffer_offset self' = 0 /\
    total_data self' = total_data self /\
    dataset_name self' = dataset_name self.
Proof.
  intros [Hbuf Hoff Htotal Hmult].
  destruct (Z.eq_dec (buffer_offset self) 0) as [H0|Hpos].
  - exists self. rewrite flush_buffer_last_empty by exact H0.
    repeat split; try assumption.
    unfold contents, pending. rewrite H0.
    change (Z.to_nat 0) with 0%nat. now rewrite take_0, app_nil_r.
  - eexists. rewrite flush_buffer_moves by (try discriminate; lia).
    split; [reflexivity|]. repeat split.
Qed.

(** *** The loop always leaves, and never by the assertion *)

Lemma flush_buffer_false_Ok (self self' : BufferedDataset) (u : unit) :
  flush_buffer false self = (self', Ok u) -> buffer_offset self' = 0.
Proof.
  unfold flush_buffer. simpl.
  destruct (buffer_offset self =? BUFFER_SIZE); [|discriminate].
  destruct (H5.resize _ _) as [ds|e]; [|discriminate].
  destruct (H5.setitem _ _ _ _) as [ds'|e]; [|discriminate].
  intros H. injection H as <- _. reflexivity.
Qed.

Lemma append_loop_leaves_empty (fuel : nat) (tensor : list Z) :
  forall (tensor_offset : Z) (self : BufferedDataset),
    buffer_offset self = 0 ->
    (Z.to_nat (len tensor - tensor_offset) < fuel)%nat ->
    is_Some (append_loop fuel tensor tensor_offset self).
Proof.
  pose proof BUFFER_SIZE_pos as Hsize.
  induction fuel as [|fuel IH]; intros toff self Hoff Hfuel; [lia|].
  cbn [append_loop]. rewrite Hoff, Z.sub_0_r.
  destruct (Z.leb_spec BUFFER_SIZE (len tensor - toff)) as [Hfull|Hpart].
  - destruct (Tensor.setitem _ _ _ _) as [b|e]; [|eauto].
    destruct (flush_buffer false _) as [self1 [u|e]] eqn:Hflush; [|eauto].
    apply IH; [|lia]. eapply flush_buffer_false_Ok, Hflush.
  - destruct (Tensor.setitem _ _ _ _) as [b|e]; eauto.
Qed.

Lemma append_loop_enough_fuel (tensor : list Z) (self : BufferedDataset) :
  is_Some (append_loop (append_fuel tensor self) tensor 0 self).
Proof.
  pose proof BUFFER_SIZE_pos as Hsize.
  unfold append_fuel.
  set (buffer_left := BUFFER_SIZE - buffer_offset self).
  remember (S (Z.to_nat (len tensor - buffer_left))) as fuel eqn:Hfuel.
  cbn [append_loop]. rewrite Z.sub_0_r. fold buffer_left.
  destruct (Z.leb_spec buffer_left (len tensor)) as [Hfull|Hpart].
  - destruct (Tensor.setitem _ _ _ _) as [b|e]; [|eauto].
    destruct (flush_buffer false _) as [self1 [u|e]] eqn:Hflush; [|eauto].
    apply append_loop_leaves_empty; [|lia].
    eapply flush_buffer_false_Ok, Hflush.
  - destruct (Tensor.setitem _ _ _ _) as [b|e]; eauto.
Qed.

Lemma append_loop_no_assertion (fuel : nat) (tensor : list Z) :
  forall (tensor_offset : Z) (self self' : BufferedDataset) (e : exn),
    append_loop fuel tensor tensor_offset self = Some (self', Raise e) ->
    e <> AssertionError.
Proof.
  induction fuel as [|fuel IH]; intros toff self self' e; [discriminate|].
  cbn [append_loop].
  assert (Hsetitem : forall t a b v e',
    Tensor.setitem t a b v = Raise e' -> e' <> AssertionError).
  { unfold Tensor.setitem. intros t a b v e'.
    destruct (Slice.setitem t a b v); intros H; [discriminate|].
    injection H as <-. discriminate. }
  destruct (_ <=? _).
  - destruct (Tensor.setitem _ _ _ _) as [b|e'] eqn:Hset.
    + destruct (flush_buffer false _) as [self1 [u|e']] eqn:Hflush.
      * apply IH.
      * intros H. injection H as _ <-. intros ->.
        pose proof (proj1 (flush_buffer_assertion _)
                      (f_equal snd Hflush)) as Hne.
        cbn [buffer_offset set_buffer_offset] in Hne. lia.
    + intros H. injection H as _ <-. eapply Hsetitem, Hset.
  - destruct (Tensor.setitem _ _ _ _) as [b|e'] eqn:Hset.
    + discriminate.
    + intros H. injection H as _ <-. eapply Hsetitem, Hset.
Qed.

Lemma append_no_assertion (tensor : list Z) (self : BufferedDataset) :
  snd (append tensor self) <> Raise AssertionError.
Proof.
  unfold append.
  destruct (append_loop_enough_fuel tensor self) as [[self' r] Hrun].
  rewrite Hrun. destruct r as [u|e]; simpl; [discriminate|].
  intros H. injection H as ->.
  now apply append_loop_no_assertion in Hrun.
Qed.

Lemma append_all_no_assertion (tensors : list (list Z)) :
  forall self : BufferedDataset,
    snd (append_all tensors self) <> Raise AssertionError.
Proof.
  induction tensors as [|tensor tensors IH]; intros self.
  - discriminate.
  - cbn [append_all].
    pose proof (append_no_assertion tensor self) as Hone.
    destruct (append tensor self) as [self1 [u|e]]; [apply IH|exact Hone].
Qed.

End BufferedDatasetFacts.

(** C2: tensors appended to a fresh [BufferedDataset] in chunks of any
    sizes are, after the final flush ([flush_buffer] with [_last] true), the
    on-disk column: it is the concatenation of the appended values in
    order, and its length is [total_data]. *)
Theorem buffered_round_trip (hf : H5.File) (name : string)
    (tensors : list (list Z)) :
  H5.dsets hf !! name = None ->
  exists self0 self1 self2,
    BufferedDataset.__init__ hf name = Ok self0 /\
    BufferedDataset.append_all tensors self0 = (self1, Ok tt) /\
    BufferedDataset.flush_buffer true self1 = (self2, Ok tt) /\
    dataset self2 = concat tensors /\
    len (dataset self2) = total_data self2 /\
    total_data self2 = len (concat tensors).
Proof.
  intros Hfresh.
  destruct (init_spec hf name Hfresh)
    as (self0 & Hinit & Hinv0 & _ & Hcont0 & Htot0).
  destruct (append_all_spec tensors self0 Hinv0)
    as (self1 & Happ & Hinv1 & _ & Hcont1 & Htot1).
  destruct (flush_buffer_last_spec self1 Hinv1)
    as (self2 & Hflush & Hds & _ & Htot2 & _).
  exists self0, self1, self2.
  rewrite Hcont0 in Hcont1. cbn [app] in Hcont1.
  repeat split; try assumption; try congruence.
  - rewrite Hds, Htot2, Htot1, Hcont1. lia.
  - lia.
Qed.

Lemma buffered_round_trip_witness :
  exists self0 self1 self2,
    BufferedDataset.__init__ (H5.mkFile ∅ ∅) "rel" = Ok self0 /\
    BufferedDataset.append_all [[7; 8]; []; [9]] self0 = (self1, Ok tt) /\
    BufferedDataset.flush_buffer true self1 = (self2, Ok tt) /\
    dataset self2 = concat [[7; 8]; []; [9]] /\
    len (dataset self2) = total_data self2 /\
    total_data self2 = len (concat [[7; 8]; []; [9]]).
Proof. apply buffered_round_trip. reflexivity. Defined.

(** C8: the non-final [flush_buffer] asserts that the buffer is at
    capacity (it raises [AssertionError] exactly when [buffer_offset]
    differs from [BUFFER_SIZE]); [append] calls it only after adding
    [BUFFER_SIZE - buffer_offset] to [buffer_offset], so no [append], from any
    state, and no sequence of appends ever ends in that
    [AssertionError]. *)
Theorem flush_assertion_unreachable :
  (forall self : BufferedDataset,
     snd (BufferedDataset.flush_buffer false self) = Raise AssertionError
     <-> buffer_offset self <> BUFFER_SIZE) /\
  (forall (tensor : list Z) (self : BufferedDataset),
     snd (BufferedDataset.append tensor self) <> Raise AssertionError) /\
  (forall (tensors : list (list Z)) (self : BufferedDataset),
     snd (BufferedDataset.append_all tensors self) <> Raise AssertionError).
Proof.
  split; [exact flush_buffer_assertion|].
  split; [exact append_no_assertion | exact append_all_no_assertion].
Qed.

(** C9: the invariant of [BufferedDataset] (on-disk length plus
    [buffer_offset] is [total_data], [0 <= buffer_offset < BUFFER_SIZE], the
    on-disk length is a multiple of [BUFFER_SIZE]) holds after [__init__]
    and every [append] from a state that satisfies it returns normally in
    a state that satisfies it. *)
Theorem buffered_invariant :
  (forall (hf : H5.File) (name : string) (self : BufferedDataset),
     BufferedDataset.__init__ hf name = Ok self -> buffered_inv self) /\
  (forall (tensor : list Z) (self : BufferedDataset),
     buffered_inv self ->
     exists self',
       BufferedDataset.append tensor self = (self', Ok tt) /\
       buffered_inv self').
Proof.
  split.
  - intros hf name self Hinit.
    destruct (init_spec hf name (init_Ok _ _ _ Hinit))
      as (self' & Hinit' & Hinv & _).
    congruence.
  - intros tensor self Hinv.
    destruct (append_spec tensor self Hinv) as (self' & Hrun & Hinv' & _).
    eauto.
Qed.

Lemma buffered_invariant_witness :
  exists self',
    BufferedDataset.append [1; 2; 3]
      (mkBufferedDataset "lhs" [] (replicate (Z.to_nat BUFFER_SIZE) 0) 0 0)
    = (self', Ok tt) /\
    buffered_inv self'.
Proof.
  apply (proj2 buffered_invariant).
  apply (proj1 buffered_invariant (H5.mkFile ∅ ∅) "lhs").
  reflexivity.
Defined.

(** ** Offsets of ragged lists *)

Section Offsets.

Lemma length_offsets_from (records : list (list Z)) :
  forall s, length (offsets_from s records) = length records.
Proof.
  induction records as [|r records IH]; intros s; simpl; [|rewrite IH];
    reflexivity.
Qed.

Lemma offsets_from_app (a b : list (list Z)) :
  forall s,
    offsets_from s (a ++ b)
    = offsets_from s a ++ offsets_from (s + len (concat a)) b.
Proof.
  induction a as [|r a IH]; intros s; simpl.
  - now rewrite len_nil, Z.add_0_r.
  - rewrite IH, len_app. do 3 f_equal. lia.
Qed.

Lemma offsets_from_shift (records : list (list Z)) (t : Z) :
  forall s,
    map (fun o => o + t) (offsets_from s records)
    = offsets_from (s + t) records.
Proof.
  induction records as [|r records IH]; intros s; simpl; [reflexivity|].
  rewrite IH.
  replace (s + len r + t) with (s + t + len r) by lia. reflexivity.
Qed.

Lemma offsets_from_bounds (records : list (list Z)) :
  forall s,
    Forall (fun o => s <= o <= s + len (concat records))
      (offsets_from s records).
Proof.
  induction records as [|r records IH]; intros s; simpl; constructor.
  - rewrite len_app. pose proof (len_nonneg r).
    pose proof (len_nonneg (concat records)). lia.
  - eapply Forall_impl; [apply IH|]. simpl. intros o Ho.
    rewrite len_app. pose proof (len_nonneg r). lia.
Qed.

Lemma wrap64_small (x : Z) : - 2 ^ 63 <= x < 2 ^ 63 -> wrap64 x = x.
Proof.
  intros H. unfold wrap64.
  change (2 ^ 64) with (2 * 2 ^ 63). rewrite Z.mod_small; lia.
Qed.

(** Shifting offsets by a scalar in int64, without overflow. *)
Lemma map_wrap64_offsets_from (records : list (list Z)) (s t : Z) :
  0 <= s + t -> s + t + len (concat records) < 2 ^ 63 ->
  map (fun o => wrap64 (o + t)) (offsets_from s records)
  = offsets_from (s + t) records.
Proof.
  intros Hlo Hhi. rewrite <- offsets_from_shift.
  apply map_ext_Forall.
  eapply Forall_impl; [apply offsets_from_bounds|].
  simpl. intros o Ho. apply wrap64_small. lia.
Qed.

Lemma drop_offsets (records : list (list Z)) :
  forall (b : nat) (s : Z),
    (b <= length records)%nat ->
    drop b (s :: offsets_from s records)
    = (s + len (concat (take b records)))
        :: offsets_from (s + len (concat (take b records)))
             (drop b records).
Proof.
  induction records as [|r records IH]; intros b s Hb.
  - assert (b = 0%nat) as -> by (simpl in Hb; lia). simpl.
    now rewrite len_nil, Z.add_0_r.
  - destruct b as [|b]; simpl.
    + now rewrite len_nil, Z.add_0_r.
    + simpl in Hb. rewrite IH by lia. rewrite len_app.
      now rewrite !Z.add_assoc.
Qed.

Lemma take_offsets (records : list (list Z)) :
  forall (k : nat) (s : Z),
    take (S k) (s :: offsets_from s records)
    = s :: offsets_from s (take k records).
Proof.
  induction records as [|r records IH]; intros k s.
  - destruct k; reflexivity.
  - destruct k as [|k]; [reflexivity|].
    simpl. f_equal. f_equal. specialize (IH k (s + len r)).
    simpl in IH. now injection IH.
Qed.

Lemma last_offsets (records : list (list Z)) :
  forall s,
    last (s :: offsets_from s records) = Some (s + len (concat records)).
Proof.
  induction records as [|r records IH]; intros s.
  - simpl. now rewrite len_nil, Z.add_0_r.
  - change (offsets_from s (r :: records))
      with ((s + len r) :: offsets_from (s + len r) records).
    rewrite last_cons_cons, IH. simpl. rewrite len_app.
    f_equal. lia.
Qed.

Lemma concat_take_drop (records : list (list Z)) (b k : nat) :
  take (length (concat (take k (drop b records))))
    (drop (length (concat (take b records))) (concat records))
  = concat (take k (drop b records)).
Proof.
  assert (Hsplit : forall (n : nat) (l : list (list Z)),
            concat l = concat (take n l) ++ concat (drop n l)).
  { intros n l. now rewrite <- concat_app, take_drop. }
  rewrite (Hsplit b records), drop_app_length.
  rewrite (Hsplit k (drop b records)) at 1.
  apply take_app_length.
Qed.

End Offsets.

(** ** Reading a ragged column back *)

Section ReadDynamic.

Lemma len_concat_split (records : list (list Z)) (n : nat) :
  len (concat records)
  = len (concat (take n records)) + len (concat (drop n records)).
Proof. now rewrite <- len_app, <- concat_app, take_drop. Qed.

Lemma item_first (x : Z) (t : list Z) : TensorOps.item (x :: t) 0 = Ok x.
Proof. reflexivity. Qed.

Lemma item_last (t : list Z) (x : Z) :
  last t = Some x -> TensorOps.item t (- 1) = Ok x.
Proof.
  intros Hlast. unfold TensorOps.item. simpl.
  destruct t as [|y t]; [discriminate|].
  assert (Hlen : - 1 + len (y :: t) = Z.of_nat (length t))
    by (unfold len; simpl; lia).
  rewrite Hlen. destruct (Z.ltb_spec (Z.of_nat (length t)) 0); [lia|].
  rewrite Nat2Z.id. rewrite last_lookup in Hlast. simpl in Hlast.
  now rewrite Hlast.
Qed.

Lemma len_zero_nil {A : Type} (l : list A) : len l = 0 -> l = [].
Proof. destruct l; [reflexivity|]. unfold len. simpl. lia. Qed.

Lemma read_dynamic_ragged (hf : H5.File) (key : string)
    (records : list (list Z)) (begin_ end_ : Z) :
  H5.dsets hf !! (key +:+ "_offsets") = Some (0 :: offsets_from 0 records) ->
  H5.dsets hf !! (key +:+ "_data") = Some (concat records) ->
  len (concat records) < 2 ^ 63 ->
  0 <= begin_ <= end_ -> end_ <= len records ->
  read_dynamic hf key begin_ end_
  = Ok (ragged (take (Z.to_nat (end_ - begin_))
                  (drop (Z.to_nat begin_) records))).
Proof.
  intros Hoffs Hdata Hsmall Hb He.
  unfold read_dynamic. rewrite Hoffs, Hdata.
  set (b := Z.to_nat begin_). set (k := Z.to_nat (end_ - begin_)).
  set (R' := take k (drop b records)).
  set (s := len (concat (take b records))).
  assert (HlenR' : length R' = k).
  { unfold R'. rewrite length_take, length_drop. unfold len in He. lia. }
  assert (Hs0 : 0 <= s) by apply len_nonneg.
  assert (Hn0 : 0 <= len (concat R')) by apply len_nonneg.
  assert (Hfit : s + len (concat R') <= len (concat records)).
  { rewrite (len_concat_split records b). fold s.
    rewrite (len_concat_split (drop b records) k). fold R'.
    pose proof (len_nonneg (concat (drop k (drop b records)))). lia. }
  (* the offsets read *)
  unfold Tensor.empty.
  destruct (Z.ltb_spec (end_ - begin_ + 1) 0); [lia|].
  cbn [rbind]. rewrite len_replicate by lia.
  assert (Hsel : Slice.getitem (0 :: offsets_from 0 records) begin_
                   (end_ + 1) = s :: offsets_from s R').
  { rewrite getitem_in;
      [|lia|unfold len in *; simpl; rewrite length_offsets_from; lia].
    fold b. rewrite drop_offsets by (unfold b, len in *; lia).
    rewrite Z.add_0_l. fold s.
    replace (Z.to_nat (end_ + 1 - begin_)) with (S k) by (unfold k; lia).
    apply take_offsets. }
  unfold H5.read_direct at 1. rewrite Hsel.
  assert (Hlensel : len (s :: offsets_from s R') = end_ - begin_ + 1).
  { unfold len. simpl. rewrite length_offsets_from, HlenR'.
    unfold k. lia. }
  rewrite Hlensel, Z.eqb_refl.
  destruct (Z.ltb_spec 0 (end_ - begin_ + 1)); [|lia].
  cbn [andb rbind]. rewrite item_first. cbn [rbind].
  rewrite (item_last _ _ (last_offsets R' s)). cbn [rbind].
  replace (s + len (concat R') - s) with (len (concat R')) by lia.
  destruct (Z.ltb_spec (len (concat R')) 0); [lia|]. cbn [rbind].
  (* the data read *)
  assert (Hdata_read :
    (if 0 <? len (concat R')
     then H5.read_direct (concat records)
            (len (replicate (Z.to_nat (len (concat R'))) 0))
            s (s + len (concat R'))
     else Ok (replicate (Z.to_nat (len (concat R'))) 0))
    = Ok (concat R')).
  { destruct (Z.ltb_spec 0 (len (concat R'))) as [Hpos|Hzero].
    - unfold H5.read_direct. rewrite getitem_in by lia.
      replace (Z.to_nat (s + len (concat R') - s))
        with (length (concat R')) by (unfold len; lia).
      replace (Z.to_nat s) with (length (concat (take b records)))
        by (unfold s, len; lia).
      unfold R'. rewrite concat_take_drop. fold R'.
      rewrite len_replicate by lia. rewrite Z.eqb_refl.
      destruct (Z.ltb_spec 0 (len (concat R'))); [reflexivity|lia].
    - assert (Hz : len (concat R') = 0) by lia.
      rewrite Hz. now rewrite (len_zero_nil _ Hz). }
  rewrite Hdata_read. cbn [rbind]. unfold ragged. do 2 f_equal.
  (* the offsets start at 0 *)
  cbn [map]. rewrite Z.sub_diag, wrap64_small by lia. f_equal.
  transitivity (map (fun o => wrap64 (o + - s)) (offsets_from s R')).
  { apply map_ext. intros o. f_equal. }
  rewrite map_wrap64_offsets_from by lia. f_equal. lia.
Qed.

End ReadDynamic.

(** ** FileEdgeAppender: one ragged column *)

Section AppenderFacts.

Import FileEdgeAppender.

Lemma offsets_data_names (name : string) :
  name +:+ "_offsets" <> name +:+ "_data".
Proof. intros H. apply (inj (String.app name)) in H. discriminate. Qed.

Lemma has_dataset_eq (name : string) (self : FileEdgeAppender) :
  has_dataset name self
  = (self, Ok (bool_decide (is_Some (datasets self !! name)))).
Proof. reflexivity. Qed.

Lemma new_dataset_fresh (name : string) (self : FileEdgeAppender) :
  no_dataset self name ->
  exists d,
    new_dataset name self
    = (set_datasets (<[name := d]> (datasets self)) self, Ok tt) /\
    buffered_inv d /\ contents d = [] /\ total_data d = 0.
Proof.
  intros [Hds Hhf]. unfold new_dataset.
  destruct (init_spec (current_file self) name)
    as (d & Hinit & Hinv & _ & Hcont & Htot).
  { unfold current_file. cbn [H5.dsets].
    apply lookup_union_None_2; [|exact Hhf].
    now rewrite lookup_fmap, Hds. }
  rewrite Hinit. eauto.
Qed.

Lemma on_dataset_append (name : string) (tensor : list Z)
    (d : BufferedDataset) (self : FileEdgeAppender) :
  datasets self !! name = Some d -> buffered_inv d ->
  exists d',
    on_dataset name (BufferedDataset.append tensor) self
    = (set_datasets (<[name := d']> (datasets self)) self, Ok tt) /\
    buffered_inv d' /\ contents d' = contents d ++ tensor.
Proof.
  intros Hd Hinv. unfold on_dataset. rewrite Hd.
  destruct (append_spec tensor d Hinv)
    as (d' & Hrun & Hinv' & _ & Hcont & _).
  rewrite Hrun. eauto.
Qed.

Lemma total_data_contents (d : BufferedDataset) :
  buffered_inv d -> total_data d = len (contents d).
Proof.
  intros [Hbuf Hoff Htotal _]. rewrite len_contents by lia. lia.
Qed.

Lemma in_int64_small (x : Z) : 0 <= x < 2 ^ 63 -> in_int64 x = true.
Proof.
  intros H. unfold in_int64.
  destruct (Z.leb_spec (- 2 ^ 63) x); [|lia].
  destruct (Z.ltb_spec x (2 ^ 63)); [reflexivity|lia].
Qed.

Local Abbreviation append_tail name tensor_list :=
  (run total <- on_dataset (name +:+ "_data")
                  (fun d => (d, Ok (total_data d)));
   run offsets <- slift (Tensor.add_scalar
                           (Slice.getitem (offsets tensor_list) 1
                              (len (offsets tensor_list))) total);
   on_dataset (name +:+ "_offsets") (BufferedDataset.append offsets);;
   on_dataset (name +:+ "_data")
     (BufferedDataset.append (data tensor_list))).

Lemma append_tail_spec (name : string) (records new : list (list Z))
    (self : FileEdgeAppender) :
  appender_inv self -> holds_records self name records ->
  len (concat (records ++ new)) < 2 ^ 63 ->
  exists self',
    append_tail name (ragged new) self = (self', Ok tt) /\
    appender_inv self' /\ holds_records self' name (records ++ new) /\
    hf self' = hf self /\
    (forall k, k <> name +:+ "_offsets" -> k <> name +:+ "_data" ->
               datasets self' !! k = datasets self !! k).
Proof.
  intros Hinv (dO & dD & HdO & HdD & HcO & HcD) Hsmall.
  pose proof (offsets_data_names name) as Hne.
  pose proof (Hinv _ _ HdO) as HinvO. pose proof (Hinv _ _ HdD) as HinvD.
  simpl in HinvO, HinvD.
  assert (Htotal : total_data dD = len (concat records))
    by (rewrite total_data_contents, HcD by exact HinvD; reflexivity).
  rewrite concat_app, len_app in Hsmall.
  pose proof (len_nonneg (concat records)).
  pose proof (len_nonneg (concat new)).
  unfold sbind at 1. unfold on_dataset at 1. rewrite HdD.
  rewrite insert_id by exact HdD.
  replace (set_datasets (datasets self) self) with self
    by (now destruct self).
  unfold sbind at 1, slift. cbn [ragged offsets data].
  assert (Hshift :
    Tensor.add_scalar
      (Slice.getitem (0 :: offsets_from 0 new) 1
         (len (0 :: offsets_from 0 new))) (total_data dD)
    = Ok (offsets_from (len (concat records)) new)).
  { rewrite getitem_suffix by (unfold len; simpl; lia).
    change (Z.to_nat 1) with 1%nat. cbn [drop]. rewrite drop_0.
    unfold Tensor.add_scalar. rewrite in_int64_small by lia.
    rewrite Htotal, map_wrap64_offsets_from by lia. reflexivity. }
  rewrite Hshift. unfold sbind.
  destruct (on_dataset_append (name +:+ "_offsets")
              (offsets_from (len (concat records)) new) dO self HdO HinvO)
    as (dO' & HrunO & HinvO' & HcO').
  rewrite HrunO.
  set (self1 := set_datasets
                  (<[name +:+ "_offsets" := dO']> (datasets self)) self).
  assert (HdD1 : datasets self1 !! (name +:+ "_data") = Some dD).
  { unfold self1. cbn [datasets set_datasets].
    rewrite lookup_insert_ne by exact Hne. exact HdD. }
  destruct (on_dataset_append (name +:+ "_data") (concat new) dD self1
              HdD1 HinvD) as (dD' & HrunD & HinvD' & HcD').
  rewrite HrunD. eexists. split; [reflexivity|].
  unfold self1. cbn [datasets set_datasets hf].
  split; [|split; [|split; [reflexivity|]]].
  - unfold appender_inv. cbn [datasets set_datasets].
    apply map_Forall_insert_2; [exact HinvD'|].
    apply map_Forall_insert_2; [exact HinvO'|exact Hinv].
  - exists dO', dD'. cbn [datasets set_datasets].
    rewrite lookup_insert_ne, !lookup_insert_eq by congruence.
    split; [reflexivity|]. split; [reflexivity|]. split.
    + rewrite HcO', HcO, offsets_from_app. now rewrite Z.add_0_l.
    + rewrite HcD', HcD, concat_app. reflexivity.
  - intros k HkO HkD. now rewrite !lookup_insert_ne by congruence.
Qed.

Lemma sbind_ok {S A B : Type} (m : stateE S A) (k : A -> stateE S B)
    (s s' : S) (a : A) :
  m s = (s', Ok a) -> sbind m k s = k a s'.
Proof. intros H. unfold sbind. now rewrite H. Qed.

Lemma has_dataset_present (name : string) (d : BufferedDataset)
    (self : FileEdgeAppender) :
  datasets self !! name = Some d -> has_dataset name self = (self, Ok true).
Proof.
  intros H. rewrite has_dataset_eq.
  now rewrite bool_decide_eq_true_2 by eauto.
Qed.

Lemma has_dataset_absent (name : string) (self : FileEdgeAppender) :
  datasets self !! name = None -> has_dataset name self = (self, Ok false).
Proof.
  intros H. rewrite has_dataset_eq.
  rewrite bool_decide_eq_false_2; [reflexivity|].
  rewrite H. intros [x Hx]. discriminate.
Qed.

(** A first append makes the two datasets and seeds the offsets with 0. *)
Lemma append_tensor_list_spec (name : string) (records new : list (list Z))
    (self : FileEdgeAppender) :
  appender_inv self ->
  holds_records self name records \/
    (records = [] /\ no_dataset self (name +:+ "_offsets") /\
     no_dataset self (name +:+ "_data")) ->
  len (concat (records ++ new)) < 2 ^ 63 ->
  exists self',
    append_tensor_list name (ragged new) self = (self', Ok tt) /\
    appender_inv self' /\ holds_records self' name (records ++ new) /\
    hf self' = hf self /\
    (forall k, k <> name +:+ "_offsets" -> k <> name +:+ "_data" ->
               datasets self' !! k = datasets self !! k).
Proof.
  intros Hinv Hstate Hsmall.
  pose proof (offsets_data_names name) as Hne.
  unfold append_tensor_list.
  destruct Hstate as [Hholds|(-> & HnoO & HnoD)].
  - destruct Hholds as (dO & dD & HdO & HdD & HcO & HcD).
    rewrite (sbind_ok _ _ _ _ _ (has_dataset_present _ _ _ HdO)).
    rewrite (sbind_ok (sret tt) _ self self tt eq_refl).
    rewrite (sbind_ok _ _ _ _ _ (has_dataset_present _ _ _ HdD)).
    rewrite (sbind_ok (sret tt) _ self self tt eq_refl).
    apply append_tail_spec; [exact Hinv| |exact Hsmall].
    exists dO, dD. auto.
  - destruct HnoO as [HnoO HnoO'], HnoD as [HnoD HnoD'].
    rewrite (sbind_ok _ _ _ _ _ (has_dataset_absent _ _ HnoO)).
    destruct (new_dataset_fresh (name +:+ "_offsets") self)
      as (d0 & Hnew0 & Hinv0 & Hcont0 & _); [split; assumption|].
    set (self1 := set_datasets
                    (<[name +:+ "_offsets" := d0]> (datasets self)) self)
      in *.
    assert (Hd0 : datasets self1 !! (name +:+ "_offsets") = Some d0)
      by apply lookup_insert_eq.
    destruct (on_dataset_append _ [0] d0 self1 Hd0 Hinv0)
      as (d1 & Hrun1 & Hinv1 & Hcont1).
    rewrite Hcont0 in Hcont1. cbn [app] in Hcont1.
    set (self2 := set_datasets
                    (<[name +:+ "_offsets" := d1]> (datasets self1)) self1)
      in *.
    rewrite (sbind_ok _ _ self self2 tt).
    2:{ rewrite (sbind_ok _ _ _ _ _ Hnew0). exact Hrun1. }
    assert (HnoD2 : datasets self2 !! (name +:+ "_data") = None).
    { unfold self2, self1. cbn [datasets set_datasets].
      now rewrite !lookup_insert_ne by exact Hne. }
    rewrite (sbind_ok _ _ _ _ _ (has_dataset_absent _ _ HnoD2)).
    destruct (new_dataset_fresh (name +:+ "_data") self2)
      as (e0 & Hnew1 & Hinve & Hconte & _); [split; assumption|].
    set (self3 := set_datasets
                    (<[name +:+ "_data" := e0]> (datasets self2)) self2)
      in *.
    rewrite (sbind_ok _ _ _ _ _ Hnew1).
    destruct (append_tail_spec name [] new self3)
      as (self' & Hrun & Hinv' & Hholds' & Hhf & Hothers).
    + unfold appender_inv, self3, self2, self1. cbn [datasets set_datasets].
      apply map_Forall_insert_2; [exact Hinve|].
      apply map_Forall_insert_2; [exact Hinv1|].
      apply map_Forall_insert_2; [exact Hinv0|exact Hinv].
    + exists d1, e0. unfold self3, self2, self1.
      cbn [datasets set_datasets].
      rewrite lookup_insert_ne, !lookup_insert_eq by congruence.
      auto.
    + exact Hsmall.
    + exists self'. split; [exact Hrun|]. split; [exact Hinv'|].
      split; [exact Hholds'|]. split; [exact Hhf|].
      intros k HkO HkD. rewrite Hothers by assumption.
      unfold self3, self2, self1. cbn [datasets set_datasets].
      now rewrite !lookup_insert_ne by congruence.
Qed.

Lemma append_tensor_lists_spec (name : string)
    (lists : list (list (list Z))) :
  forall (records : list (list Z)) (self : FileEdgeAppender),
    appender_inv self ->
    holds_records self name records \/
      (records = [] /\ no_dataset self (name +:+ "_offsets") /\
       no_dataset self (name +:+ "_data")) ->
    len (concat (records ++ concat lists)) < 2 ^ 63 ->
    exists self',
      append_tensor_lists name (ragged <$> lists) self = (self', Ok tt) /\
      appender_inv self' /\
      hf self' = hf self /\
      (holds_records self' name (records ++ concat lists) \/
         (lists = [] /\ self' = self)).
Proof.
  induction lists as [|new lists IH]; intros records self Hinv Hstate Hsmall.
  - exists self. cbn [append_tensor_lists fmap list_fmap].
    split; [reflexivity|]. split; [exact Hinv|]. split; [reflexivity|].
    right. auto.
  - cbn [append_tensor_lists fmap list_fmap concat] in *.
    rewrite app_assoc in Hsmall.
    destruct (append_tensor_list_spec name records new self Hinv Hstate)
      as (self1 & Hrun1 & Hinv1 & Hholds1 & Hhf1 & _).
    { rewrite concat_app, len_app in Hsmall. rewrite concat_app, len_app.
      pose proof (len_nonneg (concat (concat lists))).
      rewrite concat_app, len_app in Hsmall. lia. }
    rewrite (sbind_ok _ _ _ _ _ Hrun1).
    destruct (IH (records ++ new) self1 Hinv1 (or_introl Hholds1) Hsmall)
      as (self2 & Hrun2 & Hinv2 & Hhf2 & Hholds2).
    exists self2. split; [exact Hrun2|]. split; [exact Hinv2|].
    split; [congruence|]. left. rewrite app_assoc.
    destruct Hholds2 as [H|[-> ->]]; [exact H|].
    now rewrite app_nil_r.
Qed.

(** *** Closing the appender *)

Lemma exit_fold (m0 m : gmap string BufferedDataset) :
  map_Forall (fun _ d => buffered_inv d) m ->
  map_fold exit_step (m0, Ok tt) m
  = (((fun d => fst (BufferedDataset.flush_buffer true d)) <$> m) ∪ m0,
     Ok tt).
Proof.
  revert m.
  apply (map_fold_weak_ind
    (fun r m =>
       map_Forall (fun _ d => buffered_inv d) m ->
       r = (((fun d => fst (BufferedDataset.flush_buffer true d)) <$> m)
              ∪ m0, Ok tt))).
  - intros _. now rewrite fmap_empty, (left_id_L ∅ (∪)).
  - intros i d m r Hi IH Hall.
    apply map_Forall_insert in Hall; [|exact Hi].
    destruct Hall as [Hd Hall]. rewrite (IH Hall).
    cbn [exit_step].
    destruct (flush_buffer_last_spec d Hd) as (d' & Hflush & _).
    rewrite fmap_insert, Hflush. cbn [fst].
    now rewrite insert_union_l.
Qed.

Lemma exit_spec (self : FileEdgeAppender) :
  appender_inv self ->
  exists self',
    __exit__ self = (self', Ok tt) /\
    hf self' = hf self /\
    (forall k,
       dataset <$> (datasets self' !! k) = contents <$> (datasets self !! k)).
Proof.
  intros Hinv. unfold __exit__. rewrite exit_fold by exact Hinv.
  eexists. split; [reflexivity|]. split; [reflexivity|].
  intros k. cbn [datasets set_datasets].
  rewrite lookup_union, lookup_fmap.
  destruct (datasets self !! k) as [d|] eqn:Hk; [|reflexivity].
  cbn. f_equal.
  destruct (flush_buffer_last_spec d (Hinv _ _ Hk)) as (d' & Hflush & Hds & _).
  now rewrite Hflush.
Qed.

Lemma current_file_closed (self self' : FileEdgeAppender) (k : string) :
  hf self' = hf self ->
  (forall k,
     dataset <$> (datasets self' !! k) = contents <$> (datasets self !! k)) ->
  H5.dsets (current_file self') !! k
  = union (contents <$> (datasets self !! k)) (H5.dsets (hf self) !! k).
Proof.
  intros Hhf Hds. unfold current_file. cbn [H5.dsets].
  now rewrite lookup_union, lookup_fmap, Hds, Hhf.
Qed.

End AppenderFacts.

Example example_file_columns :
  H5.dsets example_file
  = {[ "lhsd_offsets" := [0; 2; 3; 3; 6]; "lhsd_data" := [1; 2; 3; 4; 5; 6] ]}.
Proof. vm_compute. reflexivity. Qed.

(** C4, as amended: ragged lists appended to one named column of an
    appender by [append_tensor_list], the file then closed, are read back
    by [read_dynamic]: for [0 <= begin <= end <= records], the result
    is the ragged list of the records [begin .. end-1], offsets starting at
    0; the offsets column is 0 followed by one offset per record.  The total
    number of values is below [2 ^ 63].  In the example of the spec,
    records [[1,3)] are [[3],[]] and records [[1,4)] are
    [[3],[],[4,5,6]]. *)
Theorem ragged_round_trip :
  (forall (self : FileEdgeAppender) (name : string)
          (lists : list (list (list Z))) (begin_ end_ : Z),
     appender_inv self ->
     no_dataset self (name +:+ "_offsets") ->
     no_dataset self (name +:+ "_data") ->
     len (concat (concat lists)) < 2 ^ 63 ->
     0 <= begin_ <= end_ -> end_ <= len (concat lists) ->
     exists self1 self2,
       append_tensor_lists name (ragged <$> lists) self = (self1, Ok tt) /\
       FileEdgeAppender.__exit__ self1 = (self2, Ok tt) /\
       (lists <> [] ->
        H5.dsets (current_file self2) !! (name +:+ "_offsets")
        = Some (0 :: offsets_from 0 (concat lists)) /\
        H5.dsets (current_file self2) !! (name +:+ "_data")
        = Some (concat (concat lists))) /\
       read_dynamic (current_file self2) name begin_ end_
       = Ok (ragged (take (Z.to_nat (end_ - begin_))
                       (drop (Z.to_nat begin_) (concat lists))))) /\
  read_dynamic example_file "lhsd" 1 3 = Ok (ragged [[3]; []]) /\
  read_dynamic example_file "lhsd" 1 4 = Ok (ragged [[3]; []; [4; 5; 6]]).
Proof.
  split; [|split; vm_compute; reflexivity].
  intros self name lists begin_ end_ Hinv HnoO HnoD Hsmall Hb He.
  destruct (append_tensor_lists_spec name lists [] self Hinv)
    as (self1 & Hrun & Hinv1 & Hhf1 & Hstate); [right; auto|exact Hsmall|].
  destruct (exit_spec self1 Hinv1) as (self2 & Hexit & Hhf2 & Hds).
  exists self1, self2. split; [exact Hrun|]. split; [exact Hexit|].
  cbn [app] in Hstate.
  destruct Hstate as [(dO & dD & HdO & HdD & HcO & HcD)|[-> ->]].
  - assert (HfO : H5.dsets (current_file self2) !! (name +:+ "_offsets")
                  = Some (0 :: offsets_from 0 (concat lists))).
    { rewrite (current_file_closed self1 self2 _ Hhf2 Hds), HdO.
      cbn. rewrite HcO. now destruct (H5.dsets (hf self1) !! _). }
    assert (HfD : H5.dsets (current_file self2) !! (name +:+ "_data")
                  = Some (concat (concat lists))).
    { rewrite (current_file_closed self1 self2 _ Hhf2 Hds), HdD.
      cbn. rewrite HcD. now destruct (H5.dsets (hf self1) !! _). }
    split; [auto|]. now apply read_dynamic_ragged.
  - split; [congruence|].
    unfold read_dynamic.
    rewrite (current_file_closed self self2 _ Hhf2 Hds).
    destruct HnoO as [HnoO HnoO']. rewrite HnoO, HnoO'. cbn.
    assert (end_ = 0) as -> by (unfold len in He; simpl in He; lia).
    assert (begin_ = 0) as -> by lia.
    reflexivity.
Qed.

Lemma ragged_round_trip_witness :
  exists self1 self2,
    append_tensor_lists "lhsd"
      (ragged <$> [[[1; 2]; [3]]; [[]; [4; 5; 6]]])
      (FileEdgeAppender.__init__ (H5.mkFile ∅ ∅)) = (self1, Ok tt) /\
    FileEdgeAppender.__exit__ self1 = (self2, Ok tt) /\
    ([[[1; 2]; [3]]; [[]; [4; 5; 6]]] <> [] ->
     H5.dsets (current_file self2) !! ("lhsd" +:+ "_offsets")
     = Some (0 :: offsets_from 0 (concat [[[1; 2]; [3]]; [[]; [4; 5; 6]]])) /\
     H5.dsets (current_file self2) !! ("lhsd" +:+ "_data")
     = Some (concat (concat [[[1; 2]; [3]]; [[]; [4; 5; 6]]]))) /\
    read_dynamic (current_file self2) "lhsd" 1 3
    = Ok (ragged (take (Z.to_nat (3 - 1))
                    (drop (Z.to_nat 1)
                       (concat [[[1; 2]; [3]]; [[]; [4; 5; 6]]])))).
Proof.
  apply (proj1 ragged_round_trip).
  - apply map_Forall_empty.
  - split; reflexivity.
  - split; reflexivity.
  - reflexivity.
  - lia.
  - vm_compute. discriminate.
Defined.

(** C4, as stated, fails on its example: records [[1,3)] of the column are
    two records, not the three of [[3],[],[4,5,6]]. *)
Lemma ragged_example_range_1_3 :
  read_dynamic example_file "lhsd" 1 3 <> Ok (ragged [[3]; []; [4; 5; 6]]).
Proof. vm_compute. discriminate. Qed.

(** ** Text: an integer written and parsed back *)

Section TextFacts.

Lemma sapp_nil (s : string) : "" +:+ s = s.
Proof. reflexivity. Qed.

Lemma sapp_cons (c : ascii) (a b : string) :
  String c a +:+ b = String c (a +:+ b).
Proof. reflexivity. Qed.

Lemma slength_app (a b : string) :
  String.length (a +:+ b) = (String.length a + String.length b)%nat.
Proof.
  induction a as [|c a IH]; [reflexivity|].
  rewrite sapp_cons. cbn [String.length]. now rewrite IH.
Qed.

Lemma all_chars_impl (p q : ascii -> bool) (s : string) :
  (forall c, p c = true -> q c = true) ->
  all_chars p s = true -> all_chars q s = true.
Proof.
  intros Hpq. induction s as [|c s IH]; cbn [all_chars]; [reflexivity|].
  intros H. apply andb_true_iff in H as [Hc Hs].
  now rewrite (Hpq c Hc), (IH Hs).
Qed.

Lemma digit_not_space (c : ascii) :
  PyStr.is_digit c = true -> negb (PyStr.is_space c) = true.
Proof.
  unfold PyStr.is_digit, PyStr.is_space.
  generalize (N_of_ascii c). intros n. cbv zeta. intros H.
  apply andb_true_iff in H as [H1 H2].
  apply N.leb_le in H1, H2.
  apply negb_true_iff, orb_false_iff. split; apply andb_false_iff.
  - right. apply N.leb_gt. lia.
  - right. apply N.leb_gt. lia.
Qed.

Lemma digit_not_char (c x : ascii) :
  PyStr.is_digit x = false ->
  PyStr.is_digit c = true -> Ascii.eqb c x = false.
Proof.
  intros Hx Hc. destruct (Ascii.eqb_spec c x) as [->|Hne];
    [congruence|reflexivity].
Qed.

Lemma digits_of_uint (d : Decimal.uint) :
  all_chars PyStr.is_digit (NilEmpty.string_of_uint d) = true.
Proof.
  induction d; cbn [NilEmpty.string_of_uint all_chars];
    rewrite ?IHd; reflexivity.
Qed.

Lemma nilzero_string (d : Decimal.uint) :
  exists c r d',
    NilZero.string_of_uint d = String c r /\
    all_chars PyStr.is_digit (String c r) = true /\
    NilEmpty.uint_of_string (String c r) = Some d' /\
    Z.of_uint d' = Z.of_uint d.
Proof.
  assert (Hnonnil : forall d0 : Decimal.uint,
            d0 <> Decimal.Nil ->
            NilZero.string_of_uint d0 = NilEmpty.string_of_uint d0)
    by (intros [| | | | | | | | | |] H; [congruence|reflexivity..]).
  destruct (Decimal.uint_eq_dec d Decimal.Nil) as [->|Hd].
  - exists "0"%char, ""%string, (Decimal.D0 Decimal.Nil).
    repeat split.
  - rewrite (Hnonnil d Hd).
    pose proof (digits_of_uint d) as Hdigits.
    pose proof (NilEmpty.usu d) as Hparse.
    destruct (NilEmpty.string_of_uint d) as [|c r] eqn:Hs.
    + destruct d; discriminate || congruence.
    + exists c, r, d. auto.
Qed.

Lemma drop_underscores_digits (s : string) :
  all_chars PyStr.is_digit s = true -> PyStr.drop_underscores s = Some s.
Proof.
  induction s as [|c s IH]; cbn [all_chars PyStr.drop_underscores];
    [reflexivity|].
  intros H. apply andb_true_iff in H as [Hc Hs].
  rewrite (digit_not_char c "_" eq_refl Hc), (IH Hs). reflexivity.
Qed.

Lemma rstrip_line (s : string) :
  all_chars (fun c => negb (PyStr.is_space c)) s = true ->
  PyStr.rstrip (s +:+ newline) = s.
Proof.
  induction s as [|c s IH]; [reflexivity|].
  cbn [all_chars]. intros H. apply andb_true_iff in H as [Hc Hs].
  rewrite sapp_cons. cbn [PyStr.rstrip]. rewrite (IH Hs).
  apply negb_true_iff in Hc. rewrite Hc. now destruct s.
Qed.

Lemma strip_line (c : ascii) (r : string) :
  all_chars (fun c => negb (PyStr.is_space c)) (String c r) = true ->
  PyStr.strip (String c r +:+ newline) = String c r.
Proof.
  intros H. unfold PyStr.strip.
  assert (Hc : PyStr.is_space c = false).
  { cbn [all_chars] in H. apply andb_true_iff in H as [Hc _].
    now apply negb_true_iff in Hc. }
  rewrite sapp_cons. cbn [PyStr.lstrip]. rewrite Hc.
  rewrite <- sapp_cons. now apply rstrip_line.
Qed.

(** [int] undoes the formatting of an integer followed by a newline. *)
Lemma to_int_of_int (n : Z) :
  PyStr.to_int (PyStr.of_int n +:+ newline) = Ok n.
Proof.
  unfold PyStr.of_int.
  rewrite <- (DecimalZ.of_to n) at 2.
  destruct (Z.to_int n) as [d|d]; cbn [NilZero.string_of_int Z.of_int];
    destruct (nilzero_string d) as (c & r & d' & -> & Hdigits & Hparse & <-);
    pose proof Hdigits as Hcr; cbn [all_chars] in Hcr;
    apply andb_true_iff in Hcr as [Hc Hr];
    pose proof (all_chars_impl _ _ _ digit_not_space Hdigits) as Hnonspace.
  - unfold PyStr.to_int. rewrite (strip_line c r Hnonspace).
    rewrite (digit_not_char c "-" eq_refl Hc).
    rewrite (digit_not_char c "+" eq_refl Hc).
    rewrite Hc, (drop_underscores_digits r Hr), Hparse. reflexivity.
  - unfold PyStr.to_int. rewrite (strip_line "-" (String c r)).
    + rewrite Ascii.eqb_refl.
      rewrite Hc, (drop_underscores_digits r Hr), Hparse. reflexivity.
    + change (all_chars (fun c => negb (PyStr.is_space c))
                (String "-" (String c r)))
        with (true && all_chars (fun c => negb (PyStr.is_space c))
                        (String c r)).
      now rewrite Hnonspace.
Qed.

Lemma to_int_raises (s : string) (e : exn) :
  PyStr.to_int s = Raise e -> e = ValueError.
Proof.
  unfold PyStr.to_int.
  destruct (match PyStr.strip s with
            | String c r =>
                if Ascii.eqb c "-" then (true, r)
                else if Ascii.eqb c "+" then (false, r)
                else (false, PyStr.strip s)
            | EmptyString => (false, PyStr.strip s)
            end) as [negative s'].
  destruct s' as [|c r]; [congruence|].
  destruct (PyStr.is_digit c); [|congruence].
  destruct (PyStr.drop_underscores r) as [r'|]; [|congruence].
  destruct (NilEmpty.uint_of_string (String c r')); congruence.
Qed.

End TextFacts.

(** ** Counts and names *)

Section MetadataFacts.

Lemma load_count_missing (path : Path.t) (fs : gmap string node) :
  load_count path fs = Raise CouldNotLoadData
  <-> fs !! Path.str path = None.
Proof.
  unfold load_count, read_text.
  destruct (fs !! Path.str path) as [[s|h|]|]; split;
    try discriminate; try reflexivity.
  intros H. apply to_int_raises in H. discriminate.
Qed.

Lemma load_names_missing (json_loads : string -> option (list string))
    (path : Path.t) (fs : gmap string node) :
  load_names json_loads path fs = Raise CouldNotLoadData
  <-> fs !! Path.str path = None.
Proof.
  unfold load_names, read_text.
  destruct (fs !! Path.str path) as [[s|h|]|]; split;
    try discriminate; try reflexivity.
  destruct (json_loads s); discriminate.
Qed.

Lemma save_load_count (path : Path.t) (n : Z) (fs : gmap string node) :
  fs !! Path.str path <> Some Directory ->
  exists fs',
    save_count path n fs = (fs', Ok tt) /\
    fs' !! Path.str path = Some (TextFile (PyStr.of_int n +:+ newline)) /\
    load_count path fs' = Ok n.
Proof.
  intros Hdir. eexists. split; [|split].
  - unfold save_count.
    destruct (fs !! Path.str path) as [[s|h|]|]; try reflexivity.
    congruence.
  - apply lookup_insert_eq.
  - unfold load_count, read_text. rewrite lookup_insert_eq.
    apply to_int_of_int.
Qed.

End MetadataFacts.

(** C7: [load_count] and [load_names] raise [CouldNotLoadData] exactly when
    nothing exists at the path; [save_count] writes the integer in decimal
    followed by a newline as the whole text of the file, and [load_count]
    on the same path then returns the integer. *)
Theorem count_file_round_trip
    (json_loads : string -> option (list string)) :
  (forall (path : Path.t) (fs : gmap string node),
     load_count path fs = Raise CouldNotLoadData
     <-> fs !! Path.str path = None) /\
  (forall (path : Path.t) (fs : gmap string node),
     load_names json_loads path fs = Raise CouldNotLoadData
     <-> fs !! Path.str path = None) /\
  (forall (path : Path.t) (n : Z) (fs : gmap string node),
     0 <= n ->
     fs !! Path.str path <> Some Directory ->
     exists fs',
       save_count path n fs = (fs', Ok tt) /\
       fs' !! Path.str path = Some (TextFile (PyStr.of_int n +:+ newline)) /\
       load_count path fs' = Ok n).
Proof.
  split; [exact load_count_missing|].
  split; [exact (load_names_missing json_loads)|].
  intros path n fs _. apply save_load_count.
Qed.

Lemma count_file_round_trip_witness :
  exists fs',
    save_count (Path.mk "/data" "entity_count_user_0.txt") 42 ∅
    = (fs', Ok tt) /\
    fs' !! Path.str (Path.mk "/data" "entity_count_user_0.txt")
    = Some (TextFile (PyStr.of_int 42 +:+ newline)) /\
    load_count (Path.mk "/data" "entity_count_user_0.txt") fs' = Ok 42.
Proof.
  apply (proj2 (proj2 (count_file_round_trip (fun _ => None)))).
  - lia.
  - rewrite lookup_empty. discriminate.
Defined.

Example count_file_text :
  fst (save_count (Path.mk "/data" "dynamic_rel_count.txt") 1234 ∅)
    !! "/data/dynamic_rel_count.txt"
  = Some (TextFile (String "1" (String "2" (String "3" (String "4" newline))))).
Proof. vm_compute. reflexivity. Qed.

(** C10: [FileRelationTypeStorage.has_count], annotated as returning
    [None], returns the boolean of [is_file()] on the count file: true
    exactly when a file (not a directory) exists there, as
    [FileEntityStorage.has_count] does for its count file. *)
Theorem relation_has_count_checks_existence :
  (forall (self : FileRelationTypeStorage.t) (fs : gmap string node),
     FileRelationTypeStorage.has_count self fs = true
     <-> exists n,
           fs !! (FileRelationTypeStorage.path self
                  +:+ "/" +:+ "dynamic_rel_count.txt") = Some n /\
           n <> Directory) /\
  (forall (self : FileEntityStorage.t) (entity_name : string)
          (partition : Z) (fs : gmap string node),
     FileEntityStorage.has_count self entity_name partition fs = true
     <-> exists n,
           fs !! (FileEntityStorage.path self +:+ "/" +:+ "entity_count_"
                  +:+ entity_name +:+ "_" +:+ PyStr.of_int partition
                  +:+ ".txt") = Some n /\
           n <> Directory).
Proof.
  split.
  - intros self fs.
    unfold FileRelationTypeStorage.has_count, is_file,
      FileRelationTypeStorage.get_count_file, Path.joinpath, Path.str.
    cbn [Path.parent Path.name].
    destruct (fs !! _) as [[s|h|]|]; split; try discriminate;
      try (intros (n & Hn & Hdir); congruence).
    all: intros _; eexists; split; [reflexivity|discriminate].
  - intros self entity_name partition fs.
    unfold FileEntityStorage.has_count, is_file,
      FileEntityStorage.get_count_file, Path.joinpath, Path.str.
    cbn [Path.parent Path.name].
    destruct (fs !! _) as [[s|h|]|]; split; try discriminate;
      try (intros (n & Hn & Hdir); congruence).
    all: intros _; eexists; split; [reflexivity|discriminate].
Qed.

(** ** What [append_edges] leaves alone *)

Section Frames.

Import FileEdgeAppender.

Lemma touches_sret {A : Type} (names : list string) (a : A) :
  touches_only names (sret a).
Proof. unfold touches_only, sret. intros self self' r [= <- <-]. auto. Qed.

Lemma touches_slift {A : Type} (names : list string) (x : result A) :
  touches_only names (slift x).
Proof. unfold touches_only, slift. intros self self' r [= <- <-]. auto. Qed.

Lemma touches_has_dataset (names : list string) (name : string) :
  touches_only names (has_dataset name).
Proof.
  unfold touches_only, has_dataset. intros self self' r [= <- <-]. auto.
Qed.

Lemma touches_new_dataset (names : list string) (name : string) :
  In name names -> touches_only names (new_dataset name).
Proof.
  intros Hin self self' r. unfold new_dataset.
  destruct (BufferedDataset.__init__ _ _) as [d|e]; intros [= <- <-];
    [|auto].
  split; [reflexivity|]. intros k Hk. cbn [datasets set_datasets].
  apply lookup_insert_ne. intros ->. contradiction.
Qed.

Lemma touches_on_dataset {A : Type} (names : list string) (name : string)
    (method : BufferedDataset -> BufferedDataset * result A) :
  In name names -> touches_only names (on_dataset name method).
Proof.
  intros Hin self self' r. unfold on_dataset.
  destruct (datasets self !! name) as [d|]; [|intros [= <- <-]; auto].
  destruct (method d) as [d' r']. intros [= <- <-].
  split; [reflexivity|]. intros k Hk. cbn [datasets set_datasets].
  apply lookup_insert_ne. intros ->. contradiction.
Qed.

Lemma touches_sbind {A B : Type} (names : list string)
    (m : stateE FileEdgeAppender A) (k : A -> stateE FileEdgeAppender B) :
  touches_only names m -> (forall a, touches_only names (k a)) ->
  touches_only names (sbind m k).
Proof.
  intros Hm Hk self self' r. unfold sbind.
  destruct (m self) as [self1 [a|e]] eqn:Hrun.
  - intros Hrun'. destruct (Hm _ _ _ Hrun) as [Hhf Hds].
    destruct (Hk a _ _ _ Hrun') as [Hhf' Hds'].
    split; [congruence|]. intros key Hkey.
    now rewrite Hds', Hds.
  - intros [= <- <-]. exact (Hm _ _ _ Hrun).
Qed.

Lemma touches_append_tensor (names : list string) (name : string)
    (tensor : list Z) :
  In name names -> touches_only names (append_tensor name tensor).
Proof.
  intros Hin. unfold append_tensor.
  apply touches_sbind; [apply touches_has_dataset|]. intros present.
  apply touches_sbind.
  - destruct present; [apply touches_sret|now apply touches_new_dataset].
  - intros _. now apply touches_on_dataset.
Qed.

Lemma touches_append_tensor_list (names : list string) (name : string)
    (tensor_list : TensorList) :
  In (name +:+ "_offsets") names -> In (name +:+ "_data") names ->
  touches_only names (append_tensor_list name tensor_list).
Proof.
  intros HinO HinD. unfold append_tensor_list.
  apply touches_sbind; [apply touches_has_dataset|]. intros present.
  apply touches_sbind.
  { destruct present; [apply touches_sret|].
    apply touches_sbind; [now apply touches_new_dataset|].
    intros _. now apply touches_on_dataset. }
  intros _.
  apply touches_sbind; [apply touches_has_dataset|]. intros present'.
  apply touches_sbind.
  { destruct present'; [apply touches_sret|now apply touches_new_dataset]. }
  intros _.
  apply touches_sbind; [now apply touches_on_dataset|]. intros total.
  apply touches_sbind; [apply touches_slift|]. intros offsets.
  apply touches_sbind; [now apply touches_on_dataset|]. intros _.
  now apply touches_on_dataset.
Qed.

(** The datasets an [append_edges] can write when the ragged list of one
    side is empty. *)
Lemma touches_append_edges (edgelist : EdgeList) (side other : string) :
  (side = "lhsd" /\ other = "rhsd" /\
   data (tensor_list (lhs edgelist)) = []) \/
  (side = "rhsd" /\ other = "lhsd" /\
   data (tensor_list (rhs edgelist)) = []) ->
  touches_only ["lhs"; "rhs"; "rel"; other +:+ "_offsets"; other +:+ "_data"]
    (append_edges edgelist).
Proof.
  intros Hside. unfold append_edges.
  apply touches_sbind; [apply touches_append_tensor; simpl; auto|].
  intros _.
  apply touches_sbind; [apply touches_append_tensor; simpl; auto|].
  intros _.
  apply touches_sbind; [apply touches_append_tensor; simpl; auto|].
  intros _.
  destruct Hside as [(-> & -> & Hdata)|(-> & -> & Hdata)]; rewrite Hdata;
    change (len [] =? 0) with true; cbv iota.
  - apply touches_sbind; [apply touches_sret|]. intros _.
    destruct (_ =? _); [apply touches_sret|].
    apply touches_append_tensor_list; simpl; auto 10.
  - apply touches_sbind.
    + destruct (_ =? _); [apply touches_sret|].
      apply touches_append_tensor_list; simpl; auto 10.
    + intros _. apply touches_sret.
Qed.

Lemma current_file_frame (self self' : FileEdgeAppender) (k : string) :
  hf self' = hf self -> datasets self' !! k = datasets self !! k ->
  H5.dsets (current_file self') !! k = H5.dsets (current_file self) !! k.
Proof.
  intros Hhf Hk. unfold current_file. cbn [H5.dsets].
  now rewrite !lookup_union, !lookup_fmap, Hk, Hhf.
Qed.

Lemma append_edges_frame (edgelist : EdgeList) (side other : string)
    (self self' : FileEdgeAppender) (r : result unit) :
  (side = "lhsd" /\ other = "rhsd" /\
   data (tensor_list (lhs edgelist)) = []) \/
  (side = "rhsd" /\ other = "lhsd" /\
   data (tensor_list (rhs edgelist)) = []) ->
  append_edges edgelist self = (self', r) ->
  H5.dsets (current_file self') !! (side +:+ "_offsets")
  = H5.dsets (current_file self) !! (side +:+ "_offsets") /\
  H5.dsets (current_file self') !! (side +:+ "_data")
  = H5.dsets (current_file self) !! (side +:+ "_data").
Proof.
  intros Hside Hrun.
  destruct (touches_append_edges edgelist side other Hside _ _ _ Hrun)
    as [Hhf Hds].
  split; apply current_file_frame; try exact Hhf; apply Hds;
    destruct Hside as [(-> & -> & _)|(-> & -> & _)]; simpl;
    intuition discriminate.
Qed.

Lemma read_dynamic_absent (hf : H5.File) (key : string) (begin_ end_ : Z) :
  H5.dsets hf !! (key +:+ "_offsets") = None \/
  H5.dsets hf !! (key +:+ "_data") = None ->
  begin_ <= end_ ->
  read_dynamic hf key begin_ end_
  = Ok (mkTensorList (replicate (Z.to_nat (end_ - begin_ + 1)) 0) []).
Proof.
  intros Habsent Hrange. unfold read_dynamic.
  assert (Hzero : TensorOps.expand_zero (end_ - begin_ + 1)
                  = Ok (replicate (Z.to_nat (end_ - begin_ + 1)) 0)).
  { unfold TensorOps.expand_zero.
    destruct (Z.ltb_spec (end_ - begin_ + 1) 0); [lia|reflexivity]. }
  destruct (H5.dsets hf !! (key +:+ "_offsets")) as [o|];
    destruct (H5.dsets hf !! (key +:+ "_data")) as [d|];
    try (now rewrite Hzero).
  destruct Habsent; discriminate.
Qed.

(** [__exit__] makes no dataset. *)
Lemma exit_keys (self self' : FileEdgeAppender) (r : result unit) :
  __exit__ self = (self', r) ->
  hf self' = hf self /\
  forall k, datasets self !! k = None -> datasets self' !! k = None.
Proof.
  unfold __exit__.
  assert (Hfold : forall m0 m : gmap string BufferedDataset,
            forall k, m0 !! k = None -> m !! k = None ->
                      fst (map_fold exit_step (m0, Ok tt) m) !! k = None).
  { intros m0.
    apply (map_fold_weak_ind
      (fun r m => forall k, m0 !! k = None -> m !! k = None ->
                            fst r !! k = None)).
    - intros k Hk _. exact Hk.
    - intros i d m [ds res] Hi IH k Hk0 Hk.
      apply lookup_insert_None in Hk as [Hk Hne].
      specialize (IH k Hk0 Hk). cbn [fst] in IH.
      destruct res as [u|e]; cbn [exit_step].
      + destruct (BufferedDataset.flush_buffer true d) as [d' r'].
        cbn [fst]. now rewrite lookup_insert_ne.
      + exact IH. }
  destruct (map_fold exit_step (datasets self, Ok tt) (datasets self))
    as [ds res] eqn:Hrun.
  intros [= <- <-]. split; [reflexivity|]. intros k Hk.
  cbn [datasets set_datasets].
  specialize (Hfold (datasets self) (datasets self) k Hk Hk).
  now rewrite Hrun in Hfold.
Qed.

End Frames.

(** ** The temporary path of a shard *)

Section TmpPath.

Import FileEdgeStorage.

Lemma last_dot_split_app (a b x y : string) :
  Path.last_dot_split b = Some (x, y) ->
  Path.last_dot_split (a +:+ b) = Some (a +:+ x, y).
Proof.
  intros Hb. induction a as [|c a IH]; [exact Hb|].
  rewrite sapp_cons. cbn [Path.last_dot_split]. now rewrite IH.
Qed.

Lemma edges_file_split (self : t) (lhs_p rhs_p : Z) :
  Path.last_dot_split (Path.name (get_edges_file self lhs_p rhs_p))
  = Some ("edges_" +:+ PyStr.of_int lhs_p +:+ "_" +:+ PyStr.of_int rhs_p
          +:+ "", "h5").
Proof.
  unfold get_edges_file, Path.joinpath. cbn [Path.name].
  repeat apply last_dot_split_app. reflexivity.
Qed.

Lemma tmp_file_name (self : t) (lhs_p rhs_p : Z) :
  tmp_file_path (get_edges_file self lhs_p rhs_p)
  = Path.mk (path self)
      (("edges_" +:+ PyStr.of_int lhs_p +:+ "_" +:+ PyStr.of_int rhs_p
        +:+ "") +:+ ".tmp" +:+ ".h5").
Proof.
  unfold tmp_file_path, Path.stem, Path.suffix, Path.joinpath.
  rewrite edges_file_split. reflexivity.
Qed.

(** The temporary path is not the final path. *)
Lemma tmp_file_fresh (self : t) (lhs_p rhs_p : Z) :
  Path.str (tmp_file_path (get_edges_file self lhs_p rhs_p))
  <> Path.str (get_edges_file self lhs_p rhs_p).
Proof.
  rewrite tmp_file_name. unfold get_edges_file, Path.joinpath, Path.str.
  cbn [Path.parent Path.name]. intros H.
  apply (f_equal String.length) in H.
  repeat (rewrite slength_app in H || cbn [String.length] in H).
  lia.
Qed.

Example tmp_file_example :
  Path.str (tmp_file_path (get_edges_file (mk "/data") 3 12))
  = "/data/edges_3_12.tmp.h5".
Proof. vm_compute. reflexivity. Qed.

End TmpPath.

(** ** The write session *)

Section AtomicPublish.

Import FileEdgeStorage.

Variables (self : t) (lhs_p rhs_p : Z).
Variable body : stateE FileEdgeAppender unit.

Ltac lookup_other :=
  repeat first [ rewrite lookup_insert_ne by congruence
               | rewrite lookup_delete_ne by congruence ].

Ltac session fs :=
  unfold save_edges_by_appending;
  pose proof (tmp_file_fresh self lhs_p rhs_p) as Hfresh;
  set (file := get_edges_file self lhs_p rhs_p) in *;
  set (tmp := tmp_file_path file) in *;
  unfold is_file;
  destruct (fs !! Path.str tmp) as [[s|h|]|] eqn:Htmp;
  rewrite ?lookup_delete_eq, ?Htmp;
  try (destruct (body new_appender) as [app1 r1] eqn:Hbody;
       destruct (FileEdgeAppender.__exit__ app1) as [app2 r2] eqn:Hexit;
       destruct r2 as [[]|e2]; destruct r1 as [[]|e1];
       unfold rename; rewrite ?lookup_insert_eq; lookup_other).

(** Only the temporary and the final path can change. *)
Lemma session_frame (fs fs' : gmap string node) (r : result unit) :
  save_edges_by_appending self lhs_p rhs_p body fs = (fs', r) ->
  forall p,
    p <> Path.str (tmp_file_path (get_edges_file self lhs_p rhs_p)) ->
    p <> Path.str (get_edges_file self lhs_p rhs_p) ->
    fs' !! p = fs !! p.
Proof.
  session fs;
    try (destruct (fs !! Path.str file) as [[s'|h'|]|]);
    intros [= <- <-] p Hp Hp'; lookup_other; reflexivity.
Qed.

(** Whatever is raised, the final path is as it was. *)
Lemma session_error (fs fs' : gmap string node) (r : result unit) :
  save_edges_by_appending self lhs_p rhs_p body fs = (fs', r) ->
  r <> Ok tt ->
  fs' !! Path.str (get_edges_file self lhs_p rhs_p)
  = fs !! Path.str (get_edges_file self lhs_p rhs_p).
Proof.
  session fs;
    try (destruct (fs !! Path.str file) as [[s'|h'|]|] eqn:Hfile);
    intros [= <- <-] Hr; try congruence; lookup_other;
    first [reflexivity | assumption].
Qed.

(** The rename happens only after the body and [__exit__] have returned
    normally; the final path then holds the closed file and the
    temporary path is free. *)
Lemma session_success (fs fs' : gmap string node) :
  save_edges_by_appending self lhs_p rhs_p body fs = (fs', Ok tt) ->
  exists app1 app2,
    body new_appender = (app1, Ok tt) /\
    FileEdgeAppender.__exit__ app1 = (app2, Ok tt) /\
    fs' !! Path.str (get_edges_file self lhs_p rhs_p)
    = Some (H5File (current_file app2)) /\
    fs' !! Path.str (tmp_file_path (get_edges_file self lhs_p rhs_p))
    = None.
Proof.
  session fs;
    try (destruct (fs !! Path.str file) as [[s'|h'|]|] eqn:Hfile);
    intros [= <-]; exists app1, app2;
    (split; [first [reflexivity | assumption]|]);
    (split; [first [reflexivity | assumption]|]);
    rewrite lookup_insert_eq, lookup_insert_ne, lookup_delete_eq
      by congruence; auto.
Qed.

(** A temporary file left by an earlier session is deleted first: the
    session does what it does without it. *)
Lemma session_stale_tmp (fs : gmap string node) :
  is_file fs (tmp_file_path (get_edges_file self lhs_p rhs_p)) = true ->
  save_edges_by_appending self lhs_p rhs_p body fs
  = save_edges_by_appending self lhs_p rhs_p body
      (delete (Path.str (tmp_file_path (get_edges_file self lhs_p rhs_p)))
         fs).
Proof.
  intros Hfile. unfold save_edges_by_appending.
  set (tmp := tmp_file_path (get_edges_file self lhs_p rhs_p)) in *.
  assert (Hdeleted : is_file (delete (Path.str tmp) fs) tmp = false)
    by (unfold is_file; now rewrite lookup_delete_eq).
  rewrite Hfile, Hdeleted. reflexivity.
Qed.

End AtomicPublish.

(** C3: a write session of [save_edges_by_appending] writes to a temporary
    path, different from the final one, from which a file left by an
    earlier session is deleted first; the format version is stamped before
    the body runs, on a file that has no dataset yet; the temporary file is
    renamed to the final path only when the body and the closing of the
    appender have returned normally; when anything is raised the final
    path is as it was before the session. *)
Theorem atomic_publish (self : FileEdgeStorage.t) (lhs_p rhs_p : Z)
    (body : stateE FileEdgeAppender unit) (fs fs' : gmap string node)
    (r : result unit) :
  FileEdgeStorage.save_edges_by_appending self lhs_p rhs_p body fs = (fs', r) ->
  published_atomically self lhs_p rhs_p body fs fs' r.
Proof.
  intros Hrun. unfold published_atomically.
  split; [apply tmp_file_fresh|].
  split; [exact (session_frame self lhs_p rhs_p body fs fs' r Hrun)|].
  split; [apply session_stale_tmp|].
  split; [repeat split|].
  split.
  - intros ->. exact (session_success self lhs_p rhs_p body fs fs' Hrun).
  - exact (session_error self lhs_p rhs_p body fs fs' r Hrun).
Qed.

Lemma atomic_publish_witness :
  published_atomically (FileEdgeStorage.mk "/data") 0 1
    (FileEdgeAppender.append_edges example_edges) ∅
    (fst (FileEdgeStorage.save_edges (FileEdgeStorage.mk "/data") 0 1
            example_edges ∅))
    (Ok tt).
Proof. apply atomic_publish. vm_compute. reflexivity. Defined.

Section Omitted.

Import FileEdgeStorage.

Lemma save_edges_omits (self : t) (lhs_p rhs_p : Z) (edgelist : EdgeList)
    (side other : string) (fs fs' : gmap string node) :
  (side = "lhsd" /\ other = "rhsd" /\
   data (tensor_list (lhs edgelist)) = []) \/
  (side = "rhsd" /\ other = "lhsd" /\
   data (tensor_list (rhs edgelist)) = []) ->
  save_edges self lhs_p rhs_p edgelist fs = (fs', Ok tt) ->
  exists shard_file,
    fs' !! Path.str (get_edges_file self lhs_p rhs_p)
    = Some (H5File shard_file) /\
    H5.dsets shard_file !! (side +:+ "_offsets") = None /\
    H5.dsets shard_file !! (side +:+ "_data") = None.
Proof.
  intros Hside Hrun. unfold save_edges in Hrun.
  apply session_success in Hrun
    as (app1 & app2 & Hbody & Hexit & Hfile & _).
  exists (current_file app2). split; [exact Hfile|].
  destruct (touches_append_edges edgelist side other Hside _ _ _ Hbody)
    as [Hhf1 Hds1].
  destruct (exit_keys _ _ _ Hexit) as [Hhf2 Hds2].
  assert (Hnone : forall k,
            ~ In k ["lhs"; "rhs"; "rel"; other +:+ "_offsets";
                    other +:+ "_data"] ->
            H5.dsets (current_file app2) !! k = None).
  { intros k Hk. unfold current_file. cbn [H5.dsets].
    rewrite lookup_union, lookup_fmap, Hds2, Hhf2, Hhf1;
      [reflexivity|].
    now rewrite (Hds1 k Hk). }
  split; apply Hnone;
    destruct Hside as [(-> & -> & _)|(-> & -> & _)]; simpl;
    intuition discriminate.
Qed.

End Omitted.

(** C5: when the ragged list of the left (right) side of an edge list has
    no data, [append_edges] leaves the columns [lhsd_offsets] and
    [lhsd_data] ([rhsd_offsets] and [rhsd_data]) of the file as they
    were, so that a shard saved from that edge list has none; and in a
    file that lacks a column of a ragged list, [read_dynamic] over
    [[begin, end)] returns [end - begin + 1] zero offsets and no data. *)
Theorem dynamic_columns_omitted :
  (forall (edgelist : EdgeList) (self self' : FileEdgeAppender)
          (r : result unit),
     data (tensor_list (lhs edgelist)) = [] ->
     FileEdgeAppender.append_edges edgelist self = (self', r) ->
     H5.dsets (current_file self') !! "lhsd_offsets"
     = H5.dsets (current_file self) !! "lhsd_offsets" /\
     H5.dsets (current_file self') !! "lhsd_data"
     = H5.dsets (current_file self) !! "lhsd_data") /\
  (forall (edgelist : EdgeList) (self self' : FileEdgeAppender)
          (r : result unit),
     data (tensor_list (rhs edgelist)) = [] ->
     FileEdgeAppender.append_edges edgelist self = (self', r) ->
     H5.dsets (current_file self') !! "rhsd_offsets"
     = H5.dsets (current_file self) !! "rhsd_offsets" /\
     H5.dsets (current_file self') !! "rhsd_data"
     = H5.dsets (current_file self) !! "rhsd_data") /\
  (forall (self : FileEdgeStorage.t) (lhs_p rhs_p : Z) (edgelist : EdgeList)
          (fs fs' : gmap string node),
     data (tensor_list (lhs edgelist)) = [] ->
     FileEdgeStorage.save_edges self lhs_p rhs_p edgelist fs = (fs', Ok tt) ->
     exists shard_file,
       fs' !! Path.str (FileEdgeStorage.get_edges_file self lhs_p rhs_p)
       = Some (H5File shard_file) /\
       H5.dsets shard_file !! "lhsd_offsets" = None /\
       H5.dsets shard_file !! "lhsd_data" = None) /\
  (forall (self : FileEdgeStorage.t) (lhs_p rhs_p : Z) (edgelist : EdgeList)
          (fs fs' : gmap string node),
     data (tensor_list (rhs edgelist)) = [] ->
     FileEdgeStorage.save_edges self lhs_p rhs_p edgelist fs = (fs', Ok tt) ->
     exists shard_file,
       fs' !! Path.str (FileEdgeStorage.get_edges_file self lhs_p rhs_p)
       = Some (H5File shard_file) /\
       H5.dsets shard_file !! "rhsd_offsets" = None /\
       H5.dsets shard_file !! "rhsd_data" = None) /\
  (forall (hf : H5.File) (key : string) (begin_ end_ : Z),
     H5.dsets hf !! (key +:+ "_offsets") = None \/
     H5.dsets hf !! (key +:+ "_data") = None ->
     begin_ <= end_ ->
     read_dynamic hf key begin_ end_
     = Ok (mkTensorList (replicate (Z.to_nat (end_ - begin_ + 1)) 0) [])).
Proof.
  split; [|split; [|split; [|split]]].
  - intros edgelist self self' r Hdata Hrun.
    apply (append_edges_frame edgelist "lhsd" "rhsd" self self' r); auto.
  - intros edgelist self self' r Hdata Hrun.
    apply (append_edges_frame edgelist "rhsd" "lhsd" self self' r); auto.
  - intros self lhs_p rhs_p edgelist fs fs' Hdata Hrun.
    apply (save_edges_omits self lhs_p rhs_p edgelist "lhsd" "rhsd" fs fs');
      auto.
  - intros self lhs_p rhs_p edgelist fs fs' Hdata Hrun.
    apply (save_edges_omits self lhs_p rhs_p edgelist "rhsd" "lhsd" fs fs');
      auto.
  - exact read_dynamic_absent.
Qed.

Lemma dynamic_columns_omitted_witness :
  exists shard_file,
    fst (FileEdgeStorage.save_edges (FileEdgeStorage.mk "/data") 0 1
           example_edges ∅)
      !! Path.str (FileEdgeStorage.get_edges_file
                     (FileEdgeStorage.mk "/data") 0 1)
    = Some (H5File shard_file) /\
    H5.dsets shard_file !! "lhsd_offsets" = None /\
    H5.dsets shard_file !! "lhsd_data" = None.
Proof.
  apply (proj1 (proj2 (proj2 dynamic_columns_omitted))
           (FileEdgeStorage.mk "/data") 0 1 example_edges ∅).
  - reflexivity.
  - vm_compute. reflexivity.
Defined.

Example read_dynamic_of_omitted :
  FileEdgeStorage.load_chunk_of_edges (FileEdgeStorage.mk "/data") 0 1 1 2
    (fst (FileEdgeStorage.save_edges (FileEdgeStorage.mk "/data") 0 1
            example_edges ∅))
  = Ok (mkEdgeList (mkEntityList [2; 3] (mkTensorList [0; 0; 0] []))
          (mkEntityList [5; 6] (ragged [[]; [8; 9]]))
          [0; 1]).
Proof. vm_compute. reflexivity. Qed.

(** ** The errors of [load_chunk_of_edges] *)

Section LoadErrors.

Import FileEdgeStorage.

Lemma other_Ok {A : Type} (a : A) : other_errors (Ok a).
Proof. intros e H. discriminate. Qed.

Lemma other_Raise {A : Type} (e : exn) :
  names_file_path e = false -> other_errors (@Raise A e).
Proof. intros He e' [= <-]. exact He. Qed.

Lemma other_rbind {A B : Type} (m : result A) (k : A -> result B) :
  other_errors m -> (forall a, other_errors (k a)) ->
  other_errors (rbind m k).
Proof.
  intros Hm Hk e. destruct m as [a|e']; cbn [rbind].
  - apply Hk.
  - intros [= <-]. now apply Hm.
Qed.

Lemma other_if {A : Type} (c : bool) (x y : result A) :
  other_errors x -> other_errors y -> other_errors (if c then x else y).
Proof. now destruct c. Qed.

Lemma other_empty (n : Z) : other_errors (Tensor.empty n).
Proof.
  unfold Tensor.empty.
  apply other_if; [now apply other_Raise|apply other_Ok].
Qed.

Lemma other_read_direct (ds : list Z) (n a b : Z) :
  other_errors (H5.read_direct ds n a b).
Proof.
  unfold H5.read_direct.
  apply other_if; [apply other_Ok|now apply other_Raise].
Qed.

Lemma other_item (t : list Z) (i : Z) : other_errors (TensorOps.item t i).
Proof.
  unfold TensorOps.item. apply other_if; [now apply other_Raise|].
  destruct (t !! _); [apply other_Ok|now apply other_Raise].
Qed.

Lemma other_getitem (hf : H5.File) (name : string) :
  other_errors (getitem hf name).
Proof.
  unfold getitem.
  destruct (H5.dsets hf !! name); [apply other_Ok|now apply other_Raise].
Qed.

Lemma other_true_divide (a b : Z) : other_errors (Py.true_divide a b).
Proof.
  unfold Py.true_divide.
  apply other_if; [now apply other_Raise|].
  apply other_if; [apply other_Ok|].
  destruct (Py.scaled_divmod _ _ _) as [[q r] d].
  apply other_if; [now apply other_Raise|apply other_Ok].
Qed.

Lemma other_chunk_bounds (chunk_idx num_edges num_chunks : Z) :
  other_errors (chunk_bounds chunk_idx num_edges num_chunks).
Proof.
  unfold chunk_bounds, Py.int_true_divide, rmap.
  repeat (apply other_rbind; [|intros ?]);
    first [apply other_true_divide | apply other_Ok].
Qed.

Lemma other_read_dynamic (hf : H5.File) (key : string) (begin_ end_ : Z) :
  other_errors (read_dynamic hf key begin_ end_).
Proof.
  unfold read_dynamic.
  assert (Hzero : other_errors
            (do offsets <- TensorOps.expand_zero (end_ - begin_ + 1);
             Ok (mkTensorList offsets []))).
  { apply other_rbind; [|intros ?; apply other_Ok].
    unfold TensorOps.expand_zero.
    apply other_if; [now apply other_Raise|apply other_Ok]. }
  destruct (H5.dsets hf !! (key +:+ "_offsets")) as [o|]; [|exact Hzero].
  destruct (H5.dsets hf !! (key +:+ "_data")) as [d|]; [|exact Hzero].
  apply other_rbind; [apply other_empty|intros ?].
  apply other_rbind; [apply other_read_direct|intros ?].
  apply other_rbind; [apply other_item|intros ?].
  apply other_rbind; [apply other_item|intros ?].
  apply other_rbind; [apply other_empty|intros ?].
  apply other_rbind; [|intros ?; apply other_Ok].
  apply other_if; [apply other_read_direct|apply other_Ok].
Qed.

Lemma read_direct_in (ds : list Z) (a b : Z) :
  0 <= a < b -> b <= len ds ->
  H5.read_direct ds (len (replicate (Z.to_nat (b - a)) 0)) a b
  = Ok (Slice.getitem ds a b).
Proof.
  intros Ha Hb. unfold H5.read_direct.
  rewrite len_replicate, len_getitem_in by lia.
  rewrite Z.eqb_refl. destruct (Z.ltb_spec 0 (b - a)); [reflexivity|lia].
Qed.

Lemma getitem_empty (ds : list Z) (a : Z) :
  0 <= a <= len ds -> Slice.getitem ds a a = [].
Proof.
  intros Ha. rewrite getitem_in by lia.
  now rewrite Z.sub_diag.
Qed.

Lemma read_dynamic_column (hf : H5.File) (key : string) (n a b : Z) :
  dynamic_column hf key n -> 0 <= a <= b -> b <= n ->
  exists tensor_list, read_dynamic hf key a b = Ok tensor_list.
Proof.
  intros [Habsent|(records & Hoffs & Hdata & Hlen & Hsmall)] Ha Hb.
  - rewrite read_dynamic_absent by (auto; lia). eauto.
  - rewrite (read_dynamic_ragged hf key records) by (auto; lia). eauto.
Qed.

Lemma other_read_chunk (hf : H5.File) (chunk_idx num_chunks : Z) :
  other_errors (read_chunk hf chunk_idx num_chunks).
Proof.
  unfold read_chunk.
  apply other_rbind; [apply other_getitem|intros lhs_ds].
  apply other_rbind; [apply other_getitem|intros rhs_ds].
  apply other_rbind; [apply other_getitem|intros rel_ds].
  apply other_rbind; [apply other_chunk_bounds|intros [begin_ end_]].
  apply other_rbind; [apply other_empty|intros lhs].
  apply other_rbind; [apply other_empty|intros rhs].
  apply other_rbind; [apply other_empty|intros rel].
  apply other_rbind.
  { apply other_if; [|apply other_Ok].
    apply other_rbind; [apply other_read_direct|intros lhs'].
    apply other_rbind; [apply other_read_direct|intros rhs'].
    apply other_rbind; [apply other_read_direct|intros rel'].
    apply other_Ok. }
  intros [lhs' [rhs' rel']].
  apply other_rbind; [apply other_read_dynamic|intros lhsd].
  apply other_rbind; [apply other_read_dynamic|intros rhsd].
  apply other_Ok.
Qed.

(** On a well-formed shard and a chunk of it, the slices of the three
    columns come back. *)
Lemma read_chunk_shard (hf : H5.File) (lhs_ds rhs_ds rel_ds : list Z)
    (chunk_idx num_chunks : Z) :
  shard hf lhs_ds rhs_ds rel_ds ->
  1 <= num_chunks -> 0 <= chunk_idx < num_chunks ->
  num_chunks * len rel_ds < 2 ^ 53 ->
  let begin_ := chunk_idx * len rel_ds / num_chunks in
  let end_ := (chunk_idx + 1) * len rel_ds / num_chunks in
  exists lhsd rhsd,
    read_chunk hf chunk_idx num_chunks
    = Ok (mkEdgeList
            (mkEntityList (Slice.getitem lhs_ds begin_ end_) lhsd)
            (mkEntityList (Slice.getitem rhs_ds begin_ end_) rhsd)
            (Slice.getitem rel_ds begin_ end_)).
Proof.
  intros [Hversion Hlhs Hrhs Hrel Hlenl Hlenr Hlhsd Hrhsd] Hn Hi Hsmall.
  pose proof (len_nonneg rel_ds) as HN.
  intros begin_ end_.
  pose proof (chunk_bounds_floor (len rel_ds) num_chunks HN Hn Hsmall
                chunk_idx Hi) as Hbounds.
  fold begin_ end_ in Hbounds.
  destruct (chunks_tile_small (len rel_ds) num_chunks HN Hn Hsmall)
    as (Hrange & _).
  destruct (Hrange chunk_idx Hi) as (b & e & Hbe & Hb & He).
  rewrite Hbounds in Hbe. injection Hbe as <- <-.
  destruct (read_dynamic_column hf "lhsd" (len rel_ds) begin_ end_)
    as (lhsd & Hreadl); [assumption|lia|lia|].
  destruct (read_dynamic_column hf "rhsd" (len rel_ds) begin_ end_)
    as (rhsd & Hreadr); [assumption|lia|lia|].
  exists lhsd, rhsd. unfold read_chunk, getitem.
  rewrite Hlhs, Hrhs, Hrel. cbn [rbind]. rewrite Hbounds. cbn [rbind].
  unfold Tensor.empty.
  destruct (Z.ltb_spec (end_ - begin_) 0); [lia|]. cbn [rbind].
  destruct (Z.ltb_spec 0 (end_ - begin_)) as [Hpos|Hzero].
  - rewrite !read_direct_in by lia. cbn [rbind].
    rewrite Hreadl, Hreadr. reflexivity.
  - assert (end_ = begin_) as Heq by lia. rewrite Heq in *.
    rewrite Z.sub_diag. cbn [rbind]. rewrite Hreadl, Hreadr. cbn [rbind].
    now rewrite !getitem_empty by lia.
Qed.

Variables (self : t) (lhs_p rhs_p chunk_idx num_chunks : Z).
Variable fs : gmap string node.

Lemma load_does_not_exist :
  load_chunk_of_edges self lhs_p rhs_p chunk_idx num_chunks fs
  = Raise (RuntimeError
             (DoesNotExist (Path.str (get_edges_file self lhs_p rhs_p))))
  <-> is_file fs (get_edges_file self lhs_p rhs_p) = false.
Proof.
  unfold load_chunk_of_edges.
  destruct (is_file fs (get_edges_file self lhs_p rhs_p)) eqn:Hfile;
    cbn [negb]; [|tauto].
  split; [|discriminate]. intros H. exfalso.
  destruct (fs !! _) as [[s|h|]|]; try discriminate.
  destruct (bool_decide _); cbn [negb] in H; [|discriminate].
  apply other_read_chunk in H. discriminate.
Qed.

Lemma load_version_mismatch :
  load_chunk_of_edges self lhs_p rhs_p chunk_idx num_chunks fs
  = Raise (RuntimeError
             (VersionMismatch (Path.str (get_edges_file self lhs_p rhs_p))))
  <-> exists hf,
        fs !! Path.str (get_edges_file self lhs_p rhs_p) = Some (H5File hf)
        /\ H5.attrs hf !! FORMAT_VERSION_ATTR <> Some FORMAT_VERSION.
Proof.
  unfold load_chunk_of_edges, is_file.
  destruct (fs !! Path.str (get_edges_file self lhs_p rhs_p))
    as [[s|h|]|]; cbn [negb];
    try (split; [discriminate|intros (hf' & Hhf & _); discriminate]).
  destruct (bool_decide_reflect
              (H5.attrs h !! FORMAT_VERSION_ATTR = Some FORMAT_VERSION))
    as [Hv|Hv]; cbn [negb].
  - split.
    + intros H. apply other_read_chunk in H. discriminate.
    + intros (hf' & [= <-] & Hne). contradiction.
  - split; [eauto|reflexivity].
Qed.

(** A fatal error of the two kinds names the path of the shard. *)
Lemma load_names_path (e : exn) :
  load_chunk_of_edges self lhs_p rhs_p chunk_idx num_chunks fs = Raise e ->
  names_file_path e = true ->
  e = RuntimeError
        (DoesNotExist (Path.str (get_edges_file self lhs_p rhs_p))) \/
  e = RuntimeError
        (VersionMismatch (Path.str (get_edges_file self lhs_p rhs_p))).
Proof.
  unfold load_chunk_of_edges.
  destruct (is_file fs _); cbn [negb]; [|intros [= <-]; auto].
  destruct (fs !! _) as [[s|h|]|]; try (intros [= <-]; discriminate).
  destruct (bool_decide _); cbn [negb]; [|intros [= <-]; auto].
  intros H Hnames. apply other_read_chunk in H. congruence.
Qed.

Lemma load_shard (hf : H5.File) (lhs_ds rhs_ds rel_ds : list Z) :
  fs !! Path.str (get_edges_file self lhs_p rhs_p) = Some (H5File hf) ->
  shard hf lhs_ds rhs_ds rel_ds ->
  1 <= num_chunks -> 0 <= chunk_idx < num_chunks ->
  num_chunks * len rel_ds < 2 ^ 53 ->
  let begin_ := chunk_idx * len rel_ds / num_chunks in
  let end_ := (chunk_idx + 1) * len rel_ds / num_chunks in
  exists lhsd rhsd,
    load_chunk_of_edges self lhs_p rhs_p chunk_idx num_chunks fs
    = Ok (mkEdgeList
            (mkEntityList (Slice.getitem lhs_ds begin_ end_) lhsd)
            (mkEntityList (Slice.getitem rhs_ds begin_ end_) rhsd)
            (Slice.getitem rel_ds begin_ end_)).
Proof.
  intros Hfs Hshard Hn Hi Hsmall. unfold load_chunk_of_edges, is_file.
  rewrite Hfs. cbn [negb].
  rewrite bool_decide_eq_true_2 by (now destruct Hshard). cbn [negb].
  now apply read_chunk_shard.
Qed.

End LoadErrors.

(** C6, as amended: [load_chunk_of_edges] raises the [RuntimeError] "does
    not exist" for the path of the shard exactly when no file is there,
    and the [RuntimeError] "version mismatch" for that path exactly when
    the file is an HDF5 file whose [format_version] is absent or not 1;
    these are the only two fatal errors naming a path that it raises, and
    the path is the shard's.  On a shard with the supported version, its
    three columns of one length and its ragged columns absent or
    well-formed, a chunk [chunk_idx] of [num_chunks >= 1] with
    [num_chunks * num_edges < 2 ^ 53] is returned as an edge list. *)
Theorem load_chunk_fatal_errors (self : FileEdgeStorage.t)
    (lhs_p rhs_p chunk_idx num_chunks : Z) (fs : gmap string node) :
  let file_path := FileEdgeStorage.get_edges_file self lhs_p rhs_p in
  let loaded :=
    FileEdgeStorage.load_chunk_of_edges self lhs_p rhs_p chunk_idx
      num_chunks fs in
  (loaded = Raise (RuntimeError (DoesNotExist (Path.str file_path)))
   <-> is_file fs file_path = false) /\
  (loaded = Raise (RuntimeError (VersionMismatch (Path.str file_path)))
   <-> exists hf,
         fs !! Path.str file_path = Some (H5File hf) /\
         H5.attrs hf !! FORMAT_VERSION_ATTR <> Some FORMAT_VERSION) /\
  (forall e,
     loaded = Raise e -> names_file_path e = true ->
     e = RuntimeError (DoesNotExist (Path.str file_path)) \/
     e = RuntimeError (VersionMismatch (Path.str file_path))) /\
  (forall (hf : H5.File) (lhs_ds rhs_ds rel_ds : list Z),
     fs !! Path.str file_path = Some (H5File hf) ->
     shard hf lhs_ds rhs_ds rel_ds ->
     1 <= num_chunks -> 0 <= chunk_idx < num_chunks ->
     num_chunks * len rel_ds < 2 ^ 53 ->
     exists lhsd rhsd,
       loaded
       = Ok (mkEdgeList
               (mkEntityList
                  (Slice.getitem lhs_ds
                     (chunk_idx * len rel_ds / num_chunks)
                     ((chunk_idx + 1) * len rel_ds / num_chunks)) lhsd)
               (mkEntityList
                  (Slice.getitem rhs_ds
                     (chunk_idx * len rel_ds / num_chunks)
                     ((chunk_idx + 1) * len rel_ds / num_chunks)) rhsd)
               (Slice.getitem rel_ds
                  (chunk_idx * len rel_ds / num_chunks)
                  ((chunk_idx + 1) * len rel_ds / num_chunks)))).
Proof.
  intros file_path loaded. unfold file_path, loaded.
  split; [apply load_does_not_exist|].
  split; [apply load_version_mismatch|].
  split; [apply load_names_path|].
  intros hf lhs_ds rhs_ds rel_ds Hfs Hshard Hn Hi Hsmall.
  exact (load_shard self lhs_p rhs_p chunk_idx num_chunks fs hf
           lhs_ds rhs_ds rel_ds Hfs Hshard Hn Hi Hsmall).
Qed.

Lemma load_chunk_fatal_errors_witness :
  exists lhsd rhsd,
    FileEdgeStorage.load_chunk_of_edges (FileEdgeStorage.mk "/data") 0 0 1 2
      example_shard_fs
    = Ok (mkEdgeList
            (mkEntityList
               (Slice.getitem [1; 2; 3] (1 * len [0; 0; 1] / 2)
                  ((1 + 1) * len [0; 0; 1] / 2)) lhsd)
            (mkEntityList
               (Slice.getitem [4; 5; 6] (1 * len [0; 0; 1] / 2)
                  ((1 + 1) * len [0; 0; 1] / 2)) rhsd)
            (Slice.getitem [0; 0; 1] (1 * len [0; 0; 1] / 2)
               ((1 + 1) * len [0; 0; 1] / 2))).
Proof.
  apply (proj2 (proj2 (proj2
           (load_chunk_fatal_errors (FileEdgeStorage.mk "/data") 0 0 1 2
              example_shard_fs))) example_shard).
  - vm_compute. reflexivity.
  - constructor.
    + vm_compute. reflexivity.
    + vm_compute. reflexivity.
    + vm_compute. reflexivity.
    + vm_compute. reflexivity.
    + vm_compute. reflexivity.
    + vm_compute. reflexivity.
    + left. left. vm_compute. reflexivity.
    + left. left. vm_compute. reflexivity.
  - lia.
  - lia.
  - vm_compute. reflexivity.
Defined.

(** C6, as stated, fails in its last part: after a session that appended
    nothing, the shard exists and has the supported version, and
    [load_chunk_of_edges] returns no edge list: it raises [KeyError] for
    the column [lhs]. *)
Lemma load_after_empty_session :
  is_file empty_session_fs
    (FileEdgeStorage.get_edges_file (FileEdgeStorage.mk "/data") 0 0) = true /\
  empty_session_fs !! "/data/edges_0_0.h5"
  = Some (H5File (H5.mkFile {[ FORMAT_VERSION_ATTR := FORMAT_VERSION ]} ∅)) /\
  FileEdgeStorage.load_chunk_of_edges (FileEdgeStorage.mk "/data") 0 0 0 1
    empty_session_fs = Raise (KeyError "lhs") /\
  ~ exists edges,
      FileEdgeStorage.load_chunk_of_edges (FileEdgeStorage.mk "/data") 0 0 0 1
        empty_session_fs = Ok edges.
Proof.
  split; [vm_compute; reflexivity|].
  split; [vm_compute; reflexivity|].
  split; [vm_compute; reflexivity|].
  intros [edges H]. vm_compute in H. discriminate.
Qed.

(** * Further properties *)

(** ** One column of the appender *)

Section AppenderColumns.

Import FileEdgeAppender.

Lemma appender_inv_insert (name : string) (d : BufferedDataset)
    (self : FileEdgeAppender) :
  appender_inv self -> buffered_inv d ->
  appender_inv (set_datasets (<[name := d]> (datasets self)) self).
Proof.
  intros Hinv Hd. unfold appender_inv. cbn [datasets set_datasets].
  now apply map_Forall_insert_2.
Qed.

Lemma sbind_sret {S A B : Type} (a : A) (k : A -> stateE S B) (s : S) :
  sbind (sret a) k s = k a s.
Proof. reflexivity. Qed.

(** [append_tensor] makes the dataset on the first call and adds the
    tensor to the column. *)
Lemma append_tensor_spec (name : string) (values tensor : list Z)
    (self : FileEdgeAppender) :
  appender_inv self ->
  column self name values \/ (values = [] /\ no_dataset self name) ->
  exists self',
    append_tensor name tensor self = (self', Ok tt) /\
    appender_inv self' /\ hf self' = hf self /\
    column self' name (values ++ tensor) /\
    (forall k, k <> name -> datasets self' !! k = datasets self !! k).
Proof.
  intros Hinv [(d & Hd & Hcont)|(-> & Hfresh)]; unfold append_tensor.
  - rewrite (sbind_ok _ _ _ _ _ (has_dataset_present name d self Hd)).
    rewrite sbind_sret.
    destruct (on_dataset_append name tensor d self Hd (Hinv _ _ Hd))
      as (d' & Hrun & Hinv' & Hcont').
    rewrite Hrun. eexists. split; [reflexivity|].
    split; [now apply appender_inv_insert|]. split; [reflexivity|].
    split.
    + exists d'. cbn [datasets set_datasets].
      rewrite lookup_insert_eq. split; [reflexivity|]. congruence.
    + intros k Hk. cbn [datasets set_datasets].
      now rewrite lookup_insert_ne by congruence.
  - rewrite (sbind_ok _ _ _ _ _
               (has_dataset_absent name self (proj1 Hfresh))).
    destruct (new_dataset_fresh name self Hfresh)
      as (d & Hnew & Hinvd & Hcont & _).
    rewrite (sbind_ok _ _ _ _ _ Hnew).
    set (self1 := set_datasets (<[name := d]> (datasets self)) self).
    assert (Hd : datasets self1 !! name = Some d)
      by apply lookup_insert_eq.
    destruct (on_dataset_append name tensor d self1 Hd Hinvd)
      as (d' & Hrun & Hinv' & Hcont').
    rewrite Hrun. eexists. split; [reflexivity|].
    split.
    { apply appender_inv_insert; [|exact Hinv'].
      now apply appender_inv_insert. }
    split; [reflexivity|]. split.
    + exists d'. cbn [datasets set_datasets].
      rewrite lookup_insert_eq. split; [reflexivity|].
      now rewrite Hcont', Hcont.
    + intros k Hk. unfold self1. cbn [datasets set_datasets].
      now rewrite !lookup_insert_ne by congruence.
Qed.

End AppenderColumns.

(** ** An edge list written and read back *)

Section SaveLoad.

Import FileEdgeAppender FileEdgeStorage.

Lemma no_dataset_frame (self self' : FileEdgeAppender) (k : string) :
  hf self' = hf self -> datasets self' !! k = datasets self !! k ->
  no_dataset self k -> no_dataset self' k.
Proof. intros Hhf Hk [H1 H2]. split; congruence. Qed.

Lemma column_frame (self self' : FileEdgeAppender) (k : string)
    (values : list Z) :
  datasets self' !! k = datasets self !! k ->
  column self k values -> column self' k values.
Proof. intros Hk (d & Hd & Hc). exists d. split; congruence. Qed.

Lemma offsets_all_empty (records : list (list Z)) (start : Z) :
  concat records = [] ->
  offsets_from start records = replicate (length records) start.
Proof.
  revert start. induction records as [|r records IH]; intros start H;
    [reflexivity|].
  cbn [concat] in H. apply app_eq_nil in H as [-> H].
  cbn [offsets_from length replicate]. rewrite len_nil, Z.add_0_r.
  now rewrite IH.
Qed.

(** The ragged list of one side goes to its column, unless all its
    records are empty. *)
Lemma append_side_spec (name : string) (records : list (list Z))
    (self : FileEdgeAppender) :
  appender_inv self ->
  no_dataset self (name +:+ "_offsets") ->
  no_dataset self (name +:+ "_data") ->
  len (concat records) < 2 ^ 63 ->
  exists self',
    (if len (data (ragged records)) =? 0 then sret tt
     else append_tensor_list name (ragged records)) self = (self', Ok tt) /\
    appender_inv self' /\ hf self' = hf self /\
    ragged_column self' name records /\
    (forall k, k <> name +:+ "_offsets" -> k <> name +:+ "_data" ->
               datasets self' !! k = datasets self !! k).
Proof.
  intros Hinv HO HD Hsmall. cbn [data ragged].
  destruct (Z.eqb_spec (len (concat records)) 0) as [Hempty|Hdata].
  - exists self. split; [reflexivity|]. split; [exact Hinv|].
    split; [reflexivity|]. split; [|reflexivity].
    right. split; [now apply len_zero_nil|].
    split; [apply HO|apply HD].
  - destruct (append_tensor_list_spec name [] records self Hinv)
      as (self' & Hrun & Hinv' & Hholds & Hhf & Hframe); [auto|exact Hsmall|].
    exists self'. split; [exact Hrun|]. split; [exact Hinv'|].
    split; [exact Hhf|]. split; [now left|exact Hframe].
Qed.

Ltac names := intros Hname; vm_compute in Hname; discriminate.

(** [append_edges] on an appender without datasets. *)
Lemma append_edges_spec (edges : EdgeList)
    (lhs_records rhs_records : list (list Z)) (self : FileEdgeAppender) :
  datasets self = ∅ -> H5.dsets (hf self) = ∅ ->
  edge_list_of edges lhs_records rhs_records ->
  len (concat lhs_records) < 2 ^ 63 ->
  len (concat rhs_records) < 2 ^ 63 ->
  exists self',
    append_edges edges self = (self', Ok tt) /\
    appender_inv self' /\ hf self' = hf self /\
    column self' "lhs" (tensor (lhs edges)) /\
    column self' "rhs" (tensor (rhs edges)) /\
    column self' "rel" (rel edges) /\
    ragged_column self' "lhsd" lhs_records /\
    ragged_column self' "rhsd" rhs_records.
Proof.
  intros Hds Hhf [_ _ Hlhsd Hrhsd _ _] Hsmall_l Hsmall_r.
  assert (Hinv0 : appender_inv self)
    by (unfold appender_inv; rewrite Hds; apply map_Forall_empty).
  assert (Hfresh0 : forall k, no_dataset self k).
  { intros k. split; [rewrite Hds|rewrite Hhf]; apply lookup_empty. }
  unfold append_edges. rewrite Hlhsd, Hrhsd.
  destruct (append_tensor_spec "lhs" [] (tensor (lhs edges)) self Hinv0)
    as (self1 & Hrun1 & Hinv1 & Hhf1 & Hcol1 & Hframe1); [auto|].
  rewrite (sbind_ok _ _ _ _ _ Hrun1).
  assert (Hfresh1 : forall k, k <> "lhs" -> no_dataset self1 k).
  { intros k Hk. apply (no_dataset_frame self); auto. }
  destruct (append_tensor_spec "rhs" [] (tensor (rhs edges)) self1 Hinv1)
    as (self2 & Hrun2 & Hinv2 & Hhf2 & Hcol2 & Hframe2).
  { right. split; [reflexivity|]. apply Hfresh1. names. }
  rewrite (sbind_ok _ _ _ _ _ Hrun2).
  assert (Hfresh2 : forall k, k <> "lhs" -> k <> "rhs" -> no_dataset self2 k).
  { intros k Hk Hk'. apply (no_dataset_frame self1); auto. }
  destruct (append_tensor_spec "rel" [] (rel edges) self2 Hinv2)
    as (self3 & Hrun3 & Hinv3 & Hhf3 & Hcol3 & Hframe3).
  { right. split; [reflexivity|]. apply Hfresh2; names. }
  rewrite (sbind_ok _ _ _ _ _ Hrun3).
  assert (Hfresh3 : forall k, k <> "lhs" -> k <> "rhs" -> k <> "rel" ->
                              no_dataset self3 k).
  { intros k Hk Hk' Hk''. apply (no_dataset_frame self2); auto. }
  destruct (append_side_spec "lhsd" lhs_records self3 Hinv3)
    as (self4 & Hrun4 & Hinv4 & Hhf4 & Hcol4 & Hframe4);
    [apply Hfresh3; names|apply Hfresh3; names|exact Hsmall_l|].
  rewrite (sbind_ok _ _ _ _ _ Hrun4).
  destruct (append_side_spec "rhsd" rhs_records self4 Hinv4)
    as (self5 & Hrun5 & Hinv5 & Hhf5 & Hcol5 & Hframe5);
    [ apply (no_dataset_frame self3);
        [exact Hhf4|apply Hframe4; names|apply Hfresh3; names]
    | apply (no_dataset_frame self3);
        [exact Hhf4|apply Hframe4; names|apply Hfresh3; names]
    | exact Hsmall_r |].
  exists self5. split; [exact Hrun5|]. split; [exact Hinv5|].
  split; [congruence|].
  assert (Hkeep : forall k values,
            k <> "lhsd" +:+ "_offsets" -> k <> "lhsd" +:+ "_data" ->
            k <> "rhsd" +:+ "_offsets" -> k <> "rhsd" +:+ "_data" ->
            column self3 k values -> column self5 k values).
  { intros k values H1 H2 H3 H4 Hc.
    apply (column_frame self4); [now apply Hframe5|].
    apply (column_frame self3); [now apply Hframe4|exact Hc]. }
  split.
  { apply Hkeep; try names.
    apply (column_frame self2); [apply Hframe3; names|].
    apply (column_frame self1); [apply Hframe2; names|exact Hcol1]. }
  split.
  { apply Hkeep; try names.
    apply (column_frame self2); [apply Hframe3; names|exact Hcol2]. }
  split; [apply Hkeep; try names; exact Hcol3|].
  split; [|exact Hcol5].
  destruct Hcol4 as [(dO & dD & HdO & HdD & Hc)|(Hempty & HO & HD)].
  - left. exists dO, dD.
    rewrite !Hframe5 by names. auto.
  - right. rewrite !Hframe5 by names. auto.
Qed.

End SaveLoad.

Section SaveLoadFile.

Import FileEdgeAppender FileEdgeStorage.

(** A session whose body and [__exit__] return normally publishes the
    closed file, when neither path is a directory. *)
Lemma session_run (self : t) (lhs_p rhs_p : Z)
    (body : stateE FileEdgeAppender unit) (app1 app2 : FileEdgeAppender)
    (fs : gmap string node) :
  body new_appender = (app1, Ok tt) ->
  __exit__ app1 = (app2, Ok tt) ->
  fs !! Path.str (tmp_file_path (get_edges_file self lhs_p rhs_p))
  <> Some Directory ->
  fs !! Path.str (get_edges_file self lhs_p rhs_p) <> Some Directory ->
  exists fs',
    save_edges_by_appending self lhs_p rhs_p body fs = (fs', Ok tt) /\
    fs' !! Path.str (get_edges_file self lhs_p rhs_p)
    = Some (H5File (current_file app2)).
Proof.
  intros Hbody Hexit Htmp Hfile.
  pose proof (tmp_file_fresh self lhs_p rhs_p) as Hfresh.
  unfold save_edges_by_appending, is_file.
  set (file := get_edges_file self lhs_p rhs_p) in *.
  set (tmp := tmp_file_path file) in *.
  assert (Hgone :
    (if match fs !! Path.str tmp with
        | Some (TextFile _) | Some (H5File _) => true
        | _ => false
        end
     then delete (Path.str tmp) fs else fs) !! Path.str tmp = None).
  { destruct (fs !! Path.str tmp) as [[s|h|]|] eqn:Hlook;
      rewrite ?lookup_delete_eq; congruence. }
  rewrite Hgone, Hbody, Hexit. unfold rename.
  rewrite lookup_insert_eq, lookup_insert_ne by congruence.
  assert (Hfile' :
    (if match fs !! Path.str tmp with
        | Some (TextFile _) | Some (H5File _) => true
        | _ => false
        end
     then delete (Path.str tmp) fs else fs) !! Path.str file
    = fs !! Path.str file).
  { destruct (fs !! Path.str tmp) as [[s|h|]|];
      rewrite ?lookup_delete_ne by congruence; reflexivity. }
  rewrite Hfile'.
  destruct (fs !! Path.str file) as [[s|h|]|]; try congruence;
    (eexists; split; [reflexivity|apply lookup_insert_eq]).
Qed.

(** A column of the appender is a dataset of the file once the appender
    has been closed. *)
Lemma closed_file (app1 : FileEdgeAppender) :
  appender_inv app1 -> H5.dsets (hf app1) = ∅ ->
  exists app2,
    __exit__ app1 = (app2, Ok tt) /\
    H5.attrs (current_file app2) = H5.attrs (hf app1) /\
    (forall k values,
       column app1 k values ->
       H5.dsets (current_file app2) !! k = Some values) /\
    (forall k, datasets app1 !! k = None ->
               H5.dsets (current_file app2) !! k = None).
Proof.
  intros Hinv Hempty.
  destruct (exit_spec app1 Hinv) as (app2 & Hexit & Hhf & Hds).
  exists app2. split; [exact Hexit|].
  split; [unfold current_file; cbn [H5.attrs]; now rewrite Hhf|].
  split.
  - intros k values (d & Hd & Hc).
    rewrite (current_file_closed app1 app2 k Hhf Hds), Hd, Hempty.
    cbn. now rewrite Hc.
  - intros k Hk.
    rewrite (current_file_closed app1 app2 k Hhf Hds), Hk, Hempty.
    now rewrite lookup_empty.
Qed.

(** Chunk [chunk_idx] of [num_chunks] of a file with its three columns,
    given what [read_dynamic] returns for the chunk. *)
Lemma read_chunk_columns (hf : H5.File) (lhs_ds rhs_ds rel_ds : list Z)
    (chunk_idx num_chunks : Z) (lhsd rhsd : TensorList) :
  H5.dsets hf !! "lhs" = Some lhs_ds ->
  H5.dsets hf !! "rhs" = Some rhs_ds ->
  H5.dsets hf !! "rel" = Some rel_ds ->
  len lhs_ds = len rel_ds -> len rhs_ds = len rel_ds ->
  1 <= num_chunks -> 0 <= chunk_idx < num_chunks ->
  num_chunks * len rel_ds < 2 ^ 53 ->
  let begin_ := chunk_idx * len rel_ds / num_chunks in
  let end_ := (chunk_idx + 1) * len rel_ds / num_chunks in
  read_dynamic hf "lhsd" begin_ end_ = Ok lhsd ->
  read_dynamic hf "rhsd" begin_ end_ = Ok rhsd ->
  read_chunk hf chunk_idx num_chunks
  = Ok (mkEdgeList
          (mkEntityList (Slice.getitem lhs_ds begin_ end_) lhsd)
          (mkEntityList (Slice.getitem rhs_ds begin_ end_) rhsd)
          (Slice.getitem rel_ds begin_ end_)).
Proof.
  intros Hlhs Hrhs Hrel Hlenl Hlenr Hn Hi Hsmall.
  pose proof (len_nonneg rel_ds) as HN.
  intros begin_ end_ Hreadl Hreadr.
  pose proof (chunk_bounds_floor (len rel_ds) num_chunks HN Hn Hsmall
                chunk_idx Hi) as Hbounds.
  fold begin_ end_ in Hbounds.
  destruct (chunks_tile_small (len rel_ds) num_chunks HN Hn Hsmall)
    as (Hrange & _).
  destruct (Hrange chunk_idx Hi) as (b & e & Hbe & Hb & He).
  rewrite Hbounds in Hbe. injection Hbe as <- <-.
  unfold read_chunk, getitem.
  rewrite Hlhs, Hrhs, Hrel. cbn [rbind]. rewrite Hbounds. cbn [rbind].
  unfold Tensor.empty.
  destruct (Z.ltb_spec (end_ - begin_) 0); [lia|]. cbn [rbind].
  destruct (Z.ltb_spec 0 (end_ - begin_)) as [Hpos|Hzero].
  - rewrite !read_direct_in by lia. cbn [rbind].
    rewrite Hreadl, Hreadr. reflexivity.
  - assert (end_ = begin_) as Heq by lia. rewrite Heq in *.
    rewrite Z.sub_diag. cbn [rbind]. rewrite Hreadl, Hreadr. cbn [rbind].
    now rewrite !getitem_empty by lia.
Qed.

Lemma getitem_whole (t : list Z) : Slice.getitem t 0 (len t) = t.
Proof.
  pose proof (len_nonneg t). rewrite getitem_prefix by lia.
  apply take_ge. unfold len. lia.
Qed.

(** The ragged column of a side, read whole from the closed file. *)
Lemma read_dynamic_whole (hf : H5.File) (name : string)
    (records : list (list Z)) :
  (H5.dsets hf !! (name +:+ "_offsets") = Some (0 :: offsets_from 0 records)
   /\ H5.dsets hf !! (name +:+ "_data") = Some (concat records)) \/
  (concat records = [] /\
   H5.dsets hf !! (name +:+ "_offsets") = None /\
   H5.dsets hf !! (name +:+ "_data") = None) ->
  len (concat records) < 2 ^ 63 ->
  read_dynamic hf name 0 (len records) = Ok (ragged records).
Proof.
  pose proof (len_nonneg records) as Hlen.
  intros [[HO HD]|(Hempty & HO & HD)] Hsmall.
  - rewrite (read_dynamic_ragged hf name records) by (auto; lia).
    rewrite Z.sub_0_r. change (Z.to_nat 0) with 0%nat. rewrite drop_0.
    rewrite take_ge by (unfold len; lia). reflexivity.
  - rewrite read_dynamic_absent by (auto; lia).
    unfold ragged. rewrite Hempty, (offsets_all_empty records 0 Hempty).
    do 2 f_equal. rewrite Z.sub_0_r.
    replace (Z.to_nat (len records + 1)) with (S (length records))
      by (unfold len; lia).
    reflexivity.
Qed.

Lemma ragged_column_closed (app1 app2 : FileEdgeAppender) (name : string)
    (records : list (list Z)) :
  (forall k values,
     column app1 k values ->
     H5.dsets (current_file app2) !! k = Some values) ->
  (forall k, datasets app1 !! k = None ->
             H5.dsets (current_file app2) !! k = None) ->
  ragged_column app1 name records ->
  (H5.dsets (current_file app2) !! (name +:+ "_offsets")
   = Some (0 :: offsets_from 0 records) /\
   H5.dsets (current_file app2) !! (name +:+ "_data")
   = Some (concat records)) \/
  (concat records = [] /\
   H5.dsets (current_file app2) !! (name +:+ "_offsets") = None /\
   H5.dsets (current_file app2) !! (name +:+ "_data") = None).
Proof.
  intros Hcol Hnone [(dO & dD & HdO & HdD & HcO & HcD)|(Hempty & HO & HD)].
  - left. split; apply Hcol; eexists; eauto.
  - right. auto.
Qed.


End SaveLoadFile.

(** ** The chunks of a shard, one after the other *)

Section AllChunks.

Import FileEdgeStorage.

Lemma slices_concat (ds : list Z) (N num_chunks : Z) (k : nat) :
  len ds = N -> 1 <= num_chunks -> Z.of_nat k <= num_chunks ->
  concat ((fun i => Slice.getitem ds (i * N / num_chunks)
                      ((i + 1) * N / num_chunks))
            <$> seqZ 0 (Z.of_nat k))
  = take (Z.to_nat (Z.of_nat k * N / num_chunks)) ds.
Proof.
  intros HN Hn. pose proof (len_nonneg ds) as Hlen.
  induction k as [|k IH]; intros Hk.
  - cbn. now rewrite Z.div_0_l by lia.
  - rewrite seqZ_S, fmap_app, concat_app, IH by lia.
    cbn [fmap list_fmap concat]. rewrite app_nil_r, Z.add_0_l.
    assert (Hb : 0 <= Z.of_nat k * N / num_chunks)
      by (apply Z.div_pos; nia).
    assert (Hbe : Z.of_nat k * N / num_chunks
                  <= (Z.of_nat k + 1) * N / num_chunks)
      by (apply Z.div_le_mono; nia).
    assert (He : (Z.of_nat k + 1) * N / num_chunks <= N)
      by (apply Z.div_le_upper_bound; nia).
    rewrite getitem_in by lia. rewrite take_take_drop. f_equal. lia.
Qed.

Variables (self : t) (lhs_p rhs_p num_chunks : Z).
Variable fs : gmap string node.
Variables (hf : H5.File) (lhs_ds rhs_ds rel_ds : list Z).
Hypothesis Hfs :
  fs !! Path.str (get_edges_file self lhs_p rhs_p) = Some (H5File hf).
Hypothesis Hshard : shard hf lhs_ds rhs_ds rel_ds.
Hypothesis Hn : 1 <= num_chunks.
Hypothesis Hsmall : num_chunks * len rel_ds < 2 ^ 53.

Let slice (ds : list Z) (i : Z) : list Z :=
  Slice.getitem ds (i * len rel_ds / num_chunks)
    ((i + 1) * len rel_ds / num_chunks).

Lemma load_chunks_prefix (k : nat) :
  Z.of_nat k <= num_chunks ->
  exists chunks : list EdgeList,
    Forall2 (fun i c =>
               load_chunk_of_edges self lhs_p rhs_p i num_chunks fs = Ok c)
      (seqZ 0 (Z.of_nat k)) chunks /\
    (fun c => tensor (lhs c)) <$> chunks
    = slice lhs_ds <$> seqZ 0 (Z.of_nat k) /\
    (fun c => tensor (rhs c)) <$> chunks
    = slice rhs_ds <$> seqZ 0 (Z.of_nat k) /\
    rel <$> chunks = slice rel_ds <$> seqZ 0 (Z.of_nat k).
Proof.
  induction k as [|k IH]; intros Hk.
  - exists []. repeat split. constructor.
  - destruct IH as (chunks & Hall & Hl & Hr & He); [lia|].
    destruct (load_shard self lhs_p rhs_p (Z.of_nat k) num_chunks fs hf
                lhs_ds rhs_ds rel_ds Hfs Hshard Hn)
      as (lhsd & rhsd & Hload); [lia|exact Hsmall|].
    eexists (chunks ++ [_]). rewrite seqZ_S, !fmap_app, Z.add_0_l.
    split; [apply Forall2_app; [exact Hall|]|].
    { constructor; [exact Hload|constructor]. }
    rewrite Hl, Hr, He. repeat split.
Qed.


End AllChunks.

(** ** File names *)

Section FileNames.

Lemma sapp_assoc (a b c : string) : (a +:+ b) +:+ c = a +:+ b +:+ c.
Proof.
  induction a as [|x a IH]; [reflexivity|].
  rewrite !sapp_cons. now rewrite IH.
Qed.

Lemma all_chars_app (p : ascii -> bool) (a b : string) :
  all_chars p (a +:+ b) = all_chars p a && all_chars p b.
Proof.
  induction a as [|c a IH]; [reflexivity|].
  rewrite sapp_cons. cbn [all_chars]. now rewrite IH, andb_assoc.
Qed.

Lemma of_int_chars (n : Z) : all_chars is_int_char (PyStr.of_int n) = true.
Proof.
  assert (Hdigits : forall s, all_chars PyStr.is_digit s = true ->
                              all_chars is_int_char s = true).
  { intros s. apply all_chars_impl. intros c Hc. unfold is_int_char.
    now rewrite Hc. }
  unfold PyStr.of_int.
  destruct (Z.to_int n) as [d|d]; cbn [NilZero.string_of_int];
    destruct (nilzero_string d) as (c & r & d' & -> & Hd & _).
  - now apply Hdigits.
  - change (all_chars is_int_char (String "-" (String c r)))
      with (all_chars is_int_char (String c r)).
    now apply Hdigits.
Qed.

Lemma of_int_without (c : ascii) (n : Z) :
  is_int_char c = false -> all_chars (is_not c) (PyStr.of_int n) = true.
Proof.
  intros Hc. apply (all_chars_impl is_int_char); [|apply of_int_chars].
  intros x Hx. unfold is_not.
  destruct (Ascii.eqb_spec x c) as [->|]; [congruence|reflexivity].
Qed.

Lemma of_int_inj (a b : Z) : PyStr.of_int a = PyStr.of_int b -> a = b.
Proof.
  intros H. pose proof (to_int_of_int a) as Ha.
  rewrite H, to_int_of_int in Ha. congruence.
Qed.

(** Two texts cut at the first occurrence of [c]. *)
Lemma split_first (c : ascii) (a a' r r' : string) :
  all_chars (is_not c) a = true -> all_chars (is_not c) a' = true ->
  a +:+ String c r = a' +:+ String c r' -> a = a' /\ r = r'.
Proof.
  revert a'. induction a as [|x a IH]; intros [|y a'] Ha Ha' H;
    rewrite ?sapp_cons, ?sapp_nil in H; cbn [all_chars] in Ha, Ha'.
  - injection H as ->. auto.
  - injection H as <- _. unfold is_not in Ha'.
    rewrite Ascii.eqb_refl in Ha'. discriminate.
  - injection H as -> _. unfold is_not in Ha.
    rewrite Ascii.eqb_refl in Ha. discriminate.
  - injection H as -> H.
    apply andb_true_iff in Ha as [_ Ha], Ha' as [_ Ha'].
    destruct (IH a' Ha Ha' H) as [-> ->]. auto.
Qed.

(** Two texts cut at the last occurrence of [c]. *)
Lemma split_last (c : ascii) (a a' r r' : string) :
  all_chars (is_not c) r = true -> all_chars (is_not c) r' = true ->
  a +:+ String c r = a' +:+ String c r' -> a = a' /\ r = r'.
Proof.
  assert (Hhas : forall x y, all_chars (is_not c) (x +:+ String c y) = false).
  { intros x y. rewrite all_chars_app. cbn [all_chars]. unfold is_not at 2.
    rewrite Ascii.eqb_refl. cbn. apply andb_false_r. }
  intros Hr Hr'. revert a'. induction a as [|x a IH]; intros [|y a'] H;
    rewrite ?sapp_cons, ?sapp_nil in H.
  - injection H as ->. auto.
  - injection H as _ ->. rewrite Hhas in Hr. discriminate.
  - injection H as _ <-. rewrite Hhas in Hr'. discriminate.
  - injection H as -> H. destruct (IH a' H) as [-> ->]. auto.
Qed.

Lemma str_inj (dir name name' : string) :
  Path.str (Path.mk dir name) = Path.str (Path.mk dir name') ->
  name = name'.
Proof.
  unfold Path.str. cbn [Path.parent Path.name]. intros H.
  apply (inj (String.app dir)) in H.
  now apply (inj (String.app "/")) in H.
Qed.

(** An integer followed by an extension that starts with a dot. *)
Lemma of_int_ext_inj (a b : Z) (ext ext' : string) :
  PyStr.of_int a +:+ String "." ext = PyStr.of_int b +:+ String "." ext' ->
  a = b /\ ext = ext'.
Proof.
  intros H.
  apply split_first in H as [H ->]; try (now apply of_int_without).
  split; [now apply of_int_inj|reflexivity].
Qed.

Lemma edges_name_inj (l r l' r' : Z) (ext ext' : string) :
  "edges_" +:+ PyStr.of_int l +:+ "_" +:+ PyStr.of_int r +:+ String "." ext
  = "edges_" +:+ PyStr.of_int l' +:+ "_" +:+ PyStr.of_int r'
    +:+ String "." ext' ->
  l = l' /\ r = r' /\ ext = ext'.
Proof.
  intros H. apply (inj (String.app "edges_")) in H.
  change ("_" +:+ ?x) with (String "_" x) in H.
  apply split_first in H as [Hl H]; try (now apply of_int_without).
  apply of_int_ext_inj in H as [-> ->].
  apply of_int_inj in Hl as ->. auto.
Qed.

(** Different partition pairs have different shard files. *)
Lemma get_edges_file_inj (self : FileEdgeStorage.t) (l r l' r' : Z) :
  Path.str (FileEdgeStorage.get_edges_file self l r)
  = Path.str (FileEdgeStorage.get_edges_file self l' r') ->
  l = l' /\ r = r'.
Proof.
  unfold FileEdgeStorage.get_edges_file, Path.joinpath. intros H.
  apply str_inj in H.
  change ".h5" with (String "." "h5") in H.
  apply edges_name_inj in H as (-> & -> & _). auto.
Qed.

(** The temporary path of a shard is the final path of no shard. *)
Lemma tmp_file_not_final (self : FileEdgeStorage.t) (l r l' r' : Z) :
  Path.str (FileEdgeStorage.tmp_file_path
              (FileEdgeStorage.get_edges_file self l r))
  <> Path.str (FileEdgeStorage.get_edges_file self l' r').
Proof.
  rewrite tmp_file_name.
  unfold FileEdgeStorage.get_edges_file, Path.joinpath. intros H.
  apply str_inj in H.
  rewrite !sapp_assoc in H.
  change ("" +:+ ".tmp" +:+ ".h5") with (String "." "tmp.h5") in H.
  change ".h5" with (String "." "h5") in H.
  apply edges_name_inj in H as (_ & _ & H). discriminate.
Qed.

(** Different entity types or partitions have different count files. *)
Lemma get_count_file_inj (self : FileEntityStorage.t)
    (e e' : string) (p p' : Z) :
  Path.str (FileEntityStorage.get_count_file self e p)
  = Path.str (FileEntityStorage.get_count_file self e' p') ->
  e = e' /\ p = p'.
Proof.
  unfold FileEntityStorage.get_count_file, Path.joinpath. intros H.
  apply str_inj in H. apply (inj (String.app "entity_count_")) in H.
  change ("_" +:+ ?x) with (String "_" x) in H.
  apply split_last in H as [-> H].
  - change ".txt" with (String "." "txt") in H.
    apply of_int_ext_inj in H as [-> _]. auto.
  - rewrite all_chars_app, of_int_without; reflexivity.
  - rewrite all_chars_app, of_int_without; reflexivity.
Qed.

End FileNames.

(** ** Count and names files of the storages *)

Section CountFiles.

Lemma is_file_insert_text (fs : gmap string node) (path : Path.t)
    (s : string) :
  is_file (<[Path.str path := TextFile s]> fs) path = true.
Proof. unfold is_file. now rewrite lookup_insert_eq. Qed.

Lemma save_count_frame (path : Path.t) (count : Z)
    (fs fs' : gmap string node) (r : result unit) (p : string) :
  save_count path count fs = (fs', r) -> p <> Path.str path ->
  fs' !! p = fs !! p.
Proof.
  unfold save_count.
  destruct (fs !! Path.str path) as [[s|h|]|]; intros [= <- <-] Hp;
    rewrite ?lookup_insert_ne by congruence; reflexivity.
Qed.

(** What is read at a path depends on the node there only. *)
Lemma load_count_lookup (path : Path.t) (fs fs' : gmap string node) :
  fs' !! Path.str path = fs !! Path.str path ->
  load_count path fs' = load_count path fs /\
  is_file fs' path = is_file fs path.
Proof.
  intros H. unfold load_count, read_text, is_file. now rewrite H.
Qed.

Lemma load_names_lookup (json_loads : string -> option (list string))
    (path : Path.t) (fs fs' : gmap string node) :
  fs' !! Path.str path = fs !! Path.str path ->
  load_names json_loads path fs' = load_names json_loads path fs /\
  is_file fs' path = is_file fs path.
Proof.
  intros H. unfold load_names, read_text, is_file. now rewrite H.
Qed.

(** A names file is no count file. *)
Lemma names_file_not_count (self : FileEntityStorage.t)
    (e e' : string) (p p' : Z) :
  Path.str (FileEntityStorage.get_names_file self e p)
  <> Path.str (FileEntityStorage.get_count_file self e' p').
Proof.
  unfold FileEntityStorage.get_names_file,
    FileEntityStorage.get_count_file, Path.joinpath.
  intros H. apply str_inj in H.
  rewrite !sapp_cons in H. discriminate.
Qed.

Lemma get_names_file_inj (self : FileEntityStorage.t)
    (e e' : string) (p p' : Z) :
  Path.str (FileEntityStorage.get_names_file self e p)
  = Path.str (FileEntityStorage.get_names_file self e' p') ->
  e = e' /\ p = p'.
Proof.
  unfold FileEntityStorage.get_names_file, Path.joinpath. intros H.
  apply str_inj in H. apply (inj (String.app "entity_names_")) in H.
  change ("_" +:+ ?x) with (String "_" x) in H.
  apply split_last in H as [-> H].
  - change ".json" with (String "." "json") in H.
    apply of_int_ext_inj in H as [-> _]. auto.
  - rewrite all_chars_app, of_int_without; reflexivity.
  - rewrite all_chars_app, of_int_without; reflexivity.
Qed.

End CountFiles.

(** ** Whitespace around a count *)

Section Whitespace.

Lemma int_char_not_space (c : ascii) :
  is_int_char c = true -> negb (PyStr.is_space c) = true.
Proof.
  unfold is_int_char. intros H. apply orb_true_iff in H as [H|H].
  - now apply digit_not_space.
  - apply Ascii.eqb_eq in H as ->. reflexivity.
Qed.

Lemma lstrip_spaces (before s : string) :
  all_chars PyStr.is_space before = true ->
  PyStr.lstrip (before +:+ s) = PyStr.lstrip s.
Proof.
  induction before as [|c before IH]; [reflexivity|].
  cbn [all_chars]. intros H. apply andb_true_iff in H as [Hc H].
  rewrite sapp_cons. cbn [PyStr.lstrip]. rewrite Hc. now apply IH.
Qed.

Lemma rstrip_spaces (after : string) :
  all_chars PyStr.is_space after = true -> PyStr.rstrip after = "".
Proof.
  induction after as [|c after IH]; [reflexivity|].
  cbn [all_chars]. intros H. apply andb_true_iff in H as [Hc H].
  cbn [PyStr.rstrip]. now rewrite (IH H), Hc.
Qed.

Lemma rstrip_text (s after : string) :
  all_chars (fun c => negb (PyStr.is_space c)) s = true ->
  all_chars PyStr.is_space after = true ->
  PyStr.rstrip (s +:+ after) = s.
Proof.
  intros Hs Hafter. induction s as [|c s IH].
  - rewrite sapp_nil. now apply rstrip_spaces.
  - cbn [all_chars] in Hs. apply andb_true_iff in Hs as [Hc Hs].
    rewrite sapp_cons. cbn [PyStr.rstrip]. rewrite (IH Hs).
    apply negb_true_iff in Hc. rewrite Hc. now destruct s.
Qed.

Lemma strip_text (c : ascii) (r before after : string) :
  all_chars (fun c => negb (PyStr.is_space c)) (String c r) = true ->
  all_chars PyStr.is_space before = true ->
  all_chars PyStr.is_space after = true ->
  PyStr.strip (before +:+ String c r +:+ after) = String c r.
Proof.
  intros Hs Hbefore Hafter. unfold PyStr.strip.
  rewrite lstrip_spaces by exact Hbefore.
  assert (Hc : PyStr.is_space c = false).
  { cbn [all_chars] in Hs. apply andb_true_iff in Hs as [Hc _].
    now apply negb_true_iff in Hc. }
  rewrite sapp_cons. cbn [PyStr.lstrip]. rewrite Hc.
  rewrite <- sapp_cons. now apply rstrip_text.
Qed.

Lemma to_int_strip (s s' : string) :
  PyStr.strip s = PyStr.strip s' -> PyStr.to_int s = PyStr.to_int s'.
Proof. intros H. unfold PyStr.to_int. now rewrite H. Qed.

Lemma of_int_text (n : Z) :
  exists c r,
    PyStr.of_int n = String c r /\
    all_chars (fun c => negb (PyStr.is_space c)) (String c r) = true.
Proof.
  pose proof (of_int_chars n) as Hchars.
  assert (Hnonnil : exists c r, PyStr.of_int n = String c r).
  { unfold PyStr.of_int.
    destruct (Z.to_int n) as [d|d]; cbn [NilZero.string_of_int];
      destruct (nilzero_string d) as (c & r & d' & -> & _); eauto. }
  destruct Hnonnil as (c & r & Heq). exists c, r. split; [exact Heq|].
  rewrite <- Heq.
  now apply (all_chars_impl is_int_char); [apply int_char_not_space|].
Qed.

(** [int] accepts whitespace before and after the digits. *)
Lemma to_int_spaces (n : Z) (before after : string) :
  all_chars PyStr.is_space before = true ->
  all_chars PyStr.is_space after = true ->
  PyStr.to_int (before +:+ PyStr.of_int n +:+ after) = Ok n.
Proof.
  intros Hbefore Hafter. rewrite <- (to_int_of_int n).
  apply to_int_strip.
  destruct (of_int_text n) as (c & r & -> & Hs).
  rewrite (strip_text c r before after) by assumption.
  rewrite <- (sapp_nil (String c r +:+ newline)).
  now rewrite (strip_text c r "" newline).
Qed.

End Whitespace.

(** ** The path of a storage *)

Section StoragePath.

Lemma startswith_app (prefix s : string) :
  PyStr.startswith (prefix +:+ s) prefix = true.
Proof.
  induction prefix as [|c prefix IH]; [now destruct s|].
  rewrite sapp_cons. cbn [PyStr.startswith].
  now rewrite Ascii.eqb_refl, IH.
Qed.

Lemma slice_from_app (prefix s : string) :
  PyStr.slice_from (String.length prefix) (prefix +:+ s) = s.
Proof.
  induction prefix as [|c prefix IH]; [now destruct s|].
  rewrite sapp_cons. cbn [PyStr.slice_from String.length]. exact IH.
Qed.

End StoragePath.

(** ** What is on disk before the final flush *)

Section OnDisk.

Import BufferedDataset.

Lemma inv_chunks (self : BufferedDataset) :
  buffered_inv self ->
  len (dataset self) = BUFFER_SIZE * (total_data self / BUFFER_SIZE) /\
  buffer_offset self = total_data self mod BUFFER_SIZE.
Proof.
  intros [Hbuf Hoff Htotal Hmult]. pose proof BUFFER_SIZE_pos as Hsize.
  assert (Hk : len (dataset self)
               = BUFFER_SIZE * (len (dataset self) / BUFFER_SIZE))
    by (apply Z.div_exact; lia).
  assert (Hq : len (dataset self) / BUFFER_SIZE
               = total_data self / BUFFER_SIZE)
    by (apply (Z.div_unique _ _ _ (buffer_offset self)); lia).
  split; [congruence|].
  apply (Z.mod_unique _ _ (len (dataset self) / BUFFER_SIZE)); lia.
Qed.

Lemma inv_split (self : BufferedDataset) :
  buffered_inv self ->
  dataset self = take (Z.to_nat (len (dataset self))) (contents self) /\
  pending self = drop (Z.to_nat (len (dataset self))) (contents self).
Proof.
  intros _. unfold contents, len. rewrite Nat2Z.id.
  now rewrite take_app_length, drop_app_length.
Qed.


End OnDisk.

(** ** The shape of what [read_dynamic] returns *)

Section ReadShape.

Lemma empty_Ok (n : Z) (t : list Z) :
  Tensor.empty n = Ok t -> 0 <= n /\ t = replicate (Z.to_nat n) 0.
Proof.
  unfold Tensor.empty. destruct (Z.ltb_spec n 0); [discriminate|].
  intros [= <-]. auto.
Qed.

Lemma read_direct_Ok (ds : list Z) (n a b : Z) (t : list Z) :
  H5.read_direct ds n a b = Ok t -> len t = n /\ 0 < n.
Proof.
  unfold H5.read_direct.
  destruct (Z.eqb_spec (len (Slice.getitem ds a b)) n); [|discriminate].
  destruct (Z.ltb_spec 0 n); [|discriminate].
  intros [= <-]. auto.
Qed.

Lemma item_first_Ok (t : list Z) (x : Z) :
  TensorOps.item t 0 = Ok x -> head t = Some x.
Proof.
  unfold TensorOps.item. cbn. destruct t as [|y t]; [discriminate|].
  change (Z.to_nat 0) with 0%nat. cbn. congruence.
Qed.

Lemma len_map {A B : Type} (f : A -> B) (l : list A) :
  len (map f l) = len l.
Proof. unfold len. now rewrite length_map. Qed.

End ReadShape.

(** ** A write session in several steps *)

Section Batches.

Import FileEdgeAppender FileEdgeStorage.

Ltac names := intros Hname; vm_compute in Hname; discriminate.

Lemma written_cases (records : list (list Z)) :
  (concat records = [] /\ written records = []) \/
  (len (concat records) <> 0 /\ written records = records).
Proof.
  unfold written. destruct (concat records) as [|x l]; [auto|].
  right. split; [|reflexivity]. unfold len. cbn. lia.
Qed.

Lemma append_side_step (name : string) (W records : list (list Z))
    (self : FileEdgeAppender) :
  appender_inv self -> H5.dsets (hf self) = ∅ ->
  ragged_state self name W ->
  len (concat (W ++ written records)) < 2 ^ 63 ->
  exists self',
    (if len (data (ragged records)) =? 0 then sret tt
     else append_tensor_list name (ragged records)) self = (self', Ok tt) /\
    appender_inv self' /\ hf self' = hf self /\
    ragged_state self' name (W ++ written records) /\
    (forall k, k <> name +:+ "_offsets" -> k <> name +:+ "_data" ->
               datasets self' !! k = datasets self !! k).
Proof.
  intros Hinv Hhf Hstate Hsmall. cbn [data ragged].
  destruct (written_cases records) as [[Hempty Hw]|[Hdata Hw]];
    rewrite Hw in *.
  - rewrite Hempty. cbn. exists self. rewrite app_nil_r.
    split; [reflexivity|]. split; [exact Hinv|]. split; [reflexivity|].
    split; [exact Hstate|reflexivity].
  - destruct (Z.eqb_spec (len (concat records)) 0) as [|_]; [lia|].
    destruct (append_tensor_list_spec name W records self Hinv)
      as (self' & Hrun & Hinv' & Hholds & Hhf' & Hframe);
      [|exact Hsmall|].
    { destruct Hstate as [[_ Hholds]|(-> & HO & HD)]; [now left|right].
      split; [reflexivity|].
      split; (split; [assumption|rewrite Hhf; apply lookup_empty]). }
    exists self'. split; [exact Hrun|]. split; [exact Hinv'|].
    split; [exact Hhf'|]. split; [|exact Hframe].
    left. split; [|exact Hholds]. intros Hnil.
    apply app_eq_nil in Hnil as [_ ->]. now cbn in Hdata.
Qed.

Lemma ragged_state_frame (self self' : FileEdgeAppender) (name : string)
    (W : list (list Z)) :
  datasets self' !! (name +:+ "_offsets")
  = datasets self !! (name +:+ "_offsets") ->
  datasets self' !! (name +:+ "_data")
  = datasets self !! (name +:+ "_data") ->
  ragged_state self name W -> ragged_state self' name W.
Proof.
  intros HO HD [(Hne & dO & dD & H1 & H2 & H3)|(-> & H1 & H2)].
  - left. split; [exact Hne|]. exists dO, dD. rewrite HO, HD. auto.
  - right. rewrite HO, HD. auto.
Qed.

Lemma column_or_fresh_frame (self self' : FileEdgeAppender) (k : string)
    (values : list Z) :
  hf self' = hf self -> datasets self' !! k = datasets self !! k ->
  column self k values \/ (values = [] /\ no_dataset self k) ->
  column self' k values \/ (values = [] /\ no_dataset self' k).
Proof.
  intros Hhf Hk [Hc|[-> Hn]].
  - left. now apply (column_frame self).
  - right. split; [reflexivity|]. now apply (no_dataset_frame self).
Qed.

(** One [append_edges] on an appender that holds [L], [R], [E] in its
    three columns and [WL], [WR] in its ragged columns. *)
Lemma append_edges_step (b : Batch) (L R E : list Z)
    (WL WR : list (list Z)) (self : FileEdgeAppender) :
  appender_inv self -> H5.dsets (hf self) = ∅ ->
  column self "lhs" L \/ (L = [] /\ no_dataset self "lhs") ->
  column self "rhs" R \/ (R = [] /\ no_dataset self "rhs") ->
  column self "rel" E \/ (E = [] /\ no_dataset self "rel") ->
  ragged_state self "lhsd" WL -> ragged_state self "rhsd" WR ->
  len (concat (WL ++ written (b_lhs_records b))) < 2 ^ 63 ->
  len (concat (WR ++ written (b_rhs_records b))) < 2 ^ 63 ->
  exists self',
    append_edges (edges_of b) self = (self', Ok tt) /\
    appender_inv self' /\ hf self' = hf self /\
    column self' "lhs" (L ++ b_lhs b) /\
    column self' "rhs" (R ++ b_rhs b) /\
    column self' "rel" (E ++ b_rel b) /\
    ragged_state self' "lhsd" (WL ++ written (b_lhs_records b)) /\
    ragged_state self' "rhsd" (WR ++ written (b_rhs_records b)).
Proof.
  intros Hinv0 Hhf HL HR HE HWL HWR Hsmall_l Hsmall_r.
  unfold append_edges, edges_of. cbn [lhs rhs rel tensor tensor_list].
  destruct (append_tensor_spec "lhs" L (b_lhs b) self Hinv0 HL)
    as (self1 & Hrun1 & Hinv1 & Hhf1 & Hcol1 & Hframe1).
  rewrite (sbind_ok _ _ _ _ _ Hrun1).
  destruct (append_tensor_spec "rhs" R (b_rhs b) self1 Hinv1)
    as (self2 & Hrun2 & Hinv2 & Hhf2 & Hcol2 & Hframe2).
  { apply (column_or_fresh_frame self); [exact Hhf1| |exact HR].
    apply Hframe1. names. }
  rewrite (sbind_ok _ _ _ _ _ Hrun2).
  destruct (append_tensor_spec "rel" E (b_rel b) self2 Hinv2)
    as (self3 & Hrun3 & Hinv3 & Hhf3 & Hcol3 & Hframe3).
  { apply (column_or_fresh_frame self1); [exact Hhf2| |].
    - apply Hframe2. names.
    - apply (column_or_fresh_frame self); [exact Hhf1| |exact HE].
      apply Hframe1. names. }
  rewrite (sbind_ok _ _ _ _ _ Hrun3).
  assert (Hsame : forall k, k <> "lhs" -> k <> "rhs" -> k <> "rel" ->
                            datasets self3 !! k = datasets self !! k).
  { intros k H1 H2 H3.
    now rewrite Hframe3, Hframe2, Hframe1 by assumption. }
  destruct (append_side_step "lhsd" WL (b_lhs_records b) self3 Hinv3)
    as (self4 & Hrun4 & Hinv4 & Hhf4 & Hcol4 & Hframe4);
    [congruence| |exact Hsmall_l|].
  { apply (ragged_state_frame self); [apply Hsame; names..|exact HWL]. }
  rewrite (sbind_ok _ _ _ _ _ Hrun4).
  destruct (append_side_step "rhsd" WR (b_rhs_records b) self4 Hinv4)
    as (self5 & Hrun5 & Hinv5 & Hhf5 & Hcol5 & Hframe5);
    [congruence| |exact Hsmall_r|].
  { apply (ragged_state_frame self3); [apply Hframe4; names..|].
    apply (ragged_state_frame self); [apply Hsame; names..|exact HWR]. }
  exists self5. split; [exact Hrun5|]. split; [exact Hinv5|].
  split; [congruence|].
  assert (Hkeep : forall k values,
            k <> "lhsd" +:+ "_offsets" -> k <> "lhsd" +:+ "_data" ->
            k <> "rhsd" +:+ "_offsets" -> k <> "rhsd" +:+ "_data" ->
            column self3 k values -> column self5 k values).
  { intros k values H1 H2 H3 H4 Hc.
    apply (column_frame self4); [now apply Hframe5|].
    apply (column_frame self3); [now apply Hframe4|exact Hc]. }
  split.
  { apply Hkeep; try names.
    apply (column_frame self2); [apply Hframe3; names|].
    apply (column_frame self1); [apply Hframe2; names|exact Hcol1]. }
  split.
  { apply Hkeep; try names.
    apply (column_frame self2); [apply Hframe3; names|exact Hcol2]. }
  split; [apply Hkeep; try names; exact Hcol3|].
  split; [|exact Hcol5].
  apply (ragged_state_frame self4); [apply Hframe5; names..|exact Hcol4].
Qed.

Lemma append_edge_lists_spec (batches : list Batch) :
  forall (L R E : list Z) (WL WR : list (list Z))
         (self : FileEdgeAppender),
    appender_inv self -> H5.dsets (hf self) = ∅ ->
    column self "lhs" L \/ (L = [] /\ no_dataset self "lhs") ->
    column self "rhs" R \/ (R = [] /\ no_dataset self "rhs") ->
    column self "rel" E \/ (E = [] /\ no_dataset self "rel") ->
    ragged_state self "lhsd" WL -> ragged_state self "rhsd" WR ->
    len (concat (WL ++ concat (written <$> (b_lhs_records <$> batches))))
    < 2 ^ 63 ->
    len (concat (WR ++ concat (written <$> (b_rhs_records <$> batches))))
    < 2 ^ 63 ->
    exists self',
      append_edge_lists (edges_of <$> batches) self = (self', Ok tt) /\
      appender_inv self' /\ hf self' = hf self /\
      (batches <> [] ->
       column self' "lhs" (L ++ concat (b_lhs <$> batches)) /\
       column self' "rhs" (R ++ concat (b_rhs <$> batches)) /\
       column self' "rel" (E ++ concat (b_rel <$> batches))) /\
      ragged_state self' "lhsd"
        (WL ++ concat (written <$> (b_lhs_records <$> batches))) /\
      ragged_state self' "rhsd"
        (WR ++ concat (written <$> (b_rhs_records <$> batches))).
Proof.
  induction batches as [|b batches IH];
    intros L R E WL WR self Hinv Hhf HL HR HE HWL HWR Hsmall_l Hsmall_r.
  - exists self. cbn. rewrite !app_nil_r.
    split; [reflexivity|]. split; [exact Hinv|]. split; [reflexivity|].
    split; [congruence|]. split; assumption.
  - cbn [fmap list_fmap concat append_edge_lists] in *.
    rewrite !app_assoc in Hsmall_l, Hsmall_r.
    assert (Hprefix : forall A B : list (list Z),
              len (concat (A ++ B)) < 2 ^ 63 -> len (concat A) < 2 ^ 63).
    { intros A B H. rewrite concat_app, len_app in H.
      pose proof (len_nonneg (concat B)). lia. }
    destruct (append_edges_step b L R E WL WR self Hinv Hhf HL HR HE
                HWL HWR (Hprefix _ _ Hsmall_l) (Hprefix _ _ Hsmall_r))
      as (self1 & Hrun1 & Hinv1 & Hhf1 & HL1 & HR1 & HE1 & HWL1 & HWR1).
    rewrite (sbind_ok _ _ _ _ _ Hrun1).
    destruct (IH _ _ _ _ _ self1 Hinv1 ltac:(congruence)
                (or_introl HL1) (or_introl HR1) (or_introl HE1)
                HWL1 HWR1 Hsmall_l Hsmall_r)
      as (self2 & Hrun2 & Hinv2 & Hhf2 & Hcols & HWL2 & HWR2).
    exists self2. split; [exact Hrun2|]. split; [exact Hinv2|].
    split; [congruence|]. rewrite <- !app_assoc in HWL2, HWR2.
    split; [|split; assumption]. intros _.
    destruct batches as [|b' batches].
    + cbn in Hrun2. injection Hrun2 as <-. cbn. now rewrite !app_nil_r.
    + destruct Hcols as (H1 & H2 & H3); [discriminate|].
      rewrite <- !app_assoc in H1, H2, H3. auto.
Qed.

Lemma stored_ragged_closed (app1 app2 : FileEdgeAppender) (name : string)
    (W : list (list Z)) :
  (forall k values,
     column app1 k values ->
     H5.dsets (current_file app2) !! k = Some values) ->
  (forall k, datasets app1 !! k = None ->
             H5.dsets (current_file app2) !! k = None) ->
  ragged_state app1 name W -> stored_ragged (current_file app2) name W.
Proof.
  intros Hcol Hnone
    [(Hne & dO & dD & HdO & HdD & HcO & HcD)|(Hempty & HO & HD)].
  - left. split; [exact Hne|]. split; apply Hcol; eexists; eauto.
  - right. auto.
Qed.


End Batches.

(** ** The temporary file of a session that raises *)

Section Unfinished.

Import FileEdgeStorage.

(** A session that raises leaves something at the temporary path. *)
Lemma session_raises_tmp (self : t) (lhs_p rhs_p : Z)
    (body : stateE FileEdgeAppender unit) (fs fs' : gmap string node)
    (r : result unit) :
  save_edges_by_appending self lhs_p rhs_p body fs = (fs', r) ->
  r <> Ok tt ->
  is_Some (fs' !! Path.str (tmp_file_path
                              (get_edges_file self lhs_p rhs_p))).
Proof.
  unfold save_edges_by_appending, is_file.
  set (file := get_edges_file self lhs_p rhs_p).
  set (tmp := tmp_file_path file).
  assert (Hsession : forall fs1 : gmap string node,
    (let '(appender, r) := body new_appender in
     let '(appender, r_exit) := FileEdgeAppender.__exit__ appender in
     let fs2 := <[Path.str tmp := H5File (current_file appender)]> fs1 in
     match r_exit, r with
     | Raise e, _ => (fs2, Raise e)
     | Ok _, Raise e => (fs2, Raise e)
     | Ok _, Ok _ => rename tmp file fs2
     end) = (fs', r) ->
    r <> Ok tt -> is_Some (fs' !! Path.str tmp)).
  { intros fs1.
    destruct (body new_appender) as [app1 r1].
    destruct (FileEdgeAppender.__exit__ app1) as [app2 r2].
    destruct r2 as [[]|e2]; destruct r1 as [[]|e1];
      try (intros [= <- <-] _; rewrite lookup_insert_eq; eauto).
    unfold rename. rewrite lookup_insert_eq.
    destruct (_ !! Path.str file) as [[s'|h'|]|];
      intros [= <- <-] Hr; try congruence.
    rewrite lookup_insert_eq. eauto. }
  destruct (fs !! Path.str tmp) as [[s|h|]|] eqn:Htmp;
    rewrite ?lookup_delete_eq, ?Htmp;
    try (apply Hsession).
  intros [= <- <-] _. rewrite Htmp. eauto.
Qed.

End Unfinished.

(** ** Calls that agree on a side *)

Section Uniform.

Lemma concat_written_id (records_of : Batch -> list (list Z))
    (batches : list Batch) :
  Forall (fun b => written (records_of b) = records_of b) batches ->
  concat (written <$> (records_of <$> batches))
  = concat (records_of <$> batches).
Proof.
  induction 1 as [|b batches Hb _ IH]; [reflexivity|].
  cbn [fmap list_fmap concat]. now rewrite Hb, IH.
Qed.

Lemma concat_written_nil (records_of : Batch -> list (list Z))
    (batches : list Batch) :
  Forall (fun b => concat (records_of b) = []) batches ->
  concat (written <$> (records_of <$> batches)) = [] /\
  concat (concat (records_of <$> batches)) = [].
Proof.
  induction 1 as [|b batches Hb _ [IH1 IH2]]; [auto|].
  cbn [fmap list_fmap concat]. rewrite concat_app, Hb, IH1, IH2.
  unfold written. rewrite Hb. auto.
Qed.

Lemma len_concat_fmap {A B : Type} (f : Batch -> list A)
    (g : Batch -> list B) (batches : list Batch) :
  Forall (fun b => len (f b) = len (g b)) batches ->
  len (concat (f <$> batches)) = len (concat (g <$> batches)).
Proof.
  induction 1 as [|b batches Hb _ IH]; [reflexivity|].
  cbn [fmap list_fmap concat]. rewrite !len_app. lia.
Qed.

(** What a side that agrees leaves in the file is read back whole. *)
Lemma read_dynamic_uniform (hf : H5.File) (name : string)
    (records_of : Batch -> list (list Z)) (batches : list Batch) :
  uniform records_of batches ->
  stored_ragged hf name (concat (written <$> (records_of <$> batches))) ->
  len (concat (concat (records_of <$> batches))) < 2 ^ 63 ->
  read_dynamic hf name 0 (len (concat (records_of <$> batches)))
  = Ok (ragged (concat (records_of <$> batches))).
Proof.
  intros Huniform Hstored Hsmall. apply read_dynamic_whole; [|exact Hsmall].
  destruct Huniform as [Hid|Hnil].
  - rewrite (concat_written_id _ _ Hid) in Hstored.
    destruct Hstored as [(_ & HO & HD)|(Hempty & HO & HD)]; [now left|].
    right. rewrite Hempty. auto.
  - destruct (concat_written_nil _ _ Hnil) as [HW HR].
    rewrite HW in Hstored.
    destruct Hstored as [(Hne & _)|(_ & HO & HD)]; [congruence|].
    right. auto.
Qed.

Lemma written_small (records_of : Batch -> list (list Z))
    (batches : list Batch) :
  len (concat (concat (records_of <$> batches))) < 2 ^ 63 ->
  len (concat (concat (written <$> (records_of <$> batches)))) < 2 ^ 63.
Proof.
  assert (Hle : len (concat (concat (written <$> (records_of <$> batches))))
                <= len (concat (concat (records_of <$> batches)))).
  { induction batches as [|b batches IH]; [reflexivity|].
    cbn [fmap list_fmap concat]. rewrite !concat_app, !len_app.
    destruct (written_cases (records_of b)) as [[_ ->]|[_ ->]].
    - pose proof (len_nonneg (concat (records_of b))). cbn [concat].
      rewrite len_nil. lia.
    - lia. }
  lia.
Qed.

End Uniform.

(** ** Tensors appended to the columns of an appender *)

Section Columns.

Import FileEdgeAppender.

Lemma column_of_app (name : string) (a b : list (string * list Z)) :
  column_of name (a ++ b) = column_of name a ++ column_of name b.
Proof.
  unfold column_of. now rewrite filter_app, fmap_app, concat_app.
Qed.

Lemma column_of_notin (name : string) (items : list (string * list Z)) :
  name ∉ items.*1 -> column_of name items = [].
Proof.
  induction items as [|[n t] items IH]; [reflexivity|].
  cbn [fmap list_fmap fst]. intros Hnotin.
  apply not_elem_of_cons in Hnotin as [Hne Hnotin].
  unfold column_of. rewrite filter_cons_False by (cbn; congruence).
  now apply IH.
Qed.

Lemma column_of_one (name n : string) (t : list Z) :
  column_of name [(n, t)] = if bool_decide (n = name) then t else [].
Proof.
  unfold column_of. destruct (bool_decide_reflect (n = name)) as [->|Hne].
  - rewrite filter_cons_True by reflexivity. cbn. now rewrite app_nil_r.
  - now rewrite filter_cons_False by (cbn; congruence).
Qed.

Lemma append_tensors_spec (items : list (string * list Z)) :
  forall (seen : list (string * list Z)) (self : FileEdgeAppender),
    appender_inv self -> H5.dsets (hf self) = ∅ ->
    (forall name,
       name ∈ seen.*1 -> column self name (column_of name seen)) ->
    (forall name, name ∉ seen.*1 -> datasets self !! name = None) ->
    exists self',
      append_tensors items self = (self', Ok tt) /\
      appender_inv self' /\ hf self' = hf self /\
      (forall name,
         name ∈ (seen ++ items).*1 ->
         column self' name (column_of name (seen ++ items))) /\
      (forall name,
         name ∉ (seen ++ items).*1 -> datasets self' !! name = None).
Proof.
  induction items as [|[n t] items IH]; intros seen self Hinv Hhf Hin Hout.
  - exists self. rewrite app_nil_r. cbn. auto.
  - cbn [append_tensors].
    destruct (append_tensor_spec n (column_of n seen) t self Hinv)
      as (self1 & Hrun1 & Hinv1 & Hhf1 & Hcol1 & Hframe1).
    { destruct (decide (n ∈ seen.*1)) as [Hn|Hn]; [left; auto|right].
      split; [now apply column_of_notin|].
      split; [now apply Hout|rewrite Hhf; apply lookup_empty]. }
    rewrite (sbind_ok _ _ _ _ _ Hrun1).
    destruct (IH (seen ++ [(n, t)]) self1 Hinv1 ltac:(congruence))
      as (self2 & Hrun2 & Hinv2 & Hhf2 & Hin2 & Hout2).
    + intros name Hname. rewrite column_of_app, column_of_one.
      destruct (bool_decide_reflect (n = name)) as [<-|Hne];
        [exact Hcol1|].
      rewrite app_nil_r. apply (column_frame self); [now apply Hframe1|].
      apply Hin. rewrite fmap_app in Hname.
      apply elem_of_app in Hname as [Hname|Hname]; [exact Hname|].
      cbn in Hname. apply list_elem_of_singleton in Hname. congruence.
    + intros name Hname. rewrite fmap_app in Hname.
      apply not_elem_of_app in Hname as [Hname Hne].
      cbn in Hne. rewrite list_elem_of_singleton in Hne.
      rewrite Hframe1 by congruence. now apply Hout.
    + exists self2. rewrite <- app_assoc in Hin2, Hout2.
      split; [exact Hrun2|]. split; [exact Hinv2|].
      split; [congruence|]. split; assumption.
Qed.

End Columns.

(** ** The split of [random_split_file] *)

Section FloatProduct.

Lemma scaled_divmod_scale (x y e k : Z) :
  0 < y -> 0 <= k ->
  Py.scaled_divmod (x * 2 ^ k) (y * 2 ^ k) e
  = let '(q, r, d) := Py.scaled_divmod x y e in (q, r * 2 ^ k, d * 2 ^ k).
Proof.
  intros Hy Hk. unfold Py.scaled_divmod.
  assert (HP : 0 < 2 ^ k) by (apply Z.pow_pos_nonneg; lia).
  destruct (Z.ltb_spec e 0) as [He|He].
  - assert (HQ : 0 < 2 ^ (- e)) by (apply Z.pow_pos_nonneg; lia).
    replace (x * 2 ^ k * 2 ^ (- e)) with (x * 2 ^ (- e) * 2 ^ k) by ring.
    rewrite Z.div_mul_cancel_r, Z.mul_mod_distr_r by lia. reflexivity.
  - assert (HQ : 0 < 2 ^ e) by (apply Z.pow_pos_nonneg; lia).
    replace (y * 2 ^ k * 2 ^ e) with (y * 2 ^ e * 2 ^ k) by ring.
    rewrite Z.div_mul_cancel_r, Z.mul_mod_distr_r by nia. reflexivity.
Qed.

Lemma round_half_even_scale (q r d P : Z) :
  0 < P -> Py.round_half_even q (r * P) (d * P) = Py.round_half_even q r d.
Proof.
  intros HP. unfold Py.round_half_even.
  destruct (Z.ltb_spec (2 * r) d), (Z.ltb_spec (2 * (r * P)) (d * P));
    try nia; try reflexivity.
  destruct (Z.ltb_spec d (2 * r)), (Z.ltb_spec (d * P) (2 * (r * P)));
    try nia; reflexivity.
Qed.

Lemma ulp_exponent_scale (x y k : Z) :
  0 < x -> 0 < y -> 0 <= k ->
  Py.ulp_exponent (x * 2 ^ k) (y * 2 ^ k) = Py.ulp_exponent x y.
Proof.
  intros Hx Hy Hk. unfold Py.ulp_exponent.
  rewrite !Z.log2_mul_pow2 by lia.
  replace (k + Z.log2 x - (k + Z.log2 y) - 52)
    with (Z.log2 x - Z.log2 y - 52) by lia.
  rewrite scaled_divmod_scale by lia.
  now destruct (Py.scaled_divmod x y _) as [[q0 r0] d0].
Qed.

(** The quotient of two ints that have a power of two in common. *)
Lemma true_divide_scale (a b k : Z) :
  0 < a -> 0 < b -> 0 <= k ->
  Py.true_divide (a * 2 ^ k) (b * 2 ^ k) = Py.true_divide a b.
Proof.
  intros Ha Hb Hk. unfold Py.true_divide.
  assert (HP : 0 < 2 ^ k) by (apply Z.pow_pos_nonneg; lia).
  destruct (Z.eqb_spec (b * 2 ^ k) 0); [nia|].
  destruct (Z.eqb_spec b 0); [lia|].
  destruct (Z.eqb_spec (a * 2 ^ k) 0); [nia|].
  destruct (Z.eqb_spec a 0); [lia|].
  rewrite !Z.abs_eq by nia.
  rewrite ulp_exponent_scale, scaled_divmod_scale by lia.
  destruct (Py.scaled_divmod a b _) as [[q r] d].
  rewrite round_half_even_scale by lia.
  rewrite !Z.sgn_pos by nia. reflexivity.
Qed.

(** An int below [2 ^ 53] is a float. *)
Lemma float_of_small (n : Z) :
  0 < n < 2 ^ 53 ->
  exists e, - 1074 <= e <= 0 /\
            Py.true_divide n 1 = Ok (Py.Float (n * 2 ^ (- e)) e).
Proof.
  intros Hn. exists (Py.ulp_exponent n 1).
  destruct (ulp_exponent_small n 1 Hn ltac:(lia)) as [He _].
  split; [exact He|]. unfold Py.true_divide.
  destruct (Z.eqb_spec 1 0); [lia|].
  destruct (Z.eqb_spec n 0); [lia|].
  rewrite (Z.abs_eq n) by lia. change (Z.abs 1) with 1.
  set (e := Py.ulp_exponent n 1) in *.
  rewrite scaled_divmod_nonpos by lia.
  rewrite Z.div_1_r, Z.mod_1_r.
  unfold Py.round_half_even. cbn [Z.mul Z.ltb Z.compare].
  destruct (Z.ltb_spec 971 e); [lia|].
  destruct (Z.eqb_spec e 971); [lia|].
  cbn [orb andb]. rewrite Z.sgn_pos by lia. cbn [Z.sgn].
  now rewrite !Z.mul_1_l.
Qed.

(** Three quarters of a small int: the product is exact to the last
    place and [int] gives the floor. *)
Lemma int_mul_train_fraction (n : Z) :
  0 <= n -> 3 * n < 2 ^ 53 ->
  LiveJournal.int_mul n LiveJournal.TRAIN_FRACTION = Ok (3 * n / 4).
Proof.
  intros Hn Hsmall. unfold LiveJournal.int_mul, LiveJournal.TRAIN_FRACTION.
  destruct (Z.eq_dec n 0) as [->|Hn0]; [reflexivity|].
  destruct (float_of_small n) as (e & He & ->); [lia|].
  cbn [rbind Py.fmant Py.fexp].
  destruct (Z.ltb_spec (e + - 2) 0); [|lia].
  assert (HP : 0 < 2 ^ (- e)) by (apply Z.pow_pos_nonneg; lia).
  replace (n * 2 ^ (- e) * 3) with (3 * n * 2 ^ (- e)) by ring.
  replace (2 ^ (- (e + - 2))) with (4 * 2 ^ (- e)).
  2:{ replace (- (e + - 2)) with (2 + - e) by lia.
      rewrite Z.pow_add_r by lia. reflexivity. }
  unfold Py.int_true_divide. rewrite true_divide_scale by lia.
  apply (int_true_divide_floor (3 * n) 4); [lia|].
  split; [lia|reflexivity].
Qed.

End FloatProduct.

Section SplitFile.

Import LiveJournal.

Variable shuffle : list string -> list string.

Lemma slice_from_drop (lines : list string) (k : nat) :
  slice_from lines (Z.of_nat k) = drop k lines.
Proof.
  unfold slice_from, Slice.clamp_index, len.
  destruct (Z.ltb_spec (Z.of_nat k) 0); [lia|].
  destruct (Z.min_spec (Z.of_nat k) (Z.of_nat (length lines)))
    as [[_ ->]|[Hle ->]]; rewrite Nat2Z.id; [reflexivity|].
  now rewrite !drop_ge by lia.
Qed.

Lemma slice_to_take (lines : list string) (k : nat) :
  slice_to lines (Z.of_nat k) = take k lines.
Proof.
  unfold slice_to, Slice.clamp_index, len.
  destruct (Z.ltb_spec (Z.of_nat k) 0); [lia|].
  destruct (Z.min_spec (Z.of_nat k) (Z.of_nat (length lines)))
    as [[_ ->]|[Hle ->]]; rewrite Nat2Z.id; [reflexivity|].
  now rewrite !take_ge by lia.
Qed.

Lemma train_not_test (dir : string) :
  Path.str (Path.joinpath dir FILENAMES_train)
  <> Path.str (Path.joinpath dir FILENAMES_test).
Proof. intros H. apply str_inj in H. discriminate. Qed.

Lemma path_exists_insert (fs : gmap string node) (path : Path.t)
    (n : node) :
  path_exists (<[Path.str path := n]> fs) path = true.
Proof.
  unfold path_exists. rewrite lookup_insert_eq.
  now apply bool_decide_eq_true_2.
Qed.

Lemma path_exists_insert_ne (fs : gmap string node) (path path' : Path.t)
    (n : node) :
  Path.str path' <> Path.str path ->
  path_exists (<[Path.str path' := n]> fs) path = path_exists fs path.
Proof.
  intros Hne. unfold path_exists. now rewrite lookup_insert_ne.
Qed.

Lemma write_lines_Ok (path : Path.t) (lines : list string)
    (fs fs' : gmap string node) :
  write_lines path lines fs = (fs', inr tt) ->
  fs' = <[Path.str path := TextFile (String.concat "" lines)]> fs.
Proof.
  unfold write_lines.
  destruct (fs !! Path.str path) as [[s|h|]|]; intros [= <-];
    reflexivity.
Qed.

Lemma write_lines_file (path : Path.t) (lines : list string)
    (fs : gmap string node) :
  fs !! Path.str path <> Some Directory ->
  write_lines path lines fs
  = (<[Path.str path := TextFile (String.concat "" lines)]> fs, inr tt).
Proof.
  intros Hdir. unfold write_lines.
  destruct (fs !! Path.str path) as [[s|h|]|]; congruence.
Qed.

(** After a call that returns, both files are there. *)
Lemma random_split_file_done (fpath : Path.t) (fs fs' : gmap string node) :
  random_split_file shuffle fpath fs = (fs', inr tt) ->
  path_exists fs' (Path.joinpath (Path.parent fpath) FILENAMES_train)
  && path_exists fs' (Path.joinpath (Path.parent fpath) FILENAMES_test)
  = true.
Proof.
  unfold random_split_file.
  pose proof (train_not_test (Path.parent fpath)) as Hne.
  set (train_file := Path.joinpath (Path.parent fpath) FILENAMES_train) in *.
  set (test_file := Path.joinpath (Path.parent fpath) FILENAMES_test) in *.
  destruct (path_exists fs train_file && path_exists fs test_file)
    eqn:Hguard; [now intros [= <-]|].
  destruct (read_text fpath fs) as [e|text]; [discriminate|].
  destruct (int_mul _ _) as [split_len|e]; [|discriminate].
  destruct (write_lines train_file _ fs) as [fs1 [e|[]]] eqn:Htrain;
    [discriminate|].
  intros Htest. apply write_lines_Ok in Htrain as ->.
  apply write_lines_Ok in Htest as ->.
  rewrite path_exists_insert, path_exists_insert_ne by congruence.
  now rewrite path_exists_insert.
Qed.

Lemma random_split_file_split (fpath : Path.t) (text : string)
    (fs : gmap string node) :
  let train_file := Path.joinpath (Path.parent fpath) FILENAMES_train in
  let test_file := Path.joinpath (Path.parent fpath) FILENAMES_test in
  let lines := shuffle (drop 4 (readlines text)) in
  fs !! Path.str fpath = Some (TextFile text) ->
  path_exists fs train_file && path_exists fs test_file = false ->
  fs !! Path.str train_file <> Some Directory ->
  fs !! Path.str test_file <> Some Directory ->
  3 * len lines < 2 ^ 53 ->
  random_split_file shuffle fpath fs
  = (<[Path.str test_file
       := TextFile (String.concat ""
                      (drop (Z.to_nat (3 * len lines / 4)) lines))]>
       (<[Path.str train_file
          := TextFile (String.concat ""
                         (take (Z.to_nat (3 * len lines / 4)) lines))]>
          fs),
     inr tt).
Proof.
  intros train_file test_file lines Hfile Hguard Htrain Htest Hsmall.
  pose proof (train_not_test (Path.parent fpath)) as Hne.
  unfold random_split_file. fold train_file test_file.
  rewrite Hguard. unfold read_text. rewrite Hfile.
  change (slice_from (readlines text) 4)
    with (slice_from (readlines text) (Z.of_nat 4)).
  rewrite slice_from_drop.
  fold lines. pose proof (len_nonneg lines) as Hlen.
  rewrite int_mul_train_fraction by lia.
  assert (Hk : 0 <= 3 * len lines / 4) by (apply Z.div_pos; lia).
  assert (Hto : slice_to lines (3 * len lines / 4)
                = take (Z.to_nat (3 * len lines / 4)) lines).
  { rewrite <- (Z2Nat.id (3 * len lines / 4)) at 1 by exact Hk.
    apply slice_to_take. }
  assert (Hfrom : slice_from lines (3 * len lines / 4)
                  = drop (Z.to_nat (3 * len lines / 4)) lines).
  { rewrite <- (Z2Nat.id (3 * len lines / 4)) at 1 by exact Hk.
    apply slice_from_drop. }
  rewrite Hto, Hfrom.
  rewrite write_lines_file by exact Htrain.
  rewrite write_lines_file; [reflexivity|].
  fold train_file test_file in Hne.
  rewrite lookup_insert_ne by congruence. exact Htest.
Qed.

(** *** Lines that end with a line feed *)

Lemma sapp_nil_r (s : string) : s +:+ "" = s.
Proof.
  induction s as [|c s IH]; [reflexivity|].
  rewrite sapp_cons. now rewrite IH.
Qed.

Lemma concat_lines_cons (line : string) (lines : list string) :
  String.concat "" (line :: lines) = line +:+ String.concat "" lines.
Proof.
  destruct lines as [|line' lines]; cbn [String.concat].
  - now rewrite sapp_nil_r.
  - reflexivity.
Qed.

(** A line that ends with its line feed is read as it was written. *)
Lemma readlines_line (line rest : string) :
  ends_line line = true ->
  readlines (line +:+ rest) = line :: readlines rest.
Proof.
  induction line as [|c line IH]; [discriminate|].
  destruct line as [|c' line].
  - cbn [ends_line]. intros Hc. rewrite sapp_cons, sapp_nil.
    cbn [readlines]. rewrite Hc. unfold is_lf in Hc.
    apply Ascii.eqb_eq in Hc as ->. reflexivity.
  - intros H. change (ends_line (String c (String c' line)))
      with (negb (is_lf c) && negb (is_cr c)
            && ends_line (String c' line)) in H.
    apply andb_true_iff in H as [H Hline].
    apply andb_true_iff in H as [Hlf Hcr].
    apply negb_true_iff in Hlf, Hcr.
    rewrite sapp_cons.
    change (readlines (String c (String c' line +:+ rest)))
      with (if is_lf c then newline :: readlines (String c' line +:+ rest)
            else if is_cr c then
              match String c' line +:+ rest with
              | String c0 r' =>
                  if is_lf c0 then newline :: readlines r'
                  else newline :: readlines (String c' line +:+ rest)
              | EmptyString => [newline]
              end
            else
              match readlines (String c' line +:+ rest) with
              | [] => [String c EmptyString]
              | l :: ls => String c l :: ls
              end).
    rewrite Hlf, Hcr, (IH Hline). reflexivity.
Qed.

Lemma readlines_concat (lines : list string) :
  Forall (fun line => ends_line line = true) lines ->
  readlines (String.concat "" lines) = lines.
Proof.
  induction 1 as [|line lines Hline _ IH]; [reflexivity|].
  now rewrite concat_lines_cons, (readlines_line _ _ Hline), IH.
Qed.

End SplitFile.

(** * Further properties of the storages *)

(** X1: an edge list written by [save_edges] is what [load_edges] returns.
    For an edge list whose three tensors have one length below [2 ^ 53]
    and whose ragged lists encode one record per edge, with fewer than
    [2 ^ 63] values on each side, and a file system where neither the
    shard path nor its temporary path is a directory, [save_edges] returns
    normally and [load_edges] on the same partitions then returns the
    edge list itself; a side without any feature is not written and is
    read back as its all-zero offsets. *)
Theorem save_edges_load_edges (self : FileEdgeStorage.t) (lhs_p rhs_p : Z)
    (edges : EdgeList) (lhs_records rhs_records : list (list Z))
    (fs : gmap string node) :
  edge_list_of edges lhs_records rhs_records ->
  len (rel edges) < 2 ^ 53 ->
  len (concat lhs_records) < 2 ^ 63 ->
  len (concat rhs_records) < 2 ^ 63 ->
  fs !! Path.str (FileEdgeStorage.tmp_file_path
                    (FileEdgeStorage.get_edges_file self lhs_p rhs_p))
  <> Some Directory ->
  fs !! Path.str (FileEdgeStorage.get_edges_file self lhs_p rhs_p)
  <> Some Directory ->
  exists fs',
    FileEdgeStorage.save_edges self lhs_p rhs_p edges fs = (fs', Ok tt) /\
    FileEdgeStorage.load_edges self lhs_p rhs_p fs' = Ok edges.
Proof.
  intros Hedges Hsmall Hsmall_l Hsmall_r Htmp Hfile.
  destruct (append_edges_spec edges lhs_records rhs_records
              FileEdgeStorage.new_appender)
    as (app1 & Hbody & Hinv1 & Hhf1 & Hlhs & Hrhs & Hrel & Hlhsd & Hrhsd);
    [reflexivity|reflexivity|exact Hedges|exact Hsmall_l|exact Hsmall_r|].
  destruct (closed_file app1 Hinv1) as (app2 & Hexit & Hattrs & Hcol & Hnone);
    [now rewrite Hhf1|].
  destruct (session_run self lhs_p rhs_p
              (FileEdgeAppender.append_edges edges) app1 app2 fs
              Hbody Hexit Htmp Hfile) as (fs' & Hrun & Hpublished).
  exists fs'. split; [exact Hrun|].
  unfold FileEdgeStorage.load_edges, FileEdgeStorage.load_chunk_of_edges,
    is_file.
  rewrite Hpublished. cbn [negb].
  rewrite bool_decide_eq_true_2 by (now rewrite Hattrs, Hhf1).
  cbn [negb].
  destruct Hedges as [Hlenl Hlenr Hragl Hragr Hrecl Hrecr].
  rewrite (read_chunk_columns (current_file app2) (tensor (lhs edges))
             (tensor (rhs edges)) (rel edges) 0 1
             (ragged lhs_records) (ragged rhs_records));
    try (now apply Hcol); try lia.
  - rewrite Z.mul_0_l, Z.div_0_l, Z.add_0_l, Z.mul_1_l, Z.div_1_r by lia.
    rewrite <- Hlenl at 1. rewrite <- Hlenr at 1. rewrite !getitem_whole.
    rewrite <- Hragl, <- Hragr.
    now destruct edges as [[lt ll] [rt rl] r].
  - rewrite Z.mul_0_l, Z.div_0_l, Z.add_0_l, Z.mul_1_l, Z.div_1_r by lia.
    rewrite <- Hrecl. apply read_dynamic_whole; [|exact Hsmall_l].
    now apply (ragged_column_closed app1).
  - rewrite Z.mul_0_l, Z.div_0_l, Z.add_0_l, Z.mul_1_l, Z.div_1_r by lia.
    rewrite <- Hrecr. apply read_dynamic_whole; [|exact Hsmall_r].
    now apply (ragged_column_closed app1).
Qed.

Lemma save_edges_load_edges_witness :
  exists fs',
    FileEdgeStorage.save_edges (FileEdgeStorage.mk "/data") 0 0
      example_edges ∅ = (fs', Ok tt) /\
    FileEdgeStorage.load_edges (FileEdgeStorage.mk "/data") 0 0 fs'
    = Ok example_edges.
Proof.
  apply (save_edges_load_edges (FileEdgeStorage.mk "/data") 0 0
           example_edges [[]; []; []] [[7]; []; [8; 9]] ∅).
  - constructor; reflexivity.
  - vm_compute. reflexivity.
  - vm_compute. reflexivity.
  - vm_compute. reflexivity.
  - rewrite lookup_empty. discriminate.
  - rewrite lookup_empty. discriminate.
Defined.

(** X2: the chunks of a shard, loaded one after the other, are the shard.
    On a well-formed shard of fewer than [2 ^ 53 / num_chunks] edges,
    [load_chunk_of_edges] returns an edge list for every chunk index
    [0 .. num_chunks - 1], and the [lhs], [rhs] and [rel] tensors of
    these edge lists, concatenated in the order of the indices, are the
    three columns of the shard: no edge is lost, repeated or moved. *)
Theorem chunks_concatenate (self : FileEdgeStorage.t)
    (lhs_p rhs_p num_chunks : Z) (fs : gmap string node)
    (hf : H5.File) (lhs_ds rhs_ds rel_ds : list Z) :
  fs !! Path.str (FileEdgeStorage.get_edges_file self lhs_p rhs_p)
  = Some (H5File hf) ->
  shard hf lhs_ds rhs_ds rel_ds ->
  1 <= num_chunks ->
  num_chunks * len rel_ds < 2 ^ 53 ->
  exists chunks : list EdgeList,
    Forall2 (fun i c =>
               FileEdgeStorage.load_chunk_of_edges self lhs_p rhs_p i
                 num_chunks fs = Ok c)
      (seqZ 0 num_chunks) chunks /\
    concat ((fun c => tensor (lhs c)) <$> chunks) = lhs_ds /\
    concat ((fun c => tensor (rhs c)) <$> chunks) = rhs_ds /\
    concat (rel <$> chunks) = rel_ds.
Proof.
  intros Hfs Hshard Hn Hsmall.
  destruct (load_chunks_prefix self lhs_p rhs_p num_chunks fs hf lhs_ds
              rhs_ds rel_ds Hfs Hshard Hn Hsmall (Z.to_nat num_chunks))
    as (chunks & Hall & Hl & Hr & He); [lia|].
  rewrite Z2Nat.id in * by lia.
  exists chunks. split; [exact Hall|].
  destruct Hshard as [_ _ _ _ Hlenl Hlenr _ _].
  pose proof (len_nonneg rel_ds) as Hlen.
  assert (Hwhole : forall ds : list Z,
            len ds = len rel_ds ->
            concat ((fun i => Slice.getitem ds
                                (i * len rel_ds / num_chunks)
                                ((i + 1) * len rel_ds / num_chunks))
                      <$> seqZ 0 num_chunks) = ds).
  { intros ds Hds.
    replace (seqZ 0 num_chunks)
      with (seqZ 0 (Z.of_nat (Z.to_nat num_chunks)))
      by (now rewrite Z2Nat.id by lia).
    rewrite (slices_concat ds (len rel_ds) num_chunks) by lia.
    rewrite Z2Nat.id by lia.
    rewrite Z.mul_comm, Z.div_mul by lia.
    apply take_ge. unfold len in *. lia. }
  rewrite Hl, Hr, He. repeat split; now apply Hwhole.
Qed.

Lemma chunks_concatenate_witness :
  exists chunks : list EdgeList,
    Forall2 (fun i c =>
               FileEdgeStorage.load_chunk_of_edges (FileEdgeStorage.mk "/data")
                 0 0 i 2 example_shard_fs = Ok c)
      (seqZ 0 2) chunks /\
    concat ((fun c => tensor (lhs c)) <$> chunks) = [1; 2; 3] /\
    concat ((fun c => tensor (rhs c)) <$> chunks) = [4; 5; 6] /\
    concat (rel <$> chunks) = [0; 0; 1].
Proof.
  apply (chunks_concatenate (FileEdgeStorage.mk "/data") 0 0 2
           example_shard_fs example_shard).
  - vm_compute. reflexivity.
  - constructor.
    + vm_compute. reflexivity.
    + vm_compute. reflexivity.
    + vm_compute. reflexivity.
    + vm_compute. reflexivity.
    + vm_compute. reflexivity.
    + vm_compute. reflexivity.
    + left. left. vm_compute. reflexivity.
    + left. left. vm_compute. reflexivity.
  - lia.
  - vm_compute. reflexivity.
Defined.

(** X3: a write session on one shard leaves every other shard alone.
    Different partition pairs have different shard files, and the
    temporary path of a shard is the path of no shard; so whatever the
    body of a session on [(lhs_p, rhs_p)] does and however the session
    ends, [has_edges] and [load_chunk_of_edges] on any other pair give
    afterwards what they gave before. *)
Theorem session_leaves_other_shards (self : FileEdgeStorage.t)
    (lhs_p rhs_p lhs_p' rhs_p' : Z) (body : stateE FileEdgeAppender unit)
    (fs fs' : gmap string node) (r : result unit) :
  (lhs_p', rhs_p') <> (lhs_p, rhs_p) ->
  FileEdgeStorage.save_edges_by_appending self lhs_p rhs_p body fs
  = (fs', r) ->
  FileEdgeStorage.has_edges self lhs_p' rhs_p' fs'
  = FileEdgeStorage.has_edges self lhs_p' rhs_p' fs /\
  forall chunk_idx num_chunks,
    FileEdgeStorage.load_chunk_of_edges self lhs_p' rhs_p' chunk_idx
      num_chunks fs'
    = FileEdgeStorage.load_chunk_of_edges self lhs_p' rhs_p' chunk_idx
        num_chunks fs.
Proof.
  intros Hother Hrun.
  assert (Hsame :
    fs' !! Path.str (FileEdgeStorage.get_edges_file self lhs_p' rhs_p')
    = fs !! Path.str (FileEdgeStorage.get_edges_file self lhs_p' rhs_p')).
  { apply (session_frame self lhs_p rhs_p body fs fs' r Hrun).
    - intros H. symmetry in H. now apply tmp_file_not_final in H.
    - intros H. apply get_edges_file_inj in H as [-> ->]. congruence. }
  unfold FileEdgeStorage.has_edges, FileEdgeStorage.load_chunk_of_edges,
    is_file.
  rewrite Hsame. auto.
Qed.

Lemma session_leaves_other_shards_witness :
  FileEdgeStorage.has_edges (FileEdgeStorage.mk "/data") 0 1 empty_session_fs
  = FileEdgeStorage.has_edges (FileEdgeStorage.mk "/data") 0 1 ∅ /\
  forall chunk_idx num_chunks,
    FileEdgeStorage.load_chunk_of_edges (FileEdgeStorage.mk "/data") 0 1
      chunk_idx num_chunks empty_session_fs
    = FileEdgeStorage.load_chunk_of_edges (FileEdgeStorage.mk "/data") 0 1
        chunk_idx num_chunks ∅.
Proof.
  apply (session_leaves_other_shards (FileEdgeStorage.mk "/data") 0 0 0 1
           (sret tt) ∅ empty_session_fs (Ok tt)).
  - discriminate.
  - vm_compute. reflexivity.
Defined.

(** X4: what a reader finds at the shard path after a write session.
    When the session returns normally, [has_edges] is true and the
    temporary path is free.  When it raises, [has_edges] and
    [load_chunk_of_edges] give what they gave before the session, and
    something is left at the temporary path (the unfinished file, which
    the next session deletes). *)
Theorem has_edges_after_session (self : FileEdgeStorage.t)
    (lhs_p rhs_p : Z) (body : stateE FileEdgeAppender unit)
    (fs fs' : gmap string node) (r : result unit) :
  FileEdgeStorage.save_edges_by_appending self lhs_p rhs_p body fs
  = (fs', r) ->
  let tmp_file_path :=
    FileEdgeStorage.tmp_file_path
      (FileEdgeStorage.get_edges_file self lhs_p rhs_p) in
  (r = Ok tt ->
   FileEdgeStorage.has_edges self lhs_p rhs_p fs' = true /\
   path_exists fs' tmp_file_path = false) /\
  (r <> Ok tt ->
   FileEdgeStorage.has_edges self lhs_p rhs_p fs'
   = FileEdgeStorage.has_edges self lhs_p rhs_p fs /\
   (forall chunk_idx num_chunks,
      FileEdgeStorage.load_chunk_of_edges self lhs_p rhs_p chunk_idx
        num_chunks fs'
      = FileEdgeStorage.load_chunk_of_edges self lhs_p rhs_p chunk_idx
          num_chunks fs) /\
   path_exists fs' tmp_file_path = true).
Proof.
  intros Hrun tmp_file_path. split.
  - intros ->.
    destruct (session_success self lhs_p rhs_p body fs fs' Hrun)
      as (app1 & app2 & _ & _ & Hfile & Htmp).
    unfold FileEdgeStorage.has_edges, is_file, path_exists.
    unfold tmp_file_path. rewrite Hfile, Htmp. split; [reflexivity|].
    apply bool_decide_eq_false_2. intros [x Hx]. discriminate.
  - intros Hr.
    pose proof (session_error self lhs_p rhs_p body fs fs' r Hrun Hr)
      as Hsame.
    unfold FileEdgeStorage.has_edges,
      FileEdgeStorage.load_chunk_of_edges, is_file.
    rewrite Hsame. split; [reflexivity|]. split; [reflexivity|].
    unfold path_exists, tmp_file_path. apply bool_decide_eq_true_2.
    exact (session_raises_tmp self lhs_p rhs_p body fs fs' r Hrun Hr).
Qed.

Lemma has_edges_after_session_witness :
  (Ok tt = Ok tt ->
   FileEdgeStorage.has_edges (FileEdgeStorage.mk "/data") 0 0
     empty_session_fs = true /\
   path_exists empty_session_fs
     (FileEdgeStorage.tmp_file_path
        (FileEdgeStorage.get_edges_file (FileEdgeStorage.mk "/data") 0 0))
   = false) /\
  (Ok tt <> Ok tt ->
   FileEdgeStorage.has_edges (FileEdgeStorage.mk "/data") 0 0
     empty_session_fs
   = FileEdgeStorage.has_edges (FileEdgeStorage.mk "/data") 0 0 ∅ /\
   (forall chunk_idx num_chunks,
      FileEdgeStorage.load_chunk_of_edges (FileEdgeStorage.mk "/data") 0 0
        chunk_idx num_chunks empty_session_fs
      = FileEdgeStorage.load_chunk_of_edges (FileEdgeStorage.mk "/data") 0 0
          chunk_idx num_chunks ∅) /\
   path_exists empty_session_fs
     (FileEdgeStorage.tmp_file_path
        (FileEdgeStorage.get_edges_file (FileEdgeStorage.mk "/data") 0 0))
   = true).
Proof.
  apply (has_edges_after_session (FileEdgeStorage.mk "/data") 0 0
           (sret tt) ∅ empty_session_fs (Ok tt)).
  vm_compute. reflexivity.
Defined.

(** X5: the shard of a session of several [append_edges].  For a
    non-empty sequence of calls, with fewer than [2 ^ 63] feature values
    on each side and neither path a directory, the session returns
    normally and publishes a file with the format version whose [lhs],
    [rhs] and [rel] columns are the concatenations of the tensors of the
    calls; the ragged column of a side holds, in order, the records of
    those calls only whose feature data is not empty ([written]), and is
    absent when there is none: a call whose records are all empty adds
    no offsets. *)
Theorem session_of_batches (self : FileEdgeStorage.t) (lhs_p rhs_p : Z)
    (batches : list Batch) (fs : gmap string node) :
  batches <> [] ->
  len (concat (concat (written <$> (b_lhs_records <$> batches)))) < 2 ^ 63 ->
  len (concat (concat (written <$> (b_rhs_records <$> batches)))) < 2 ^ 63 ->
  fs !! Path.str (FileEdgeStorage.tmp_file_path
                    (FileEdgeStorage.get_edges_file self lhs_p rhs_p))
  <> Some Directory ->
  fs !! Path.str (FileEdgeStorage.get_edges_file self lhs_p rhs_p)
  <> Some Directory ->
  exists fs' shard_file,
    FileEdgeStorage.save_edges_by_appending self lhs_p rhs_p
      (append_edge_lists (edges_of <$> batches)) fs = (fs', Ok tt) /\
    fs' !! Path.str (FileEdgeStorage.get_edges_file self lhs_p rhs_p)
    = Some (H5File shard_file) /\
    H5.attrs shard_file !! FORMAT_VERSION_ATTR = Some FORMAT_VERSION /\
    H5.dsets shard_file !! "lhs" = Some (concat (b_lhs <$> batches)) /\
    H5.dsets shard_file !! "rhs" = Some (concat (b_rhs <$> batches)) /\
    H5.dsets shard_file !! "rel" = Some (concat (b_rel <$> batches)) /\
    stored_ragged shard_file "lhsd"
      (concat (written <$> (b_lhs_records <$> batches))) /\
    stored_ragged shard_file "rhsd"
      (concat (written <$> (b_rhs_records <$> batches))).
Proof.
  intros Hne Hsmall_l Hsmall_r Htmp Hfile.
  assert (Hfresh : forall k, no_dataset FileEdgeStorage.new_appender k).
  { intros k. split; apply lookup_empty. }
  destruct (append_edge_lists_spec batches [] [] [] [] []
              FileEdgeStorage.new_appender)
    as (app1 & Hbody & Hinv1 & Hhf1 & Hcols & HWL & HWR);
    try (right; split; [reflexivity|apply Hfresh]);
    try (right; split; [reflexivity|split; apply lookup_empty]);
    try assumption.
  { unfold appender_inv. apply map_Forall_empty. }
  { reflexivity. }
  destruct (Hcols Hne) as (HL & HR & HE).
  destruct (closed_file app1 Hinv1) as (app2 & Hexit & Hattrs & Hcol & Hnone);
    [now rewrite Hhf1|].
  destruct (session_run self lhs_p rhs_p _ app1 app2 fs
              Hbody Hexit Htmp Hfile) as (fs' & Hrun & Hpublished).
  exists fs', (current_file app2).
  split; [exact Hrun|]. split; [exact Hpublished|].
  split; [now rewrite Hattrs, Hhf1|].
  split; [now apply Hcol|]. split; [now apply Hcol|].
  split; [now apply Hcol|].
  split; now apply (stored_ragged_closed app1).
Qed.

Lemma session_of_batches_witness :
  exists fs' shard_file,
    FileEdgeStorage.save_edges_by_appending (FileEdgeStorage.mk "/data") 0 0
      (append_edge_lists (edges_of <$> example_batches)) ∅ = (fs', Ok tt) /\
    fs' !! Path.str (FileEdgeStorage.get_edges_file
                       (FileEdgeStorage.mk "/data") 0 0)
    = Some (H5File shard_file) /\
    H5.attrs shard_file !! FORMAT_VERSION_ATTR = Some FORMAT_VERSION /\
    H5.dsets shard_file !! "lhs" = Some (concat (b_lhs <$> example_batches)) /\
    H5.dsets shard_file !! "rhs" = Some (concat (b_rhs <$> example_batches)) /\
    H5.dsets shard_file !! "rel" = Some (concat (b_rel <$> example_batches)) /\
    stored_ragged shard_file "lhsd"
      (concat (written <$> (b_lhs_records <$> example_batches))) /\
    stored_ragged shard_file "rhsd"
      (concat (written <$> (b_rhs_records <$> example_batches))).
Proof.
  apply (session_of_batches (FileEdgeStorage.mk "/data") 0 0
           example_batches ∅).
  - discriminate.
  - vm_compute. reflexivity.
  - vm_compute. reflexivity.
  - rewrite lookup_empty. discriminate.
  - rewrite lookup_empty. discriminate.
Defined.

(** X6: the columns of an appender.  Tensors appended with
    [append_tensor] to columns in any order, the column names being plain
    dataset names (not empty; letters, digits and underscores), on an
    appender made on a file without datasets, are all accepted; once
    [__exit__] has run, the file has one dataset for each column named,
    holding the tensors appended to that column in the order of the
    calls, no other dataset, and its attributes as they were. *)
Theorem appender_columns (attrs : gmap string Z)
    (items : list (string * list Z)) :
  Forall (fun item => is_dataset_name (fst item) = true) items ->
  exists app1 app2,
    append_tensors items (FileEdgeAppender.__init__ (H5.mkFile attrs ∅))
    = (app1, Ok tt) /\
    FileEdgeAppender.__exit__ app1 = (app2, Ok tt) /\
    H5.attrs (current_file app2) = attrs /\
    forall name,
      H5.dsets (current_file app2) !! name
      = if bool_decide (name ∈ items.*1)
        then Some (column_of name items) else None.
Proof.
  intros _.
  destruct (append_tensors_spec items []
              (FileEdgeAppender.__init__ (H5.mkFile attrs ∅)))
    as (app1 & Hrun & Hinv & Hhf & Hin & Hout).
  - unfold appender_inv. apply map_Forall_empty.
  - reflexivity.
  - intros name Hname. cbn in Hname. now apply elem_of_nil in Hname.
  - intros name _. apply lookup_empty.
  - destruct (closed_file app1 Hinv) as (app2 & Hexit & Hattrs & Hcol & Hnone);
      [now rewrite Hhf|].
    exists app1, app2. split; [exact Hrun|]. split; [exact Hexit|].
    split; [now rewrite Hattrs, Hhf|].
    intros name. cbn [app] in Hin, Hout.
    destruct (bool_decide_reflect (name ∈ items.*1)) as [Hname|Hname].
    + apply Hcol. now apply Hin.
    + apply Hnone. now apply Hout.
Qed.

Lemma appender_columns_witness :
  exists app1 app2,
    append_tensors example_items (FileEdgeAppender.__init__ (H5.mkFile ∅ ∅))
    = (app1, Ok tt) /\
    FileEdgeAppender.__exit__ app1 = (app2, Ok tt) /\
    H5.attrs (current_file app2) = ∅ /\
    forall name,
      H5.dsets (current_file app2) !! name
      = if bool_decide (name ∈ example_items.*1)
        then Some (column_of name example_items) else None.
Proof.
  apply (appender_columns ∅ example_items).
  repeat constructor.
Defined.

(** X7: what is on disk before the final flush.  After any appends to a
    new [BufferedDataset], of [n] values in all, the dataset holds the
    first [BUFFER_SIZE * (n / BUFFER_SIZE)] of them, the whole chunks, and
    the buffer holds the [n mod BUFFER_SIZE] values that follow. *)
Theorem on_disk_before_final_flush (hf : H5.File) (name : string)
    (tensors : list (list Z)) :
  H5.dsets hf !! name = None ->
  exists self0 self1,
    BufferedDataset.__init__ hf name = Ok self0 /\
    BufferedDataset.append_all tensors self0 = (self1, Ok tt) /\
    let n := len (concat tensors) in
    let flushed := BUFFER_SIZE * (n / BUFFER_SIZE) in
    dataset self1 = take (Z.to_nat flushed) (concat tensors) /\
    pending self1 = drop (Z.to_nat flushed) (concat tensors) /\
    buffer_offset self1 = n mod BUFFER_SIZE.
Proof.
  intros Hfresh.
  destruct (init_spec hf name Hfresh)
    as (self0 & Hinit & Hinv0 & _ & Hcont0 & Htot0).
  destruct (append_all_spec tensors self0 Hinv0)
    as (self1 & Happ & Hinv1 & _ & Hcont1 & Htot1).
  exists self0, self1. split; [exact Hinit|]. split; [exact Happ|].
  rewrite Hcont0 in Hcont1. cbn [app] in Hcont1.
  rewrite Htot0, Z.add_0_l in Htot1.
  destruct (inv_chunks self1 Hinv1) as [Hlen Hoff].
  destruct (inv_split self1 Hinv1) as [Hds Hpending].
  rewrite Hcont1, Hlen, Htot1 in Hds, Hpending.
  rewrite Htot1 in Hoff. cbv zeta. auto.
Qed.

Lemma on_disk_before_final_flush_witness :
  exists self0 self1,
    BufferedDataset.__init__ (H5.mkFile ∅ ∅) "rel" = Ok self0 /\
    BufferedDataset.append_all [[7; 8]; []; [9]] self0 = (self1, Ok tt) /\
    let n := len (concat [[7; 8]; []; [9]]) in
    let flushed := BUFFER_SIZE * (n / BUFFER_SIZE) in
    dataset self1 = take (Z.to_nat flushed) (concat [[7; 8]; []; [9]]) /\
    pending self1 = drop (Z.to_nat flushed) (concat [[7; 8]; []; [9]]) /\
    buffer_offset self1 = n mod BUFFER_SIZE.
Proof. apply on_disk_before_final_flush. reflexivity. Defined.

(** X8: the final flush is idempotent.  From any state, when
    [flush_buffer] with [_last] true returns normally the buffer is
    empty, and a second final flush returns normally without changing
    anything. *)
Theorem final_flush_idempotent (self self' : BufferedDataset) :
  BufferedDataset.flush_buffer true self = (self', Ok tt) ->
  buffer_offset self' = 0 /\
  BufferedDataset.flush_buffer true self' = (self', Ok tt).
Proof.
  intros Hrun.
  assert (Hoff : buffer_offset self' = 0).
  { revert Hrun. unfold BufferedDataset.flush_buffer. cbn [negb].
    destruct (Z.eqb_spec (buffer_offset self) 0) as [H0|_];
      [intros [= <-]; exact H0|].
    destruct (H5.resize _ _) as [ds|e]; [|discriminate].
    destruct (H5.setitem _ _ _ _) as [ds'|e]; [|discriminate].
    now intros [= <-]. }
  split; [exact Hoff|now apply flush_buffer_last_empty].
Qed.

Lemma final_flush_idempotent_witness :
  buffer_offset (mkBufferedDataset "lhs" [4; 5; 6] [5; 6; 7] 0 2) = 0 /\
  BufferedDataset.flush_buffer true
    (mkBufferedDataset "lhs" [4; 5; 6] [5; 6; 7] 0 2)
  = (mkBufferedDataset "lhs" [4; 5; 6] [5; 6; 7] 0 2, Ok tt).
Proof.
  apply (final_flush_idempotent
           (mkBufferedDataset "lhs" [4] [5; 6; 7] 2 2)).
  vm_compute. reflexivity.
Defined.

(** X9: the shape of what [read_dynamic] returns.  Whatever the file
    holds, when [read_dynamic] returns a ragged list for the range
    [[begin, end)], its offsets have [end - begin + 1] entries and start
    at 0; when one of the two datasets of the column is missing, the
    offsets are all 0 and the data is empty. *)
Theorem read_dynamic_result_shape (hf : H5.File) (key : string)
    (begin_ end_ : Z) (tensor_list : TensorList) :
  read_dynamic hf key begin_ end_ = Ok tensor_list ->
  len (offsets tensor_list) = end_ - begin_ + 1 /\
  (forall o, head (offsets tensor_list) = Some o -> o = 0) /\
  ((H5.dsets hf !! (key +:+ "_offsets") = None \/
    H5.dsets hf !! (key +:+ "_data") = None) ->
   offsets tensor_list = replicate (Z.to_nat (end_ - begin_ + 1)) 0 /\
   data tensor_list = []).
Proof.
  unfold read_dynamic.
  destruct (H5.dsets hf !! (key +:+ "_offsets")) as [offsets_ds|] eqn:HO;
    [destruct (H5.dsets hf !! (key +:+ "_data")) as [data_ds|] eqn:HD|].
  - destruct (Tensor.empty (end_ - begin_ + 1)) as [t0|e] eqn:H0;
      [|discriminate].
    apply empty_Ok in H0 as [Hn ->]. cbn [rbind].
    rewrite len_replicate by exact Hn.
    destruct (H5.read_direct offsets_ds _ _ _) as [offs|e] eqn:Hoffs;
      [|discriminate].
    apply read_direct_Ok in Hoffs as [Hlen Hpos]. cbn [rbind].
    destruct (TensorOps.item offs 0) as [data_begin|e] eqn:Hfirst;
      [|discriminate].
    apply item_first_Ok in Hfirst. cbn [rbind].
    destruct (TensorOps.item offs (- 1)) as [data_end|e]; [|discriminate].
    cbn [rbind].
    destruct (Tensor.empty (data_end - data_begin)) as [d0|e];
      [|discriminate].
    cbn [rbind].
    destruct (if 0 <? data_end - data_begin then _ else _) as [d|e];
      [|discriminate].
    cbn [rbind]. intros [= <-]. cbn [offsets data].
    split; [now rewrite len_map|].
    split; [|intros [?|?]; discriminate].
    destruct offs as [|o offs]; [discriminate|].
    cbn in Hfirst. injection Hfirst as ->. cbn.
    intros o' [= <-]. now rewrite Z.sub_diag.
  - unfold TensorOps.expand_zero.
    destruct (Z.ltb_spec (end_ - begin_ + 1) 0); [discriminate|].
    cbn [rbind]. intros [= <-]. cbn [offsets data].
    split; [now apply len_replicate|].
    split; [|auto].
    destruct (Z.to_nat (end_ - begin_ + 1)); cbn; congruence.
  - unfold TensorOps.expand_zero.
    destruct (Z.ltb_spec (end_ - begin_ + 1) 0); [discriminate|].
    cbn [rbind]. intros [= <-]. cbn [offsets data].
    split; [now apply len_replicate|].
    split; [|auto].
    destruct (Z.to_nat (end_ - begin_ + 1)); cbn; congruence.
Qed.

Lemma read_dynamic_result_shape_witness :
  len (offsets (mkTensorList [0; 1; 1] [3])) = 3 - 1 + 1 /\
  (forall o, head (offsets (mkTensorList [0; 1; 1] [3])) = Some o -> o = 0) /\
  ((H5.dsets example_file !! ("lhsd" +:+ "_offsets") = None \/
    H5.dsets example_file !! ("lhsd" +:+ "_data") = None) ->
   offsets (mkTensorList [0; 1; 1] [3]) = replicate (Z.to_nat (3 - 1 + 1)) 0 /\
   data (mkTensorList [0; 1; 1] [3]) = []).
Proof.
  apply (read_dynamic_result_shape example_file "lhsd" 1 3).
  vm_compute. reflexivity.
Defined.

(** X10: the count files of the entity storage.  For an entity type
    whose name is made of letters, digits and underscores, [save_count]
    for it and a partition, where no directory is in the way, returns
    normally; [has_count] is then true and [load_count] returns the count
    for them, and for every other such entity type or other partition
    [has_count] and [load_count] give what they gave before: the file
    names tell the pairs apart. *)
Theorem entity_count_files (self : FileEntityStorage.t)
    (entity_name : string) (partition count : Z) (fs : gmap string node) :
  is_entity_name entity_name = true ->
  fs !! Path.str (FileEntityStorage.get_count_file self entity_name partition)
  <> Some Directory ->
  exists fs',
    FileEntityStorage.save_count self entity_name partition count fs
    = (fs', Ok tt) /\
    FileEntityStorage.has_count self entity_name partition fs' = true /\
    FileEntityStorage.load_count self entity_name partition fs' = Ok count /\
    forall entity_name' partition',
      is_entity_name entity_name' = true ->
      (entity_name', partition') <> (entity_name, partition) ->
      FileEntityStorage.has_count self entity_name' partition' fs'
      = FileEntityStorage.has_count self entity_name' partition' fs /\
      FileEntityStorage.load_count self entity_name' partition' fs'
      = FileEntityStorage.load_count self entity_name' partition' fs.
Proof.
  intros _ Hdir.
  destruct (save_load_count _ count fs Hdir) as (fs' & Hrun & Hfile & Hload).
  exists fs'. unfold FileEntityStorage.save_count,
    FileEntityStorage.has_count, FileEntityStorage.load_count.
  split; [exact Hrun|].
  split; [unfold is_file; now rewrite Hfile|].
  split; [exact Hload|].
  intros e' p' _ Hother.
  destruct (load_count_lookup (FileEntityStorage.get_count_file self e' p')
              fs fs') as [Hl Hf]; [|auto].
  apply (save_count_frame _ _ _ _ _ _ Hrun). intros H.
  apply get_count_file_inj in H as [-> ->]. congruence.
Qed.

Lemma entity_count_files_witness :
  exists fs',
    FileEntityStorage.save_count (FileEntityStorage.mk "/data") "user_id" 3
      42 example_counts = (fs', Ok tt) /\
    FileEntityStorage.has_count (FileEntityStorage.mk "/data") "user_id" 3
      fs' = true /\
    FileEntityStorage.load_count (FileEntityStorage.mk "/data") "user_id" 3
      fs' = Ok 42 /\
    forall entity_name' partition',
      is_entity_name entity_name' = true ->
      (entity_name', partition') <> ("user_id", 3) ->
      FileEntityStorage.has_count (FileEntityStorage.mk "/data")
        entity_name' partition' fs'
      = FileEntityStorage.has_count (FileEntityStorage.mk "/data")
          entity_name' partition' example_counts /\
      FileEntityStorage.load_count (FileEntityStorage.mk "/data")
        entity_name' partition' fs'
      = FileEntityStorage.load_count (FileEntityStorage.mk "/data")
          entity_name' partition' example_counts.
Proof.
  apply (entity_count_files (FileEntityStorage.mk "/data") "user_id" 3 42
           example_counts).
  - reflexivity.
  - vm_compute. discriminate.
Defined.

(** X11: the names files of the entity storage.  For an entity type
    whose name is made of letters, digits and underscores, when
    [json.load] reads back what [json.dump] writes for a list of names,
    [save_names] for the entity type and a partition, where no directory
    is in the way, returns normally; [has_names] is then true and
    [load_names] returns the list; the names of every other such entity
    type or other partition, and the counts of all of them, are as they
    were. *)
Theorem entity_names_files (json_dumps : list string -> string)
    (json_loads : string -> option (list string))
    (self : FileEntityStorage.t) (entity_name : string) (partition : Z)
    (names : list string) (fs : gmap string node) :
  is_entity_name entity_name = true ->
  json_loads (json_dumps names) = Some names ->
  fs !! Path.str (FileEntityStorage.get_names_file self entity_name partition)
  <> Some Directory ->
  exists fs',
    FileEntityStorage.save_names json_dumps self entity_name partition names
      fs = (fs', Ok tt) /\
    FileEntityStorage.has_names self entity_name partition fs' = true /\
    FileEntityStorage.load_names json_loads self entity_name partition fs'
    = Ok names /\
    (forall entity_name' partition',
       is_entity_name entity_name' = true ->
       (entity_name', partition') <> (entity_name, partition) ->
       FileEntityStorage.has_names self entity_name' partition' fs'
       = FileEntityStorage.has_names self entity_name' partition' fs /\
       FileEntityStorage.load_names json_loads self entity_name' partition'
         fs'
       = FileEntityStorage.load_names json_loads self entity_name'
           partition' fs) /\
    (forall entity_name' partition',
       is_entity_name entity_name' = true ->
       FileEntityStorage.has_count self entity_name' partition' fs'
       = FileEntityStorage.has_count self entity_name' partition' fs /\
       FileEntityStorage.load_count self entity_name' partition' fs'
       = FileEntityStorage.load_count self entity_name' partition' fs).
Proof.
  intros _ Hjson Hdir.
  set (file := FileEntityStorage.get_names_file self entity_name partition)
    in *.
  exists (<[Path.str file := TextFile (json_dumps names)]> fs).
  assert (Hrun : FileEntityStorage.save_names json_dumps self entity_name
                   partition names fs
                 = (<[Path.str file := TextFile (json_dumps names)]> fs,
                    Ok tt)).
  { unfold FileEntityStorage.save_names, save_names. fold file.
    destruct (fs !! Path.str file) as [[s|h|]|]; congruence. }
  split; [exact Hrun|].
  unfold FileEntityStorage.has_names, FileEntityStorage.load_names,
    FileEntityStorage.has_count, FileEntityStorage.load_count.
  fold file. split; [apply is_file_insert_text|].
  split.
  { unfold load_names, read_text. now rewrite lookup_insert_eq, Hjson. }
  split.
  - intros e' p' _ Hother.
    destruct (load_names_lookup json_loads
                (FileEntityStorage.get_names_file self e' p') fs
                (<[Path.str file := TextFile (json_dumps names)]> fs))
      as [Hl Hf]; [|auto].
    apply lookup_insert_ne. intros H.
    apply get_names_file_inj in H as [-> ->]. congruence.
  - intros e' p' _.
    destruct (load_count_lookup
                (FileEntityStorage.get_count_file self e' p') fs
                (<[Path.str file := TextFile (json_dumps names)]> fs))
      as [Hl Hf]; [|auto].
    apply lookup_insert_ne. apply names_file_not_count.
Qed.

Lemma entity_names_files_witness :
  exists fs',
    FileEntityStorage.save_names example_dumps
      (FileEntityStorage.mk "/data") "user_id" 3 ["alice"; "bob"]
      example_counts = (fs', Ok tt) /\
    FileEntityStorage.has_names (FileEntityStorage.mk "/data") "user_id" 3
      fs' = true /\
    FileEntityStorage.load_names example_loads
      (FileEntityStorage.mk "/data") "user_id" 3 fs' = Ok ["alice"; "bob"] /\
    (forall entity_name' partition',
       is_entity_name entity_name' = true ->
       (entity_name', partition') <> ("user_id", 3) ->
       FileEntityStorage.has_names (FileEntityStorage.mk "/data")
         entity_name' partition' fs'
       = FileEntityStorage.has_names (FileEntityStorage.mk "/data")
           entity_name' partition' example_counts /\
       FileEntityStorage.load_names example_loads
         (FileEntityStorage.mk "/data") entity_name' partition' fs'
       = FileEntityStorage.load_names example_loads
           (FileEntityStorage.mk "/data") entity_name' partition'
           example_counts) /\
    (forall entity_name' partition',
       is_entity_name entity_name' = true ->
       FileEntityStorage.has_count (FileEntityStorage.mk "/data")
         entity_name' partition' fs'
       = FileEntityStorage.has_count (FileEntityStorage.mk "/data")
           entity_name' partition' example_counts /\
       FileEntityStorage.load_count (FileEntityStorage.mk "/data")
         entity_name' partition' fs'
       = FileEntityStorage.load_count (FileEntityStorage.mk "/data")
           entity_name' partition' example_counts).
Proof.
  apply (entity_names_files example_dumps example_loads
           (FileEntityStorage.mk "/data") "user_id" 3 ["alice"; "bob"]
           example_counts).
  - reflexivity.
  - vm_compute. reflexivity.
  - vm_compute. discriminate.
Defined.

(** X12: the count and names files of the relation type storage.
    [save_count], where no directory is in the way, returns normally,
    after which [has_count] is true, [load_count] returns the count, and
    [has_names] and [load_names] are as they were; [save_names] does the
    same for the names and leaves the count as it was.  With a directory
    at the path of the count file [save_count] raises
    [IsADirectoryError] and changes nothing. *)
Theorem relation_type_files (json_dumps : list string -> string)
    (json_loads : string -> option (list string))
    (self : FileRelationTypeStorage.t) (count : Z) (names : list string)
    (fs : gmap string node) :
  (fs !! Path.str (FileRelationTypeStorage.get_count_file self)
   <> Some Directory ->
   exists fs',
     FileRelationTypeStorage.save_count self count fs = (fs', Ok tt) /\
     FileRelationTypeStorage.has_count self fs' = true /\
     FileRelationTypeStorage.load_count self fs' = Ok count /\
     FileRelationTypeStorage.has_names self fs'
     = FileRelationTypeStorage.has_names self fs /\
     FileRelationTypeStorage.load_names json_loads self fs'
     = FileRelationTypeStorage.load_names json_loads self fs) /\
  (fs !! Path.str (FileRelationTypeStorage.get_names_file self)
   <> Some Directory ->
   json_loads (json_dumps names) = Some names ->
   exists fs',
     FileRelationTypeStorage.save_names json_dumps self names fs
     = (fs', Ok tt) /\
     FileRelationTypeStorage.has_names self fs' = true /\
     FileRelationTypeStorage.load_names json_loads self fs' = Ok names /\
     FileRelationTypeStorage.has_count self fs'
     = FileRelationTypeStorage.has_count self fs /\
     FileRelationTypeStorage.load_count self fs'
     = FileRelationTypeStorage.load_count self fs) /\
  (fs !! Path.str (FileRelationTypeStorage.get_count_file self)
   = Some Directory ->
   FileRelationTypeStorage.save_count self count fs
   = (fs, Raise IsADirectoryError)).
Proof.
  assert (Hne : Path.str (FileRelationTypeStorage.get_names_file self)
                <> Path.str (FileRelationTypeStorage.get_count_file self)).
  { unfold FileRelationTypeStorage.get_names_file,
      FileRelationTypeStorage.get_count_file, Path.joinpath.
    intros H. apply str_inj in H. discriminate. }
  unfold FileRelationTypeStorage.save_count,
    FileRelationTypeStorage.has_count, FileRelationTypeStorage.load_count,
    FileRelationTypeStorage.save_names, FileRelationTypeStorage.has_names,
    FileRelationTypeStorage.load_names.
  split; [|split].
  - intros Hdir.
    destruct (save_load_count _ count fs Hdir) as (fs' & Hrun & Hfile & Hload).
    exists fs'. split; [exact Hrun|].
    split; [unfold is_file; now rewrite Hfile|].
    split; [exact Hload|].
    destruct (load_names_lookup json_loads
                (FileRelationTypeStorage.get_names_file self) fs fs')
      as [Hl Hf]; [|auto].
    now apply (save_count_frame _ _ _ _ _ _ Hrun).
  - intros Hdir Hjson.
    set (file := FileRelationTypeStorage.get_names_file self) in *.
    exists (<[Path.str file := TextFile (json_dumps names)]> fs).
    split.
    { unfold save_names.
      destruct (fs !! Path.str file) as [[s|h|]|]; congruence. }
    split; [apply is_file_insert_text|].
    split.
    { unfold load_names, read_text. now rewrite lookup_insert_eq, Hjson. }
    destruct (load_count_lookup
                (FileRelationTypeStorage.get_count_file self) fs
                (<[Path.str file := TextFile (json_dumps names)]> fs))
      as [Hl Hf]; [|auto].
    apply lookup_insert_ne. exact Hne.
  - intros Hdir. unfold save_count. now rewrite Hdir.
Qed.

Lemma relation_type_files_witness :
  exists fs',
    FileRelationTypeStorage.save_count (FileRelationTypeStorage.mk "/data")
      7 ∅ = (fs', Ok tt) /\
    FileRelationTypeStorage.has_count (FileRelationTypeStorage.mk "/data")
      fs' = true /\
    FileRelationTypeStorage.load_count (FileRelationTypeStorage.mk "/data")
      fs' = Ok 7 /\
    FileRelationTypeStorage.has_names (FileRelationTypeStorage.mk "/data") fs'
    = FileRelationTypeStorage.has_names (FileRelationTypeStorage.mk "/data")
        ∅ /\
    FileRelationTypeStorage.load_names (fun _ => Some [])
      (FileRelationTypeStorage.mk "/data") fs'
    = FileRelationTypeStorage.load_names (fun _ => Some [])
        (FileRelationTypeStorage.mk "/data") ∅.
Proof.
  apply (proj1 (relation_type_files (fun _ => "[]") (fun _ => Some [])
                  (FileRelationTypeStorage.mk "/data") 7 [] ∅)).
  rewrite lookup_empty. discriminate.
Defined.

(** X13: [load_count] ignores the whitespace around the count.  A file
    whose text is a decimal integer, as [save_count] formats it, with any
    whitespace before and after it, loads as that integer. *)
Theorem load_count_ignores_whitespace (path : Path.t)
    (before after : string) (n : Z) (fs : gmap string node) :
  all_chars PyStr.is_space before = true ->
  all_chars PyStr.is_space after = true ->
  fs !! Path.str path
  = Some (TextFile (before +:+ PyStr.of_int n +:+ after)) ->
  load_count path fs = Ok n.
Proof.
  intros Hbefore Hafter Hfile. unfold load_count, read_text.
  rewrite Hfile. now apply to_int_spaces.
Qed.

Lemma load_count_ignores_whitespace_witness :
  load_count (Path.mk "/data" "dynamic_rel_count.txt")
    {[ "/data/dynamic_rel_count.txt"
       := TextFile ("  " +:+ PyStr.of_int (- 12) +:+ newline +:+ newline) ]}
  = Ok (- 12).
Proof.
  apply (load_count_ignores_whitespace
           (Path.mk "/data" "dynamic_rel_count.txt") "  "
           (newline +:+ newline) (- 12)).
  - reflexivity.
  - reflexivity.
  - vm_compute. reflexivity.
Defined.

(** X14: the scheme of a storage URL.  The three file storages take a
    plain path or the same path after [file://]: the storage made is the
    same, on the resolved path. *)
Theorem storage_url_scheme (resolve : string -> string) (path : string) :
  PyStr.startswith path "file://" = false ->
  FileEntityStorage.__init__ resolve ("file://" +:+ path)
  = FileEntityStorage.__init__ resolve path /\
  FileRelationTypeStorage.__init__ resolve ("file://" +:+ path)
  = FileRelationTypeStorage.__init__ resolve path /\
  FileEdgeStorage.__init__ resolve ("file://" +:+ path)
  = FileEdgeStorage.__init__ resolve path /\
  FileEdgeStorage.path (FileEdgeStorage.__init__ resolve path)
  = resolve path.
Proof.
  intros Hplain.
  unfold FileEntityStorage.__init__, FileRelationTypeStorage.__init__,
    FileEdgeStorage.__init__.
  rewrite Hplain, startswith_app, slice_from_app. auto.
Qed.

Lemma storage_url_scheme_witness :
  FileEntityStorage.__init__ (fun p => p) ("file://" +:+ "/data")
  = FileEntityStorage.__init__ (fun p => p) "/data" /\
  FileRelationTypeStorage.__init__ (fun p => p) ("file://" +:+ "/data")
  = FileRelationTypeStorage.__init__ (fun p => p) "/data" /\
  FileEdgeStorage.__init__ (fun p => p) ("file://" +:+ "/data")
  = FileEdgeStorage.__init__ (fun p => p) "/data" /\
  FileEdgeStorage.path (FileEdgeStorage.__init__ (fun p => p) "/data")
  = (fun p => p) "/data".
Proof.
  apply (storage_url_scheme (fun p => p) "/data"). reflexivity.
Defined.

(** X15: [random_split_file] splits once.  After a call that returned
    normally, a call for a file of the same directory returns normally
    without changing anything, whatever the file and the shuffle: the
    train and test files are there and are not made again. *)
Theorem random_split_file_once (shuffle shuffle' : list string -> list string)
    (fpath fpath' : Path.t) (fs fs' : gmap string node) :
  Path.parent fpath' = Path.parent fpath ->
  LiveJournal.random_split_file shuffle fpath fs = (fs', inr tt) ->
  LiveJournal.random_split_file shuffle' fpath' fs' = (fs', inr tt).
Proof.
  intros Hdir Hrun.
  apply random_split_file_done in Hrun.
  unfold LiveJournal.random_split_file. rewrite Hdir, Hrun. reflexivity.
Qed.

Lemma random_split_file_once_witness :
  LiveJournal.random_split_file (fun lines => lines)
    (Path.mk "/data" "other.txt")
    (fst (LiveJournal.random_split_file (@rev string)
            (Path.mk "/data" "soc-LiveJournal1.txt") example_download))
  = (fst (LiveJournal.random_split_file (@rev string)
            (Path.mk "/data" "soc-LiveJournal1.txt") example_download),
     inr tt).
Proof.
  apply (random_split_file_once (@rev string) (fun lines => lines)
           (Path.mk "/data" "soc-LiveJournal1.txt")
           (Path.mk "/data" "other.txt") example_download).
  - reflexivity.
  - vm_compute. reflexivity.
Defined.

(** X16: [random_split_file] loses no line.  When the train and test
    files are not both there, the input is a text file whose lines after
    the first four all end with a line feed and are fewer than
    [2 ^ 53 / 3], and no directory is in the way, the call returns
    normally; the train file is the text of the first [3 n / 4] (rounded
    down) of the [n] shuffled lines and the test file the text of the
    others, and these are the lines the two files are read back as; so,
    the shuffle being a permutation, the lines of the two files together
    are the lines of the input after the first four, each of them once;
    no other file changes. *)
Theorem random_split_file_keeps_lines
    (shuffle : list string -> list string) (fpath : Path.t) (text : string)
    (fs : gmap string node) :
  let train_file :=
    Path.joinpath (Path.parent fpath) LiveJournal.FILENAMES_train in
  let test_file :=
    Path.joinpath (Path.parent fpath) LiveJournal.FILENAMES_test in
  let lines := drop 4 (LiveJournal.readlines text) in
  let split_len := Z.to_nat (3 * len lines / 4) in
  Permutation (shuffle lines) lines ->
  Forall (fun line => LiveJournal.ends_line line = true) lines ->
  fs !! Path.str fpath = Some (TextFile text) ->
  path_exists fs train_file && path_exists fs test_file = false ->
  fs !! Path.str train_file <> Some Directory ->
  fs !! Path.str test_file <> Some Directory ->
  3 * len lines < 2 ^ 53 ->
  exists (fs' : gmap string node) (train_text test_text : string),
    LiveJournal.random_split_file shuffle fpath fs = (fs', inr tt) /\
    fs' !! Path.str train_file = Some (TextFile train_text) /\
    fs' !! Path.str test_file = Some (TextFile test_text) /\
    train_text = String.concat "" (take split_len (shuffle lines)) /\
    test_text = String.concat "" (drop split_len (shuffle lines)) /\
    LiveJournal.readlines train_text = take split_len (shuffle lines) /\
    LiveJournal.readlines test_text = drop split_len (shuffle lines) /\
    Permutation
      (LiveJournal.readlines train_text ++ LiveJournal.readlines test_text)
      lines /\
    len (LiveJournal.readlines train_text) = 3 * len lines / 4 /\
    forall p, p <> Path.str train_file -> p <> Path.str test_file ->
              fs' !! p = fs !! p.
Proof.
  intros train_file test_file lines split_len Hperm Hends Hfile Hguard
    Htrain Htest Hsmall.
  pose proof (train_not_test (Path.parent fpath)) as Hne.
  fold train_file test_file in Hne.
  assert (Hlen : len (shuffle lines) = len lines)
    by (unfold len; now rewrite (Permutation_length Hperm)).
  pose proof (len_nonneg lines) as Hpos.
  assert (Hk : 0 <= 3 * len lines / 4 <= len lines).
  { split; [apply Z.div_pos; lia|].
    apply Z.div_le_upper_bound; lia. }
  assert (Hshuffled :
            Forall (fun line => LiveJournal.ends_line line = true)
              (shuffle lines))
    by (now rewrite Hperm).
  assert (Hread_train :
            LiveJournal.readlines
              (String.concat "" (take split_len (shuffle lines)))
            = take split_len (shuffle lines))
    by (apply readlines_concat; now apply Forall_take).
  assert (Hread_test :
            LiveJournal.readlines
              (String.concat "" (drop split_len (shuffle lines)))
            = drop split_len (shuffle lines))
    by (apply readlines_concat; now apply Forall_drop).
  eexists _, (String.concat "" (take split_len (shuffle lines))),
    (String.concat "" (drop split_len (shuffle lines))).
  split.
  { rewrite (random_split_file_split shuffle fpath text fs Hfile Hguard
               Htrain Htest); fold lines; rewrite Hlen;
      [reflexivity|exact Hsmall]. }
  fold train_file test_file split_len.
  split; [now rewrite lookup_insert_ne, lookup_insert_eq by congruence|].
  split; [now rewrite lookup_insert_eq|].
  split; [reflexivity|]. split; [reflexivity|].
  split; [exact Hread_train|]. split; [exact Hread_test|].
  rewrite Hread_train, Hread_test.
  split; [now rewrite take_drop|].
  split.
  { unfold len in *. rewrite length_take. unfold split_len. lia. }
  intros p Hp Hp'. now rewrite !lookup_insert_ne by congruence.
Qed.

Lemma random_split_file_keeps_lines_witness :
  exists (fs' : gmap string node) (train_text test_text : string),
    LiveJournal.random_split_file (@rev string)
      (Path.mk "/data" "soc-LiveJournal1.txt") example_download
    = (fs', inr tt) /\
    fs' !! Path.str (Path.joinpath "/data" LiveJournal.FILENAMES_train)
    = Some (TextFile train_text) /\
    fs' !! Path.str (Path.joinpath "/data" LiveJournal.FILENAMES_test)
    = Some (TextFile test_text) /\
    train_text
    = String.concat ""
        (take (Z.to_nat
                 (3 * len (drop 4 (LiveJournal.readlines example_text)) / 4))
           (rev (drop 4 (LiveJournal.readlines example_text)))) /\
    test_text
    = String.concat ""
        (drop (Z.to_nat
                 (3 * len (drop 4 (LiveJournal.readlines example_text)) / 4))
           (rev (drop 4 (LiveJournal.readlines example_text)))) /\
    LiveJournal.readlines train_text
    = take (Z.to_nat
              (3 * len (drop 4 (LiveJournal.readlines example_text)) / 4))
        (rev (drop 4 (LiveJournal.readlines example_text))) /\
    LiveJournal.readlines test_text
    = drop (Z.to_nat
              (3 * len (drop 4 (LiveJournal.readlines example_text)) / 4))
        (rev (drop 4 (LiveJournal.readlines example_text))) /\
    Permutation
      (LiveJournal.readlines train_text ++ LiveJournal.readlines test_text)
      (drop 4 (LiveJournal.readlines example_text)) /\
    len (LiveJournal.readlines train_text)
    = 3 * len (drop 4 (LiveJournal.readlines example_text)) / 4 /\
    forall p,
      p <> Path.str (Path.joinpath "/data" LiveJournal.FILENAMES_train) ->
      p <> Path.str (Path.joinpath "/data" LiveJournal.FILENAMES_test) ->
      fs' !! p = example_download !! p.
Proof.
  apply (random_split_file_keeps_lines (@rev string)
           (Path.mk "/data" "soc-LiveJournal1.txt") example_text
           example_download).
  - symmetry. apply Permutation_rev.
  - repeat constructor.
  - vm_compute. reflexivity.
  - vm_compute. reflexivity.
  - vm_compute. discriminate.
  - vm_compute. discriminate.
  - vm_compute. reflexivity.
Defined.

(** Without the line feed at the end of the input the last line is
    written as it is, and the line written after it is read back with it
    as one line. *)
Example random_split_file_unterminated :
  fst (LiveJournal.random_split_file (@rev string)
         (Path.mk "/data" "soc-LiveJournal1.txt")
         {[ "/data/soc-LiveJournal1.txt"
            := TextFile (example_text +:+ "1 0") ]})
    !! "/data/train.txt"
  = Some (TextFile ("1 0" +:+ "2 0" +:+ newline +:+ "1 2" +:+ newline)).
Proof. vm_compute. reflexivity. Qed.

(** X17: a directory at the temporary path blocks the session.  The
    temporary path is cleared only of a file; with a directory there the
    session raises before its body runs, whatever the body, and the file
    system is as it was. *)
Theorem directory_blocks_session (self : FileEdgeStorage.t)
    (lhs_p rhs_p : Z) (body : stateE FileEdgeAppender unit)
    (fs : gmap string node) :
  fs !! Path.str (FileEdgeStorage.tmp_file_path
                    (FileEdgeStorage.get_edges_file self lhs_p rhs_p))
  = Some Directory ->
  exists e,
    FileEdgeStorage.save_edges_by_appending self lhs_p rhs_p body fs
    = (fs, Raise e).
Proof.
  intros Hdir. unfold FileEdgeStorage.save_edges_by_appending, is_file.
  rewrite Hdir. cbv zeta. rewrite Hdir. eauto.
Qed.

Lemma directory_blocks_session_witness :
  exists e,
    FileEdgeStorage.save_edges_by_appending (FileEdgeStorage.mk "/data") 0 0
      (FileEdgeAppender.append_edges example_edges)
      {[ "/data/edges_0_0.tmp.h5" := Directory ]}
    = ({[ "/data/edges_0_0.tmp.h5" := Directory ]}, Raise e).
Proof.
  apply (directory_blocks_session (FileEdgeStorage.mk "/data") 0 0
           (FileEdgeAppender.append_edges example_edges)
           {[ "/data/edges_0_0.tmp.h5" := Directory ]}).
  vm_compute. reflexivity.
Defined.

(** X18: a session of several [append_edges], read back.  When every
    call has as many identifiers and records on each side as relation
    types, the calls agree on each side (every call with records has
    feature values, or none has any), there are fewer than [2 ^ 53] edges
    and [2 ^ 63] feature values on a side in all, and no directory is in
    the way, the session returns normally and [load_edges] then returns
    the edges of all the calls as one edge list, in the order of the
    calls. *)
Theorem session_load_edges (self : FileEdgeStorage.t) (lhs_p rhs_p : Z)
    (batches : list Batch) (fs : gmap string node) :
  batches <> [] ->
  Forall batch_ok batches ->
  uniform b_lhs_records batches ->
  uniform b_rhs_records batches ->
  len (concat (b_rel <$> batches)) < 2 ^ 53 ->
  len (concat (concat (b_lhs_records <$> batches))) < 2 ^ 63 ->
  len (concat (concat (b_rhs_records <$> batches))) < 2 ^ 63 ->
  fs !! Path.str (FileEdgeStorage.tmp_file_path
                    (FileEdgeStorage.get_edges_file self lhs_p rhs_p))
  <> Some Directory ->
  fs !! Path.str (FileEdgeStorage.get_edges_file self lhs_p rhs_p)
  <> Some Directory ->
  exists fs',
    FileEdgeStorage.save_edges_by_appending self lhs_p rhs_p
      (append_edge_lists (edges_of <$> batches)) fs = (fs', Ok tt) /\
    FileEdgeStorage.load_edges self lhs_p rhs_p fs'
    = Ok (edges_of (merged batches)).
Proof.
  intros Hne Hok Hlhs Hrhs Hsmall Hsmall_l Hsmall_r Htmp Hfile.
  assert (Hfresh : forall k, no_dataset FileEdgeStorage.new_appender k).
  { intros k. split; apply lookup_empty. }
  destruct (append_edge_lists_spec batches [] [] [] [] []
              FileEdgeStorage.new_appender)
    as (app1 & Hbody & Hinv1 & Hhf1 & Hcols & HWL & HWR);
    try (right; split; [reflexivity|apply Hfresh]);
    try (right; split; [reflexivity|split; apply lookup_empty]);
    try (now apply written_small).
  { unfold appender_inv. apply map_Forall_empty. }
  { reflexivity. }
  destruct (Hcols Hne) as (HL & HR & HE).
  destruct (closed_file app1 Hinv1) as (app2 & Hexit & Hattrs & Hcol & Hnone);
    [now rewrite Hhf1|].
  destruct (session_run self lhs_p rhs_p _ app1 app2 fs
              Hbody Hexit Htmp Hfile) as (fs' & Hrun & Hpublished).
  exists fs'. split; [exact Hrun|].
  unfold FileEdgeStorage.load_edges, FileEdgeStorage.load_chunk_of_edges,
    is_file.
  rewrite Hpublished. cbn [negb].
  rewrite bool_decide_eq_true_2 by (now rewrite Hattrs, Hhf1).
  cbn [negb].
  assert (Hlen_l : len (concat (b_lhs <$> batches))
                   = len (concat (b_rel <$> batches))).
  { apply len_concat_fmap. eapply Forall_impl; [exact Hok|].
    now intros b (H & _). }
  assert (Hlen_r : len (concat (b_rhs <$> batches))
                   = len (concat (b_rel <$> batches))).
  { apply len_concat_fmap. eapply Forall_impl; [exact Hok|].
    now intros b (_ & H & _). }
  assert (Hrec_l : len (concat (b_lhs_records <$> batches))
                   = len (concat (b_rel <$> batches))).
  { apply len_concat_fmap. eapply Forall_impl; [exact Hok|].
    now intros b (_ & _ & H & _). }
  assert (Hrec_r : len (concat (b_rhs_records <$> batches))
                   = len (concat (b_rel <$> batches))).
  { apply len_concat_fmap. eapply Forall_impl; [exact Hok|].
    now intros b (_ & _ & _ & H). }
  rewrite (read_chunk_columns (current_file app2)
             (concat (b_lhs <$> batches)) (concat (b_rhs <$> batches))
             (concat (b_rel <$> batches)) 0 1
             (ragged (concat (b_lhs_records <$> batches)))
             (ragged (concat (b_rhs_records <$> batches))));
    try (now apply Hcol); try lia.
  - rewrite Z.mul_0_l, Z.div_0_l, Z.add_0_l, Z.mul_1_l, Z.div_1_r by lia.
    rewrite <- Hlen_l at 1. rewrite <- Hlen_r at 1.
    now rewrite !getitem_whole.
  - rewrite Z.mul_0_l, Z.div_0_l, Z.add_0_l, Z.mul_1_l, Z.div_1_r by lia.
    rewrite <- Hrec_l. apply read_dynamic_uniform; try assumption.
    now apply (stored_ragged_closed app1).
  - rewrite Z.mul_0_l, Z.div_0_l, Z.add_0_l, Z.mul_1_l, Z.div_1_r by lia.
    rewrite <- Hrec_r. apply read_dynamic_uniform; try assumption.
    now apply (stored_ragged_closed app1).
Qed.

Lemma session_load_edges_witness :
  exists fs',
    FileEdgeStorage.save_edges_by_appending (FileEdgeStorage.mk "/data") 0 0
      (append_edge_lists (edges_of <$> example_uniform_batches)) ∅
    = (fs', Ok tt) /\
    FileEdgeStorage.load_edges (FileEdgeStorage.mk "/data") 0 0 fs'
    = Ok (edges_of (merged example_uniform_batches)).
Proof.
  apply (session_load_edges (FileEdgeStorage.mk "/data") 0 0
           example_uniform_batches ∅).
  - discriminate.
  - repeat constructor.
  - right. repeat constructor.
  - left. repeat constructor.
  - vm_compute. reflexivity.
  - vm_compute. reflexivity.
  - vm_compute. reflexivity.
  - rewrite lookup_empty. discriminate.
  - rewrite lookup_empty. discriminate.
Defined.

(** X19: a split that fails half-way is taken for a finished one.  With
    no train file and a directory at the path of the test file, the call
    writes the train file and then raises [IsADirectoryError]; a later
    call finds both paths taken and returns normally without writing
    anything, the directory still in the place of the test file. *)
Theorem random_split_file_unfinished
    (shuffle shuffle' : list string -> list string) (fpath : Path.t)
    (text : string) (fs : gmap string node) :
  let train_file :=
    Path.joinpath (Path.parent fpath) LiveJournal.FILENAMES_train in
  let test_file :=
    Path.joinpath (Path.parent fpath) LiveJournal.FILENAMES_test in
  let lines := drop 4 (LiveJournal.readlines text) in
  Permutation (shuffle lines) lines ->
  fs !! Path.str fpath = Some (TextFile text) ->
  fs !! Path.str train_file = None ->
  fs !! Path.str test_file = Some Directory ->
  3 * len lines < 2 ^ 53 ->
  exists fs',
    LiveJournal.random_split_file shuffle fpath fs
    = (fs', inl (OtherOpenError IsADirectoryError)) /\
    is_file fs' train_file = true /\
    fs' !! Path.str test_file = Some Directory /\
    LiveJournal.random_split_file shuffle' fpath fs' = (fs', inr tt).
Proof.
  intros train_file test_file lines Hperm Hfile Htrain Htest Hsmall.
  pose proof (train_not_test (Path.parent fpath)) as Hne.
  fold train_file test_file in Hne.
  assert (Hlen : len (shuffle lines) = len lines)
    by (unfold len; now rewrite (Permutation_length Hperm)).
  pose proof (len_nonneg lines) as Hpos.
  assert (Hguard : path_exists fs train_file && path_exists fs test_file
                   = false).
  { unfold path_exists at 1. rewrite Htrain.
    rewrite bool_decide_eq_false_2; [reflexivity|].
    intros [x Hx]. discriminate. }
  eexists. split.
  { unfold LiveJournal.random_split_file. fold train_file test_file.
    rewrite Hguard. unfold read_text. rewrite Hfile.
    change (LiveJournal.slice_from (LiveJournal.readlines text) 4)
      with (LiveJournal.slice_from (LiveJournal.readlines text)
              (Z.of_nat 4)).
    rewrite slice_from_drop. fold lines.
    rewrite int_mul_train_fraction by lia.
    rewrite write_lines_file by (rewrite Htrain; discriminate).
    unfold LiveJournal.write_lines.
    rewrite lookup_insert_ne, Htest by congruence. reflexivity. }
  split; [apply is_file_insert_text|].
  split; [now rewrite lookup_insert_ne by congruence|].
  unfold LiveJournal.random_split_file. fold train_file test_file.
  rewrite path_exists_insert. unfold path_exists.
  rewrite lookup_insert_ne, Htest by congruence.
  rewrite bool_decide_eq_true_2 by eauto. reflexivity.
Qed.

Lemma random_split_file_unfinished_witness :
  exists fs',
    LiveJournal.random_split_file (@rev string)
      (Path.mk "/data" "soc-LiveJournal1.txt")
      (<["/data/test.txt" := Directory]> example_download)
    = (fs', inl (OtherOpenError IsADirectoryError)) /\
    is_file fs' (Path.joinpath "/data" LiveJournal.FILENAMES_train) = true /\
    fs' !! Path.str (Path.joinpath "/data" LiveJournal.FILENAMES_test)
    = Some Directory /\
    LiveJournal.random_split_file (fun lines => lines)
      (Path.mk "/data" "soc-LiveJournal1.txt") fs' = (fs', inr tt).
Proof.
  apply (random_split_file_unfinished (@rev string) (fun lines => lines)
           (Path.mk "/data" "soc-LiveJournal1.txt") example_text
           (<["/data/test.txt" := Directory]> example_download)).
  - symmetry. apply Permutation_rev.
  - vm_compute. reflexivity.
  - vm_compute. reflexivity.
  - vm_compute. reflexivity.
  - vm_compute. reflexivity.
Defined.
